(** * dscli: the [up] and [rm] commands (cmd/up.go, cmd/rm.go)

    A shallow embedding of the upload command of dscli, which stores a local
    file in a Discord text channel as a sequence of numbered attachments.

    The Go code is effectful: it talks to Discord through a session, reads
    a local file through an [*os.File], sleeps, logs and draws a progress
    bar.  Every function of cmd/up.go is embedded as a computation in a
    small state-and-error monad over a [World] (the remote channels, the
    read offset of the open file and the trace of effects), parameterised
    by an [Env] that fixes what the outside answers: the results of the
    [common] package (which is not part of the sources at hand), of the
    operating system and of the Discord API.

    The deferred [session.Close()] and [localFile.Close()] have no
    effect on what is proved and are left out.

    The handler of cmd/rm.go, which deletes the channel of a file, is
    embedded in the same monad; the answer of Discord to the request to
    delete is a parameter of the handler.

    Conventions.
    - Go's [int] and [int64] are 64-bit two's complement integers, written
      as [Z] with the wrap-around spelled out by [wrap64].
    - A Go [error] is represented by the text of its [Error()] method.
    - Identifiers of channels and messages (Discord snowflakes, opaque
      strings in discordgo) are numbers of type [N]. *)

From Stdlib Require Import ZArith String Ascii DecimalString Lia.
From Stdlib Require DecimalPos.
From stdpp Require Import gmap strings list.

Local Open Scope string_scope.
Local Open Scope list_scope.
Local Open Scope Z_scope.

(** ** Machine integers *)

Definition wrap64 (z : Z) : Z := (z + 2 ^ 63) mod 2 ^ 64 - 2 ^ 63.

Definition int64_range (z : Z) : Prop := - 2 ^ 63 <= z < 2 ^ 63.

(** ** strconv *)

(** [strconv.Itoa] and [strconv.FormatInt(_, 10)]. *)
Definition Itoa (z : Z) : string := NilZero.string_of_int (Z.to_int z).

Definition FormatInt (z : Z) : string := Itoa z.

Definition digit_of (c : ascii) : option Z :=
  let n := Z.of_nat (nat_of_ascii c) in
  if (48 <=? n) && (n <=? 57) then Some (n - 48) else None.

Fixpoint parse_digits (acc : Z) (s : string) : option Z :=
  match s with
  | EmptyString => Some acc
  | String c rest =>
      match digit_of c with
      | Some d => parse_digits (10 * acc + d) rest
      | None => None
      end
  end.

Definition quote (s : string) : string :=
  String (ascii_of_nat 34) (s +:+ String (ascii_of_nat 34) EmptyString).

(** [strconv.Atoi]: an optional sign followed by at least one decimal
    digit; a value outside [int] is a range error. *)
Definition Atoi (s : string) : Z + string :=
  let syntax := inr ("strconv.Atoi: parsing " +:+ quote s +:+ ": invalid syntax") in
  let range := inr ("strconv.Atoi: parsing " +:+ quote s +:+ ": value out of range") in
  let '(neg, body) :=
    match s with
    | String "-" rest => (true, rest)
    | String "+" rest => (false, rest)
    | _ => (false, s)
    end in
  match body with
  | EmptyString => syntax
  | _ =>
      match parse_digits 0 body with
      | None => syntax
      | Some v =>
          let v := if neg then - v else v in
          if (- 2 ^ 63 <=? v) && (v <? 2 ^ 63) then inl v else range
      end
  end.

(** ** path/filepath *)

(** [filepath.Split]: directory (with its trailing separator) and file. *)
Fixpoint filepath_Split (path : string) : string * string :=
  match path with
  | EmptyString => (EmptyString, EmptyString)
  | String c rest =>
      let '(dir, file) := filepath_Split rest in
      if Ascii.eqb c "/" then
        match dir with
        | EmptyString => (String c EmptyString, file)
        | _ => (String c dir, file)
        end
      else
        match dir with
        | EmptyString => (EmptyString, String c file)
        | _ => (String c dir, file)
        end
  end.

(** ** discordgo data *)

Record MessageAttachment := {
  Filename : string;
  Size : Z;
  Content : list Byte.byte   (* the bytes stored behind the attachment *)
}.

Record Message := {
  MsgID : N;
  Attachments : list MessageAttachment
}.

Record Channel := {
  ID : N;
  Name : string;
  Topic : string
}.

Record File := {
  FName : string;
  Reader : list Byte.byte
}.

Record MessageSend := {
  Files : list File
}.

Record ProgressBar := {
  bar_max : Z;
  bar_description : string
}.

(** ** Effects *)

Inductive event : Type :=
| EvOpen (path : string) (err : option string)
| EvChannelCreate (name : string) (resp : Channel + string)
| EvChannelEdit (ch : N) (topic : string) (ok : bool)
| EvSend (ch : N) (req : MessageSend) (resp : Message + string)
| EvPin (ch : N) (msg : N) (ok : bool)
| EvSleep (nanoseconds : Z)
| EvLogRetry (attempt : Z) (waitTime : Z) (err : string)
| EvLog (line : string)
| EvStdout (text : string)
| EvBarNew (bar : ProgressBar)
| EvBarAdd (n : Z).

(** Requests that change the remote side. *)
Definition is_write (e : event) : bool :=
  match e with
  | EvChannelCreate _ _ | EvChannelEdit _ _ _ | EvSend _ _ _ | EvPin _ _ _ => true
  | _ => false
  end.

Definition is_send (e : event) : bool :=
  match e with EvSend _ _ _ => true | _ => false end.

Definition is_open (e : event) : bool :=
  match e with EvOpen _ _ => true | _ => false end.

Definition pin_of (e : event) : option (N * N) :=
  match e with EvPin ch m _ => Some (ch, m) | _ => None end.

Definition sleep_of (e : event) : option Z :=
  match e with EvSleep d => Some d | _ => None end.

Definition stdout_of (e : event) : option string :=
  match e with EvStdout s => Some s | _ => None end.

Definition log_of (e : event) : option string :=
  match e with EvLog s => Some s | _ => None end.

Record World := {
  w_channels : gmap N Channel;          (* the guild's channels *)
  w_messages : gmap N (list Message);   (* per channel, oldest first *)
  w_pinned : list (N * N);
  w_next : N;                           (* next fresh snowflake *)
  w_sends : nat;                        (* send requests issued so far *)
  w_offset : nat;                       (* read offset of the local file *)
  w_trace : list event
}.

Record Env := {
  (* flags of the command: package-level variables set by cobra *)
  upDebug : bool;
  upResume : bool;
  (* package common *)
  MaxDiscordChannels : Z;
  GetDiscordSession_err : option string;
  guild_ID : N;
  ParseFileMap_result : gmap string Channel + string;
  GetMaxFileSizeUpload_result : Z + string;
  EncodeFilename : string -> string + string;
  (* operating system *)
  Open_err : option string;
  Stat_err : option string;
  file_data : list Byte.byte;
  read_err : nat -> option string;      (* a failing read, by offset *)
  (* Discord *)
  create_err : option string;
  edit_ok : bool;
  pin_ok : bool;
  list_err : string -> option string;   (* a failing listing, by afterID *)
  send_err : nat -> option string       (* outcome of the k-th send request *)
}.

(** ** The monad *)

Inductive outcome (A : Type) : Type :=
| Ok (a : A)         (* normal return (a nil error) *)
| Err (e : string)   (* a non-nil error is returned *)
| Crash              (* run-time panic *)
| Timeout.           (* the loop budget of the model ran out *)

Arguments Ok {A} a.
Arguments Err {A} e.
Arguments Crash {A}.
Arguments Timeout {A}.

Definition M (A : Type) : Type := World -> outcome A * World.

Definition ret {A} (a : A) : M A := fun w => (Ok a, w).

Definition fail {A} (e : string) : M A := fun w => (Err e, w).

Definition bind {A B} (m : M A) (k : A -> M B) : M B :=
  fun w =>
    match m w with
    | (Ok a, w') => k a w'
    | (Err e, w') => (Err e, w')
    | (Crash, w') => (Crash, w')
    | (Timeout, w') => (Timeout, w')
    end.

Notation "'let!' x ':=' m 'in' k" := (bind m (fun x => k))
  (at level 10, x name, m at level 100, k at level 200).
Notation "'run' m 'in' k" := (bind m (fun _ => k))
  (at level 10, m at level 100, k at level 200).

Definition lift_err (r : option string) : M unit :=
  match r with
  | None => ret tt
  | Some e => fail e
  end.

Definition lift_result {A} (r : A + string) : M A :=
  match r with
  | inl a => ret a
  | inr e => fail e
  end.

(** World updates. *)

Definition with_trace (e : event) (w : World) : World :=
  {| w_channels := w_channels w; w_messages := w_messages w;
     w_pinned := w_pinned w; w_next := w_next w; w_sends := w_sends w;
     w_offset := w_offset w; w_trace := w_trace w ++ [e] |}.

Definition emit (e : event) : M unit := fun w => (Ok tt, with_trace e w).

Definition with_offset (o : nat) (w : World) : World :=
  {| w_channels := w_channels w; w_messages := w_messages w;
     w_pinned := w_pinned w; w_next := w_next w; w_sends := w_sends w;
     w_offset := o; w_trace := w_trace w |}.

Definition with_send_counted (w : World) : World :=
  {| w_channels := w_channels w; w_messages := w_messages w;
     w_pinned := w_pinned w; w_next := w_next w; w_sends := S (w_sends w);
     w_offset := w_offset w; w_trace := w_trace w |}.

(** Store a new message in a channel and use up its snowflake. *)
Definition with_message (ch : N) (m : Message) (w : World) : World :=
  {| w_channels := w_channels w;
     w_messages := <[ch := default [] (w_messages w !! ch) ++ [m]]> (w_messages w);
     w_pinned := w_pinned w; w_next := N.succ (w_next w); w_sends := w_sends w;
     w_offset := w_offset w; w_trace := w_trace w |}.

Definition with_pin (ch msg : N) (w : World) : World :=
  {| w_channels := w_channels w; w_messages := w_messages w;
     w_pinned := w_pinned w ++ [(ch, msg)]; w_next := w_next w;
     w_sends := w_sends w; w_offset := w_offset w; w_trace := w_trace w |}.

Definition with_channel (c : Channel) (w : World) : World :=
  {| w_channels := <[ID c := c]> (w_channels w); w_messages := w_messages w;
     w_pinned := w_pinned w; w_next := w_next w; w_sends := w_sends w;
     w_offset := w_offset w; w_trace := w_trace w |}.

Definition with_next (n : N) (w : World) : World :=
  {| w_channels := w_channels w; w_messages := w_messages w;
     w_pinned := w_pinned w; w_next := n; w_sends := w_sends w;
     w_offset := w_offset w; w_trace := w_trace w |}.

(** The messages of a channel, oldest first. *)
Definition messages_of (w : World) (ch : N) : list Message :=
  default [] (w_messages w !! ch).

(** The blocks of a channel: the attachments of its messages, oldest
    first (messages without attachment, such as pin notices, carry none). *)
Definition blocks_of (w : World) (ch : N) : list MessageAttachment :=
  concat (map Attachments (messages_of w ch)).

(** Results of [io.ReadFull]. *)
Inductive ioerr : Type :=
| io_nil
| io_EOF
| io_ErrUnexpectedEOF
| io_other (e : string).

Section Program.

Variable env : Env.

(** ** The outside world

    The transport (discordgo) and the operating system are not part of the
    sources; they are modelled by their contract, and what they answer is
    read from [env].  The functions of package [common] are parameters:
    the handler only sees their results. *)

(** A send stores one attachment per file of the request.  Every attempt
    of a retried send transmits the bytes that the file's reader was built
    from. *)

Definition attachment_of (f : File) : MessageAttachment :=
  {| Filename := FName f; Size := Z.of_nat (length (Reader f)); Content := Reader f |}.

Definition ChannelMessageSendComplex (channelID : N) (data : MessageSend) : M Message :=
  fun w =>
    match send_err env (w_sends w) with
    | Some e =>
        (Err e, with_trace (EvSend channelID data (inr e)) (with_send_counted w))
    | None =>
        let m := {| MsgID := w_next w; Attachments := map attachment_of (Files data) |} in
        (Ok m, with_trace (EvSend channelID data (inl m))
                 (with_message channelID m (with_send_counted w)))
    end.

(** A pin that succeeds leaves a notice, a message without attachment,
    in the channel; this is why the resume inspection looks at the two
    newest messages and skips those without attachment. *)
Definition ChannelMessagePin (channelID messageID : N) : M unit :=
  fun w =>
    if pin_ok env then
      let notice := {| MsgID := w_next w; Attachments := [] |} in
      (Ok tt, with_trace (EvPin channelID messageID true)
                (with_message channelID notice (with_pin channelID messageID w)))
    else (Ok tt, with_trace (EvPin channelID messageID false) w).

Definition GuildChannelCreate (guildID : N) (name : string) : M Channel :=
  fun w =>
    match create_err env with
    | Some e => (Err e, with_trace (EvChannelCreate name (inr e)) w)
    | None =>
        let c := {| ID := w_next w; Name := name; Topic := "" |} in
        (Ok c, with_trace (EvChannelCreate name (inl c))
                 (with_next (N.succ (w_next w)) (with_channel c w)))
    end.

Definition ChannelEdit (channelID : N) (topic : string) : M unit :=
  fun w =>
    if edit_ok env then
      match w_channels w !! channelID with
      | Some c =>
          (Ok tt, with_trace (EvChannelEdit channelID topic true)
                    (with_channel {| ID := ID c; Name := Name c; Topic := topic |} w))
      | None => (Ok tt, with_trace (EvChannelEdit channelID topic false) w)
      end
    else (Ok tt, with_trace (EvChannelEdit channelID topic false) w).

(** Modelled from the spec: the listing of the transport port.  With
    afterID "0" it returns the oldest messages in ascending order, without
    anchor the newest messages in descending order, [limit] at most (the
    two listings of the resume inspection: "the single oldest message",
    "the two newest messages"). *)
Definition ChannelMessages (channelID : N) (limit : nat)
    (beforeID afterID aroundID : string) : M (list Message) :=
  fun w =>
    match list_err env afterID with
    | Some e => (Err e, w)
    | None =>
        if String.eqb afterID "0"
        then (Ok (take limit (messages_of w channelID)), w)
        else (Ok (take limit (reverse (messages_of w channelID))), w)
    end.

Definition GetDiscordSession : M unit := lift_err (GetDiscordSession_err env).

Definition ParseFileMap : M (gmap string Channel) :=
  lift_result (ParseFileMap_result env).

Definition GetMaxFileSizeUpload : M Z :=
  lift_result (GetMaxFileSizeUpload_result env).

Definition os_Open (path : string) : M unit :=
  fun w =>
    match Open_err env with
    | Some e => (Err e, with_trace (EvOpen path (Some e)) w)
    | None => (Ok tt, with_trace (EvOpen path None) (with_offset 0 w))
    end.

(** [localFile.Stat()] followed by [stat.Size()]. *)
Definition Stat_Size : M Z :=
  match Stat_err env with
  | Some e => fail e
  | None => ret (Z.of_nat (length (file_data env)))
  end.

(** [io.ReadFull(file, buf)] with [len(buf) = k]: the bytes read (the
    filled prefix [buf[:n]]) and the error. *)
Definition io_ReadFull (k : nat) : M (list Byte.byte * ioerr) :=
  fun w =>
    match read_err env (w_offset w) with
    | Some e => (Ok ([], io_other e), w)
    | None =>
        let got := take k (drop (w_offset w) (file_data env)) in
        let n := length got in
        let err :=
          if (n =? k)%nat then io_nil
          else if (n =? 0)%nat then io_EOF else io_ErrUnexpectedEOF in
        (Ok (got, err), with_offset (w_offset w + n) w)
    end.

(** [io.ReadAll(file)]. *)
Definition io_ReadAll : M (list Byte.byte) :=
  fun w =>
    match read_err env (w_offset w) with
    | Some e => (Err e, w)
    | None =>
        let got := drop (w_offset w) (file_data env) in
        (Ok got, with_offset (w_offset w + length got) w)
    end.

(** The bytes that an [io.ReadFull] into a buffer of [chunkSize] bytes
    finds at the current offset. *)
Definition next_chunk (chunkSize : Z) (w : World) : list Byte.byte :=
  take (Z.to_nat chunkSize) (drop (w_offset w) (file_data env)).

(** [file.Seek(0, io.SeekCurrent)]. *)
Definition Seek_current : M Z := fun w => (Ok (Z.of_nat (w_offset w)), w).

Definition Second : Z := 1000000000.

(** ** cmd/up.go *)

(** The retry loop of [sendMessageWithRetry]; [todo] counts the
    iterations that remain, [maxTries - i], so that the loop condition
    [i < maxTries] reads [todo <> 0]. *)
Fixpoint sendMessageWithRetry_loop (todo : nat) (i : Z) (channelID : N)
    (msg : MessageSend) (maxTries : Z) (err : option string) : M Message :=
  match todo with
  | O =>
      fail ("failed after " +:+ Itoa maxTries +:+ " attempts: "
              +:+ default "<nil>" err)
  | S todo' =>
      fun w =>
        match ChannelMessageSendComplex channelID msg w with
        | (Ok message, w1) => (Ok message, w1)
        | (Err e, w1) =>
            (run (if i <? maxTries - 1 then
                let waitTime := wrap64 (Second * (i + 1)) in
                run emit (EvLogRetry (i + 1) waitTime e) in
                emit (EvSleep waitTime)
              else ret tt) in
             sendMessageWithRetry_loop todo' (i + 1) channelID msg maxTries (Some e)) w1
        | (Crash, w1) => (Crash, w1)
        | (Timeout, w1) => (Timeout, w1)
        end
  end.

Definition sendMessageWithRetry (channelID : N) (msg : MessageSend)
    (maxTries : Z) : M Message :=
  sendMessageWithRetry_loop (Z.to_nat maxTries) 0 channelID msg maxTries None.

Definition createUploadMessage (name : string) (data : list Byte.byte) : MessageSend :=
  {| Files := [ {| FName := name; Reader := data |} ] |}.

Definition verifyChunkSize (chunkSize actualSize : Z) : option string :=
  if actualSize <=? 0 then Some "chunk size cannot be zero or negative"
  else if actualSize >? chunkSize then
    Some ("chunk size " +:+ Itoa actualSize +:+ " exceeds maximum " +:+ Itoa chunkSize)
  else None.

Definition uploadSingleFile (channel : Channel) (filename : string)
    (size : Z) (debug resume : bool) : M unit :=
  fun w =>
    match io_ReadAll w with
    | (Err e, w1) => (Err ("failed to read file: " +:+ e), w1)
    | (Ok data, w1) =>
        (let! bar := (if negb debug then
                        let b := {| bar_max := size;
                                    bar_description := "Uploading " +:+ filename |} in
                        run emit (EvBarNew b) in ret (Some b)
                      else ret None) in
         let msg := createUploadMessage "1" data in
         let! message := sendMessageWithRetry (ID channel) msg 10 in
         run (if negb resume then ChannelMessagePin (ID channel) (MsgID message)
              else ret tt) in
         run (if negb debug && bool_decide (bar <> None) then emit (EvBarAdd size)
              else ret tt) in
         ret tt) w1
    | (Crash, w1) => (Crash, w1)
    | (Timeout, w1) => (Timeout, w1)
    end.

(** The progress report of one chunk: the [if !debug && bar != nil ...
    else if debug ...] statement of the loop of [uploadChunkedFile].
    [log.Printf] writes the line to the standard logger. *)
Definition report_chunk (debug : bool) (bar : option ProgressBar)
    (blockNumber size n : Z) : M unit :=
  if negb debug && bool_decide (bar <> None) then emit (EvBarAdd n)
  else if debug then
    let! offset := Seek_current in
    emit (EvLog ("Chunk " +:+ Itoa blockNumber +:+ ": " +:+ Itoa offset
                   +:+ "/" +:+ Itoa size +:+ " bytes"))
  else ret tt.

(** The body of the [for] loop of [uploadChunkedFile].  The Go loop has no
    bound of its own; [fuel] bounds the iterations of the model, and
    [uploadChunkedFile] passes more than the loop can use. *)
Fixpoint uploadChunkedFile_loop (fuel : nat) (channel : Channel)
    (size chunkSize : Z) (debug : bool) (bar : option ProgressBar)
    (first : bool) (blockNumber : Z) : M unit :=
  match fuel with
  | O => fun w => (Timeout, w)
  | S fuel' =>
      let blockNumber := wrap64 (blockNumber + 1) in
      let! r := io_ReadFull (Z.to_nat chunkSize) in
      let chunk := fst r in
      let n := Z.of_nat (length chunk) in
      match snd r with
      | io_other e =>
          fail ("failed to read chunk " +:+ Itoa blockNumber +:+ ": " +:+ e)
      | _ =>
          if n =? 0 then ret tt
          else
            match verifyChunkSize chunkSize n with
            | Some e =>
                fail ("chunk " +:+ Itoa blockNumber +:+ " validation failed: " +:+ e)
            | None =>
                run report_chunk debug bar blockNumber size n in
                let msg := createUploadMessage (Itoa blockNumber) chunk in
                let! message := sendMessageWithRetry (ID channel) msg 10 in
                run (if first then ChannelMessagePin (ID channel) (MsgID message)
                     else ret tt) in
                if n <? chunkSize then ret tt
                else uploadChunkedFile_loop fuel' channel size chunkSize debug bar
                       false blockNumber
            end
      end
  end.

Definition uploadChunkedFile (channel : Channel) (filename : string)
    (size maxChunkSize : Z) (debug resume : bool) (startBlock : Z) : M unit :=
  let chunkSize := wrap64 (maxChunkSize - 50) in
  if chunkSize <=? 0 then fail "calculated chunk size is too small"
  else
    let! bar := (if negb debug then
                   let b := {| bar_max := size;
                               bar_description := "Uploading " +:+ filename |} in
                   run emit (EvBarNew b) in
                   run emit (EvBarAdd (wrap64 (startBlock * chunkSize))) in
                   ret (Some b)
                 else ret None) in
    let first := negb resume in
    uploadChunkedFile_loop (S (length (file_data env))) channel size chunkSize
      debug bar first startBlock.

(** The [for _, msg := range msgs] loop of the resume branch of [up]:
    the block number named by the newest message that has an attachment. *)
Fixpoint inferBlockNumber (msgs : list Message) (maxDiscordFileSize : Z)
    (blockNumber : Z) : Z + string :=
  match msgs with
  | [] => inl blockNumber
  | msg :: rest =>
      match Attachments msg with
      | [] => inferBlockNumber rest maxDiscordFileSize blockNumber
      | a :: _ =>
          if negb (Size a =? maxDiscordFileSize)
          then inr "complete upload inferred from incomplete last block"
          else Atoi (Filename a)
      end
  end.

(** The resume branch of [up]: the channel, the inferred block size and
    the number of the last block. *)
Definition up_resume (fileMap : gmap string Channel) (remote : string)
    (size : Z) (sizeStr : string) (maxDiscordFileSize : Z) : M (Channel * Z * Z) :=
  match fileMap !! remote with
  | None => fun w => (Crash, w)
  | Some channel =>
      if negb (String.eqb (Topic channel) sizeStr)
      then fail "remote file size does not match local file size"
      else
        let! msgs := ChannelMessages (ID channel) 1 "" "0" "" in
        match msgs with
        | [] => fail "cannot infer block size"
        | m0 :: _ =>
            match Attachments m0 with
            | [] => fail "cannot infer block size"
            | a0 :: _ =>
                if Size a0 >? maxDiscordFileSize then
                  fail ("inferred block size " +:+ Itoa (Size a0)
                          +:+ " is larger than the largest permitted block size "
                          +:+ Itoa maxDiscordFileSize)
                else
                  let maxDiscordFileSize := Size a0 in
                  let! msgs := ChannelMessages (ID channel) 2 "" "" "" in
                  let! blockNumber :=
                    lift_result (inferBlockNumber msgs maxDiscordFileSize 0) in
                  if wrap64 (blockNumber * maxDiscordFileSize) =? size
                  then fail "upload is already complete"
                  else ret (channel, maxDiscordFileSize, blockNumber)
            end
        end
  end.

(** The other branch: a new channel whose topic is the file size. *)
Definition up_create (remote : string) (sizeStr : string)
    (maxDiscordFileSize : Z) : M (Channel * Z * Z) :=
  let! encodedRemote := lift_result (EncodeFilename env remote) in
  fun w =>
    match GuildChannelCreate (guild_ID env) encodedRemote w with
    | (Err e, w1) => (Err ("cannot create remote file: " +:+ e), w1)
    | (Ok channel, w1) =>
        (run ChannelEdit (ID channel) sizeStr in
         ret (channel, maxDiscordFileSize, 0)) w1
    | (Crash, w1) => (Crash, w1)
    | (Timeout, w1) => (Timeout, w1)
    end.

(** The command handler.  [args] are the positional arguments; cobra
    calls the handler with at least one. *)
Definition up (args : list string) : M unit :=
  run GetDiscordSession in
  let! fileMap := ParseFileMap in
  if negb (upResume env) && (Z.of_nat (size fileMap) >=? MaxDiscordChannels env)
  then fail ("max Discord channel limit of " +:+ Itoa (MaxDiscordChannels env)
               +:+ " is reached")
  else
    match args with
    | [] => fun w => (Crash, w)
    | local :: rest =>
        run os_Open local in
        let localBase := snd (filepath_Split local) in
        let remote := match rest with [] => localBase | r :: _ => r end in
        let ok := bool_decide (is_Some (fileMap !! remote)) in
        if ok && negb (upResume env)
        then fail (remote +:+ " already exists on Discord")
        else if negb ok && upResume env
        then fail (remote +:+ " does not exist on Discord")
        else
          let! size := Stat_Size in
          let sizeStr := FormatInt size in
          let! maxDiscordFileSize := GetMaxFileSizeUpload in
          let! st := (if upResume env
                      then up_resume fileMap remote size sizeStr maxDiscordFileSize
                      else up_create remote sizeStr maxDiscordFileSize) in
          let channel := fst (fst st) in
          let maxDiscordFileSize := snd (fst st) in
          let blockNumber := snd st in
          if size <=? maxDiscordFileSize
          then uploadSingleFile channel localBase size (upDebug env) (upResume env)
          else uploadChunkedFile channel localBase size maxDiscordFileSize
                 (upDebug env) (upResume env) blockNumber
    end.

End Program.

(** ** Sample inputs *)

Definition byte_at (i : nat) : Byte.byte :=
  default Byte.x00 (Byte.of_N (N.of_nat i mod 256)).

(** A file of [n] bytes whose byte at offset [i] is [i mod 256]. *)
Definition sample_file (n : nat) : list Byte.byte := map byte_at (seq 0 n).

Definition empty_world : World :=
  {| w_channels := ∅; w_messages := ∅; w_pinned := []; w_next := 1%N;
     w_sends := 0; w_offset := 0; w_trace := [] |}.

(** An environment in which everything outside the command succeeds,
    except the sends that [sends] lets fail. *)
Definition sample_env (debug resume : bool) (fileMap : gmap string Channel)
    (maxFileSize : Z) (data : list Byte.byte) (sends : nat -> option string) : Env :=
  {| upDebug := debug; upResume := resume; MaxDiscordChannels := 500;
     GetDiscordSession_err := None; guild_ID := 0%N;
     ParseFileMap_result := inl fileMap;
     GetMaxFileSizeUpload_result := inl maxFileSize;
     EncodeFilename := fun name => inl name;
     Open_err := None; Stat_err := None; file_data := data;
     read_err := fun _ => None;
     create_err := None; edit_ok := true; pin_ok := true;
     list_err := fun _ => None; send_err := sends |}.

Definition always_ok : nat -> option string := fun _ => None.

Definition always_failing : nat -> option string := fun _ => Some "EOF".

(** Sends succeed up to request [k] (excluded) and fail from then on. *)
Definition failing_from (k : nat) : nat -> option string :=
  fun j => if (k <=? j)%nat then Some "EOF" else None.

(** The file map a later session derives from the guild's channels. *)
Definition fileMap_of (w : World) : gmap string Channel :=
  list_to_map (map (fun c => (Name c, c)) (map snd (map_to_list (w_channels w)))).

(** The events a run appended to the trace. *)
Definition new_events (w w' : World) : list event :=
  drop (length (w_trace w)) (w_trace w').

Definition sum_list (l : list Z) : Z := foldr Z.add 0 l.

(** Events of the retry wrapper. *)
Definition retry_event (e : event) : bool :=
  match e with
  | EvSend _ _ _ | EvSleep _ | EvLogRetry _ _ _ => true
  | _ => false
  end.

(** A successful send, with its channel. *)
Definition sent_in (e : event) : option (N * Message) :=
  match e with EvSend ch _ (inl m) => Some (ch, m) | _ => None end.

Definition retry_msg : MessageSend := createUploadMessage "1" (sample_file 3).

Definition retry_env : Env :=
  sample_env false false ∅ 110 (sample_file 3) always_failing.

(** Quotient rounded up. *)
Definition ceil_div (a b : nat) : nat := (a + b - 1) / b.

(** The block that carries chunk [i] (from 0) of the bytes from offset
    [off] on, in chunks of [K] bytes, numbered from [bn + 1]. *)
Definition block_at (K : nat) (data : list Byte.byte) (bn : Z) (off i : nat)
  : MessageAttachment :=
  {| Filename := Itoa (bn + 1 + Z.of_nat i);
     Size := Z.of_nat (length (take K (drop (off + i * K) data)));
     Content := take K (drop (off + i * K) data) |}.

(** The (channel, message) pair that a pin of the message would record. *)
Definition pin_target (s : N * Message) : N * N := (fst s, MsgID (snd s)).

(** Events of the handler before it starts to upload. *)
Definition setup_event (e : event) : bool :=
  match e with
  | EvOpen _ _ | EvChannelCreate _ _ | EvChannelEdit _ _ _ => true
  | _ => false
  end.

(** A fresh chunked upload that goes through: 150 bytes, attachments of
    at most 110 bytes, hence blocks of 60 bytes. *)
Definition fresh_env : Env :=
  sample_env false false ∅ 110 (sample_file 150) always_ok.

Definition fresh_run : outcome unit * World :=
  up fresh_env ["dir/f.bin"] empty_world.



(** A channel whose topic records another size than the 150 bytes of the
    local file. *)
Definition stale_channel : Channel :=
  {| ID := 1%N; Name := "f.bin"; Topic := "999" |}.

Definition mismatch_env : Env :=
  sample_env false true {[ "f.bin" := stale_channel ]} 110 (sample_file 150)
    always_ok.

(** A channel that already holds the two blocks of 60 bytes of a file of
    120 bytes. *)
Definition complete_channel : Channel :=
  {| ID := 1%N; Name := "f.bin"; Topic := "120" |}.

Definition complete_block (name : string) (off : nat) : MessageAttachment :=
  {| Filename := name; Size := 60; Content := take 60 (drop off (sample_file 120)) |}.

Definition complete_messages : list Message :=
  [ {| MsgID := 2%N; Attachments := [complete_block "1" 0] |};
    {| MsgID := 3%N; Attachments := [] |};
    {| MsgID := 4%N; Attachments := [complete_block "2" 60] |} ].

Definition complete_world : World :=
  {| w_channels := {[ 1%N := complete_channel ]};
     w_messages := {[ 1%N := complete_messages ]};
     w_pinned := [(1%N, 2%N)]; w_next := 5%N;
     w_sends := 0; w_offset := 0; w_trace := [] |}.

Definition complete_env : Env :=
  sample_env false true {[ "f.bin" := complete_channel ]} 110 (sample_file 120)
    always_ok.

(** The same environment under another channel limit. *)
Definition with_limit (limit : Z) (env : Env) : Env :=
  {| upDebug := upDebug env; upResume := upResume env;
     MaxDiscordChannels := limit;
     GetDiscordSession_err := GetDiscordSession_err env;
     guild_ID := guild_ID env;
     ParseFileMap_result := ParseFileMap_result env;
     GetMaxFileSizeUpload_result := GetMaxFileSizeUpload_result env;
     EncodeFilename := EncodeFilename env;
     Open_err := Open_err env; Stat_err := Stat_err env;
     file_data := file_data env; read_err := read_err env;
     create_err := create_err env; edit_ok := edit_ok env;
     pin_ok := pin_ok env; list_err := list_err env;
     send_err := send_err env |}.

(** A guild that is full: the limit is two channels and two files exist;
    the local file is to be uploaded as a third one, or resumed as
    the existing f.bin. *)
Definition other_channel : Channel :=
  {| ID := 9%N; Name := "g.bin"; Topic := "7" |}.

Definition full_fileMap : gmap string Channel :=
  {[ "f.bin" := complete_channel; "g.bin" := other_channel ]}.

Definition full_env (resume : bool) : Env :=
  with_limit 2 (sample_env false resume full_fileMap 110 (sample_file 120) always_ok).

(** An interrupted upload and its resumption.  The file has 150 bytes and
    attachments hold at most 110 bytes.  In the first run block 1 gets
    through and every later request fails; the second run resumes the
    upload in the channel that the first run left behind. *)
Definition interrupted_env : Env :=
  sample_env false false ∅ 110 (sample_file 150) (failing_from 1).

Definition interrupted_run : outcome unit * World :=
  up interrupted_env ["dir/f.bin"] empty_world.

Definition resumed_env : Env :=
  sample_env false true (fileMap_of (snd interrupted_run)) 110 (sample_file 150)
    always_ok.

Definition resumed_run : outcome unit * World :=
  up resumed_env ["dir/f.bin"] (snd interrupted_run).

(** Uploads in debug mode, on the chunked and on the single-shot path. *)
Definition debug_env (n : nat) : Env :=
  sample_env true false ∅ 110 (sample_file n) always_ok.

Definition debug_run (n : nat) : outcome unit * World :=
  up (debug_env n) ["dir/f.bin"] empty_world.

Definition bar_of (e : event) : option event :=
  match e with
  | EvBarNew _ | EvBarAdd _ => Some e
  | _ => None
  end.

Definition name_and_size (a : MessageAttachment) : string * Z :=
  (Filename a, Size a).

(** ** The other version of the upload paths (src/unnamed/part_000)

    The sources hold a second version of the file, with the same handler
    [up] and with upload paths that differ: the retry loops are written
    out in place and do not wait, the single-shot path names its block
    after the file, the chunked path reads with [file.Read] into one
    buffer and, in debug mode, prints a line per block. *)

Module Part000.

Section Program.

Variable env : Env.

(** [file.Read(buf)] with [len(buf) = k]. *)
Definition file_Read (k : nat) : M (list Byte.byte * ioerr) :=
  fun w =>
    match read_err env (w_offset w) with
    | Some e => (Ok ([], io_other e), w)
    | None =>
        let got := take k (drop (w_offset w) (file_data env)) in
        let err := if (length got =? 0)%nat && negb (k =? 0)%nat
                   then io_EOF else io_nil in
        (Ok (got, err), with_offset (w_offset w + length got) w)
    end.

(** The loop [for i := 0; i < maxUploadTries; i++] of both paths; [wrap]
    builds the error of the last attempt. *)
Fixpoint send_loop (todo : nat) (channelID : N) (msg : MessageSend)
    (wrap : string -> string) : M Message :=
  match todo with
  | O => fun w => (Crash, w)   (* leaves the loop with a nil message *)
  | S todo' =>
      fun w =>
        match ChannelMessageSendComplex env channelID msg w with
        | (Ok message, w1) => (Ok message, w1)
        | (Err e, w1) =>
            match todo' with
            | O => (Err (wrap e), w1)
            | S _ => send_loop todo' channelID msg wrap w1
            end
        | (Crash, w1) => (Crash, w1)
        | (Timeout, w1) => (Timeout, w1)
        end
  end.

Definition uploadSingleFile (channel : Channel) (filename : string)
    (size : Z) (debug resume : bool) : M unit :=
  fun w =>
    match io_ReadAll env w with
    | (Err e, w1) => (Err ("failed to read file: " +:+ e), w1)
    | (Ok data, w1) =>
        (let! bar := (if negb debug then
                        let b := {| bar_max := size;
                                    bar_description := "Uploading " +:+ filename |} in
                        run emit (EvBarNew b) in ret (Some b)
                      else ret None) in
         let msg := createUploadMessage filename data in
         let maxUploadTries := 10 in
         let! message :=
           send_loop (Z.to_nat maxUploadTries) (ID channel) msg
             (fun e => "failed to upload file after " +:+ Itoa maxUploadTries
                         +:+ " attempts: " +:+ e) in
         run (if negb resume then ChannelMessagePin env (ID channel) (MsgID message)
              else ret tt) in
         run (if negb debug && bool_decide (bar <> None) then emit (EvBarAdd size)
              else ret tt) in
         ret tt) w1
    | (Crash, w1) => (Crash, w1)
    | (Timeout, w1) => (Timeout, w1)
    end.

Definition newline : string := String (ascii_of_nat 10) EmptyString.

Fixpoint uploadChunkedFile_loop (fuel : nat) (channel : Channel)
    (size chunkSize : Z) (debug : bool) (bar : option ProgressBar)
    (first : bool) (blockNumber : Z) : M unit :=
  match fuel with
  | O => fun w => (Timeout, w)
  | S fuel' =>
      let blockNumber := wrap64 (blockNumber + 1) in
      let! r := file_Read (Z.to_nat chunkSize) in
      let chunk := fst r in
      let n := Z.of_nat (length chunk) in
      match snd r with
      | io_other e =>
          fail ("failed to read chunk " +:+ Itoa blockNumber +:+ ": " +:+ e)
      | err =>
          if n =? 0 then ret tt
          else
            let msg := createUploadMessage (Itoa blockNumber) chunk in
            let! message :=
              send_loop 10 (ID channel) msg
                (fun e => "failed to upload chunk " +:+ Itoa blockNumber
                            +:+ ": " +:+ e) in
            run (if negb debug && bool_decide (bar <> None) then emit (EvBarAdd n)
                 else if debug then
                   let! offset := Seek_current in
                   emit (EvStdout (Itoa size +:+ " " +:+ Itoa offset +:+ newline))
                 else ret tt) in
            run (if first then ChannelMessagePin env (ID channel) (MsgID message)
                 else ret tt) in
            if (n <? chunkSize)
               || match err with io_EOF => true | _ => false end
            then ret tt
            else uploadChunkedFile_loop fuel' channel size chunkSize debug bar
                   false blockNumber
      end
  end.

Definition uploadChunkedFile (channel : Channel) (filename : string)
    (size maxChunkSize : Z) (debug resume : bool) (startBlock : Z) : M unit :=
  let chunkSize := wrap64 (maxChunkSize - 50) in
  if chunkSize <=? 0 then fail "calculated chunk size is too small"
  else
    let blockNumber := startBlock in
    let! bar := (if negb debug then
                   let b := {| bar_max := size;
                               bar_description := "Uploading " +:+ filename |} in
                   run emit (EvBarNew b) in
                   run emit (EvBarAdd (wrap64 (blockNumber * chunkSize))) in
                   ret (Some b)
                 else ret None) in
    let first := negb resume in
    uploadChunkedFile_loop (S (length (file_data env))) channel size chunkSize
      debug bar first blockNumber.

End Program.

End Part000.

(** The chunked path of that version, in debug mode, on the sample file
    of 150 bytes in a channel of its own. *)
Definition part000_debug_run : outcome unit * World :=
  Part000.uploadChunkedFile (debug_env 150)
    {| ID := 1%N; Name := "f.bin"; Topic := "150" |} "f.bin" 150 110 true false 0
    empty_world.

(** The events of the failed attempt [i0 + j] of a wrapped send: the
    request, answered by the error [errs j], and, unless the attempt is
    the final one, the log line and the wait of [i0 + j + 1] seconds. *)
Definition failed_attempt (channelID : N) (msg : MessageSend) (maxTries : Z)
    (errs : nat -> string) (i0 : Z) (j : nat) : list event :=
  let i := i0 + Z.of_nat j in
  EvSend channelID msg (inr (errs j))
    :: (if i <? maxTries - 1
        then [EvLogRetry (i + 1) (Second * (i + 1)) (errs j);
              EvSleep (Second * (i + 1))]
        else []).

(** The single-shot path of that version on the sample file of 110
    bytes. *)
Definition part000_single_run : outcome unit * World :=
  Part000.uploadSingleFile (debug_env 110)
    {| ID := 1%N; Name := "f.bin"; Topic := "110" |} "f.bin" 110 true false
    empty_world.

(** ** cmd/rm.go and the argument checks of both commands *)


(** The [Args] function of [rmCmd]. *)
Definition rmCmd_Args (args : list string) : option string :=
  if (length args <? 1)%nat then Some "requires one argument" else None.

(** The guild without a channel, its messages and its pins. *)
Definition without_channel (ch : N) (w : World) : World :=
  {| w_channels := delete ch (w_channels w);
     w_messages := delete ch (w_messages w);
     w_pinned := filter (fun p => fst p <> ch) (w_pinned w);
     w_next := w_next w; w_sends := w_sends w; w_offset := w_offset w;
     w_trace := w_trace w |}.

(** [session.ChannelDelete]: [delete_err] is the error that the request
    is answered with, if any. *)
Definition ChannelDelete (delete_err : option string) (channelID : N) : M unit :=
  fun w =>
    match delete_err with
    | Some e => (Err e, w)
    | None => (Ok tt, without_channel channelID w)
    end.

(** The handler of [rm]. *)
Definition rm (env : Env) (delete_err : option string) (args : list string)
  : M unit :=
  match args with
  | [] => fun w => (Crash, w)
  | filename :: _ =>
      run GetDiscordSession env in
      let! fileMap := ParseFileMap env in
      match fileMap !! filename with
      | Some channel =>
          fun w =>
            match ChannelDelete delete_err (ID channel) w with
            | (Err e, w1) => (Err ("cannot delete file: " +:+ e), w1)
            | (Ok _, w1) => (Ok tt, w1)
            | (Crash, w1) => (Crash, w1)
            | (Timeout, w1) => (Timeout, w1)
            end
      | None => fail (filename +:+ " not found")
      end
  end.

(** A guild with two files, for the samples of [rm]. *)
Definition rm_world : World :=
  {| w_channels := {[ 1%N := complete_channel; 9%N := other_channel ]};
     w_messages := {[ 1%N := complete_messages;
                     9%N := [ {| MsgID := 10%N;
                                 Attachments := [complete_block "1" 0] |} ] ]};
     w_pinned := [(1%N, 2%N); (9%N, 10%N)]; w_next := 11%N;
     w_sends := 0; w_offset := 0; w_trace := [] |}.

Definition rm_env : Env :=
  sample_env false false full_fileMap 110 [] always_ok.

(** ** Disciplines of the upload paths *)

(** The events that an upload path may add to the trace when it uploads
    to channel [ch]: requests to send to [ch], with the waits and log
    lines of their retries; pins in [ch], unless the upload is a resumed
    one; the progress bar, unless in debug mode; the chunk lines of the
    debug mode. *)
Definition path_event (ch : N) (debug resume : bool) (e : event) : bool :=
  match e with
  | EvSend c _ _ => N.eqb c ch
  | EvSleep _ | EvLogRetry _ _ _ => true
  | EvPin c _ _ => negb resume && N.eqb c ch
  | EvBarNew _ | EvBarAdd _ => negb debug
  | EvLog _ => debug
  | EvStdout _ | EvOpen _ _ | EvChannelCreate _ _ | EvChannelEdit _ _ _ => false
  end.

(** The guild grows in channel [ch] only: the channels are those of
    before, the other channels hold the messages of before, and [ch]
    holds its messages of before followed by new ones. *)
Definition grows (ch : N) (w w' : World) : Prop :=
  w_channels w' = w_channels w
  /\ (forall c, c <> ch -> messages_of w' c = messages_of w c)
  /\ messages_of w ch `prefix_of` messages_of w' ch.

(** A step of an upload to [ch]. *)
Definition extends (ch : N) (debug resume : bool) (w w' : World) : Prop :=
  grows ch w w'
  /\ exists tr,
       w_trace w' = w_trace w ++ tr
       /\ forallb (path_event ch debug resume) tr = true.

(** Requests to send or to pin are addressed to channel [ch]. *)
Definition targets (ch : N) (e : event) : bool :=
  match e with
  | EvSend c _ _ | EvPin c _ _ => N.eqb c ch
  | _ => true
  end.

(** Requests that create or change a channel. *)
Definition is_channel_change (e : event) : bool :=
  match e with
  | EvChannelCreate _ _ | EvChannelEdit _ _ _ => true
  | _ => false
  end.

(** ** What the resume inspection looks at *)

(** The first attachment of the oldest message of a channel. *)
Definition oldest_attachment (w : World) (ch : N) : option MessageAttachment :=
  match messages_of w ch with
  | [] => None
  | m0 :: _ => head (Attachments m0)
  end.

(** The first attachment of the newest of the two newest messages of a
    channel that has one. *)
Definition newest_attachment (w : World) (ch : N) : option MessageAttachment :=
  head (concat (map (fun m => take 1 (Attachments m))
                  (take 2 (reverse (messages_of w ch))))).

(** The name of the remote file: the second argument, or else the file
    part of the local path. *)
Definition remote_name (local : string) (rest : list string) : string :=
  match rest with
  | [] => snd (filepath_Split local)
  | r0 :: _ => r0
  end.

(** A resumed run whose set-up goes through: the session, the file map
    with the channel of the file, the local file and the size limit are
    there, and the topic of the channel is the size of the local file. *)
Definition resume_ready (env : Env) (local : string) (rest : list string)
    (channel : Channel) (mx : Z) : Prop :=
  upResume env = true
  /\ GetDiscordSession_err env = None
  /\ (exists fileMap,
         ParseFileMap_result env = inl fileMap
         /\ fileMap !! remote_name local rest = Some channel)
  /\ Open_err env = None
  /\ Stat_err env = None
  /\ GetMaxFileSizeUpload_result env = inl mx
  /\ Topic channel = FormatInt (Z.of_nat (length (file_data env))).

(** The world after the handler has opened the local file. *)
Definition opened (local : string) (w : World) : World :=
  with_trace (EvOpen local None) (with_offset 0 w).

(** Samples for the errors of the inspection: a channel without message,
    a size limit below the block size, a block with a name that is no
    number. *)
Definition small_limit_env : Env :=
  sample_env false true {[ "f.bin" := complete_channel ]} 50 (sample_file 120)
    always_ok.

Definition misnamed_world : World :=
  {| w_channels := {[ 1%N := complete_channel ]};
     w_messages :=
       {[ 1%N := [ {| MsgID := 2%N; Attachments := [complete_block "1" 0] |};
                   {| MsgID := 4%N; Attachments := [complete_block "two" 60] |} ] ]};
     w_pinned := []; w_next := 5%N;
     w_sends := 0; w_offset := 0; w_trace := [] |}.

(** The completed upload of [fresh_run], resumed. *)
Definition finished_env : Env :=
  sample_env false true (fileMap_of (snd fresh_run)) 110 (sample_file 150)
    always_ok.

(** A fresh upload under a name that is taken, and a resume under a name
    that is not there. *)
Definition taken_env : Env :=
  sample_env false false {[ "f.bin" := complete_channel ]} 110 (sample_file 120)
    always_ok.

Definition absent_env : Env :=
  sample_env false true {[ "f.bin" := complete_channel ]} 110 (sample_file 120)
    always_ok.

(** ** The log of an upload *)


(** A fresh run whose set-up goes through: the session, the file map with
    room for a channel and without the remote name, the local file, the
    size limit and the encoded name are there, and Discord creates the
    channel. *)
Definition fresh_ready (env : Env) (local : string) (rest : list string)
    (enc : string) (mx : Z) : Prop :=
  upResume env = false
  /\ GetDiscordSession_err env = None
  /\ (exists fileMap,
         ParseFileMap_result env = inl fileMap
         /\ Z.of_nat (size fileMap) < MaxDiscordChannels env
         /\ fileMap !! remote_name local rest = None)
  /\ Open_err env = None
  /\ Stat_err env = None
  /\ GetMaxFileSizeUpload_result env = inl mx
  /\ EncodeFilename env (remote_name local rest) = inl enc
  /\ create_err env = None.

(** The world after the set-up of such a run: the local file is open and
    the new channel is there, with the size of the file as its topic if
    Discord took the edit. *)
Definition created (env : Env) (local enc : string) (w : World) : World :=
  snd (ChannelEdit env (w_next w)
         (FormatInt (Z.of_nat (length (file_data env))))
         (snd (GuildChannelCreate env (guild_ID env) enc (opened local w)))).

(** A size limit that leaves no room for a block. *)
Definition tiny_limit_env : Env :=
  sample_env false false ∅ 50 (sample_file 150) always_ok.


(** ** The two versions side by side *)

(** What a world holds apart from its trace: the guild, the counters of
    the transport and the read offset of the local file. *)
Definition stored (w : World)
  : gmap N Channel * gmap N (list Message) * list (N * N) * N * nat * nat :=
  (w_channels w, w_messages w, w_pinned w, w_next w, w_sends w, w_offset w).

(** Two outcomes of the same kind. *)
Definition same_kind {A B : Type} (r : outcome A) (r' : outcome B) : Prop :=
  match r, r' with
  | Ok _, Ok _ | Err _, Err _ | Crash, Crash | Timeout, Timeout => True
  | _, _ => False
  end.

(** An upload whose request to set the topic is refused, interrupted
    after block 1, and its resumption. *)
Definition unedited_env : Env :=
  {| upDebug := false; upResume := false; MaxDiscordChannels := 500;
     GetDiscordSession_err := None; guild_ID := 0%N;
     ParseFileMap_result := inl ∅;
     GetMaxFileSizeUpload_result := inl 110;
     EncodeFilename := fun name => inl name;
     Open_err := None; Stat_err := None; file_data := sample_file 150;
     read_err := fun _ => None;
     create_err := None; edit_ok := false; pin_ok := true;
     list_err := fun _ => None; send_err := failing_from 1 |}.

Definition unedited_channel : Channel :=
  {| ID := 1%N; Name := "f.bin"; Topic := "" |}.

Definition unedited_resume_env : Env :=
  sample_env false true {[ "f.bin" := unedited_channel ]} 110 (sample_file 150)
    always_ok.

(** * Properties *)

(** ** Arithmetic of machine integers *)

Lemma wrap64_small z : int64_range z -> wrap64 z = z.
Proof.
  unfold int64_range, wrap64. intros H.
  rewrite Z.mod_small; lia.
Qed.

#[local] Opaque Itoa wrap64.

(** ** The retry wrapper *)

Section Retry.

Variable env : Env.
Variables (channelID : N) (msg : MessageSend) (maxTries : Z).

Lemma send_ok w :
  send_err env (w_sends w) = None ->
  let m := {| MsgID := w_next w; Attachments := map attachment_of (Files msg) |} in
  ChannelMessageSendComplex env channelID msg w =
    (Ok m, with_trace (EvSend channelID msg (inl m))
             (with_message channelID m (with_send_counted w))).
Proof. intros H. unfold ChannelMessageSendComplex. now rewrite H. Qed.

Lemma send_failed w e :
  send_err env (w_sends w) = Some e ->
  ChannelMessageSendComplex env channelID msg w =
    (Err e, with_trace (EvSend channelID msg (inr e)) (with_send_counted w)).
Proof. intros H. unfold ChannelMessageSendComplex. now rewrite H. Qed.

(** What the loop does when the next [k] requests fail and, if the loop
    has an iteration left after them, the following request succeeds. *)
Lemma sendMessageWithRetry_loop_spec (todo : nat) :
  forall (i : Z) (k : nat) (errs : nat -> string) (e0 : option string) (w : World),
    0 <= i -> i + Z.of_nat todo = maxTries -> maxTries <= 9223372037 ->
    (k <= todo)%nat ->
    (forall j, (j < k)%nat -> send_err env (w_sends w + j) = Some (errs j)) ->
    ((k < todo)%nat -> send_err env (w_sends w + k) = None) ->
    exists r w' tr,
      sendMessageWithRetry_loop env todo i channelID msg maxTries e0 w = (r, w')
      /\ w_trace w' = w_trace w ++ tr
      /\ tr = concat (map (failed_attempt channelID msg maxTries errs i) (seq 0 k))
               ++ match r with
                  | Ok m => [EvSend channelID msg (inl m)]
                  | _ => []
                  end
      /\ omap sleep_of tr
         = map (fun j => Second * (j + 1))
             (seqZ i (Z.min (Z.of_nat k) (maxTries - 1 - i)))
      /\ (if decide (k < todo)%nat
          then length (filter is_send tr) = S k
               /\ exists m, r = Ok m /\ last tr = Some (EvSend channelID msg (inl m))
          else length (filter is_send tr) = k
               /\ r = Err ("failed after " +:+ Itoa maxTries +:+ " attempts: "
                             +:+ default "<nil>"
                                   (match k with O => e0 | S k' => Some (errs k') end))
               /\ match k with
                  | O => tr = []
                  | S k' => last tr = Some (EvSend channelID msg (inr (errs k')))
                  end).
Proof.
  induction todo as [|todo IH]; intros i k errs e0 w Hi Hsum Hmax Hk Hfail Hok.
  - assert (k = 0)%nat as -> by lia. simpl.
    exists (Err ("failed after " +:+ Itoa maxTries +:+ " attempts: " +:+ default "<nil>" e0)), w, [].
    rewrite app_nil_r. repeat split; try reflexivity.
    rewrite seqZ_nil by lia. reflexivity.
  - destruct k as [|k].
    + (* the request succeeds *)
      simpl sendMessageWithRetry_loop.
      rewrite send_ok by (rewrite <- (Nat.add_0_r (w_sends w)); apply Hok; lia).
      eexists _, _, [_]. split; [reflexivity|].
      split; [reflexivity|]. split; [reflexivity|]. split.
      { rewrite Z.min_l by lia. reflexivity. }
      destruct (decide (0 < S todo)%nat); [|lia].
      split; [reflexivity|]. eexists. split; reflexivity.
    + (* the request fails *)
      simpl sendMessageWithRetry_loop.
      rewrite (send_failed w (errs 0%nat))
        by (rewrite <- (Nat.add_0_r (w_sends w)); apply Hfail; lia).
      set (w1 := with_trace _ (with_send_counted w)).
      assert (Hs1 : w_sends w1 = S (w_sends w)) by reflexivity.
      assert (Ht1 : w_trace w1 = w_trace w ++ [EvSend channelID msg (inr (errs 0%nat))])
        by reflexivity.
      destruct (Z.ltb_spec i (maxTries - 1)) as [Hlt|Hge].
      * (* a wait follows *)
        rewrite wrap64_small by (unfold int64_range, Second; lia).
        set (w2 := with_trace (EvSleep (Second * (i + 1)))
                     (with_trace (EvLogRetry (i + 1) (Second * (i + 1)) (errs 0%nat)) w1)).
        destruct (IH (i + 1) k (fun j => errs (S j)) (Some (errs 0%nat)) w2)
          as (r & w' & tr & Hrun & Htr & Hexact & Hsleep & Hres); try lia.
        { intros j Hj. change (w_sends w2) with (S (w_sends w)).
          replace (S (w_sends w) + j)%nat with (w_sends w + S j)%nat by lia.
          apply Hfail. lia. }
        { intros Hj. change (w_sends w2) with (S (w_sends w)).
          replace (S (w_sends w) + k)%nat with (w_sends w + S k)%nat by lia.
          apply Hok. lia. }
        exists r, w',
          ([EvSend channelID msg (inr (errs 0%nat));
            EvLogRetry (i + 1) (Second * (i + 1)) (errs 0%nat);
            EvSleep (Second * (i + 1))] ++ tr).
        split.
        { unfold bind, emit. fold w2. exact Hrun. }
        split.
        { rewrite Htr. unfold w2, w1. simpl.
          rewrite <- !app_assoc. reflexivity. }
        split.
        { rewrite Hexact at 1. cbn [seq map concat]. rewrite <- seq_shift, map_map.
          unfold failed_attempt at 2. cbn [Z.of_nat]. rewrite Z.add_0_r.
          destruct (Z.ltb_spec i (maxTries - 1)) as [_|Hge']; [|lia].
          cbn [app]. do 3 f_equal. f_equal. f_equal.
          apply map_ext. intros j. unfold failed_attempt.
          replace (i + 1 + Z.of_nat j) with (i + Z.of_nat (S j)) by lia.
          reflexivity. }
        split.
        { rewrite omap_app, Hsleep.
          rewrite (seqZ_cons i) by lia. simpl. f_equal. f_equal.
          f_equal; lia. }
        destruct (decide (k < todo)%nat) as [Hkt|Hkt].
        -- destruct (decide (S k < S todo)%nat); [|lia].
           destruct Hres as (Hlen & m & -> & Hlast).
           split; [rewrite filter_app, length_app, Hlen; reflexivity|].
           exists m. split; [reflexivity|].
           rewrite last_app. now rewrite Hlast.
        -- destruct (decide (S k < S todo)%nat); [lia|].
           destruct Hres as (Hlen & -> & Hlast).
           split; [rewrite filter_app, length_app, Hlen; reflexivity|].
           split.
           { destruct k; reflexivity. }
           destruct k as [|k']; [lia|].
           rewrite last_app. now rewrite Hlast.
      * (* the final attempt: no wait *)
        assert (todo = 0)%nat as -> by lia.
        assert (k = 0)%nat as -> by lia.
        exists (Err ("failed after " +:+ Itoa maxTries +:+ " attempts: " +:+ errs 0%nat)),
          w1, [EvSend channelID msg (inr (errs 0%nat))].
        split; [reflexivity|]. split; [exact Ht1|].
        split.
        { cbn [seq map concat]. unfold failed_attempt. cbn [Z.of_nat].
          rewrite Z.add_0_r.
          destruct (Z.ltb_spec i (maxTries - 1)) as [Hlt'|_]; [lia|]. reflexivity. }
        split.
        { rewrite Z.min_r by lia. replace (maxTries - 1 - i) with 0 by lia. reflexivity. }
        destruct (decide (1 < 1)%nat); [lia|].
        repeat split.
Qed.

End Retry.

Section RetryFrame.

Variable env : Env.
Variables (channelID : N) (msg : MessageSend) (maxTries : Z).

(** Whatever the requests answer, the wrapper touches the channel only by
    the one message it gets through, and leaves the local file alone. *)
Lemma sendMessageWithRetry_loop_frame (todo : nat) :
  forall (i : Z) (e0 : option string) (w : World) r w',
    sendMessageWithRetry_loop env todo i channelID msg maxTries e0 w = (r, w') ->
    exists tr,
      w_trace w' = w_trace w ++ tr
      /\ forallb retry_event tr = true
      /\ w_channels w' = w_channels w
      /\ w_offset w' = w_offset w
      /\ w_pinned w' = w_pinned w
      /\ match r with
         | Ok m =>
             m = {| MsgID := w_next w; Attachments := map attachment_of (Files msg) |}
             /\ w_messages w'
                = <[channelID := messages_of w channelID ++ [m]]> (w_messages w)
             /\ w_next w' = N.succ (w_next w)
             /\ omap sent_in tr = [(channelID, m)]
         | Err _ =>
             w_messages w' = w_messages w /\ w_next w' = w_next w
             /\ omap sent_in tr = []
         | _ => False
         end.
Proof.
  induction todo as [|todo IH]; intros i e0 w r w' Hrun.
  - simpl in Hrun. inversion Hrun; subst. exists [].
    rewrite app_nil_r. repeat split.
  - simpl in Hrun. unfold ChannelMessageSendComplex in Hrun.
    destruct (send_err env (w_sends w)) as [e|] eqn:He.
    + set (w1 := with_trace _ (with_send_counted w)) in Hrun.
      unfold bind in Hrun at 1.
      destruct (i <? maxTries - 1).
      * unfold bind, emit in Hrun.
        apply IH in Hrun. destruct Hrun as (tr & Htr & Hall & Hc & Ho & Hp & Hr).
        exists ([EvSend channelID msg (inr e);
                 EvLogRetry (i + 1) (wrap64 (Second * (i + 1))) e;
                 EvSleep (wrap64 (Second * (i + 1)))] ++ tr).
        split; [rewrite Htr; simpl; rewrite <- !app_assoc; reflexivity|].
        split; [simpl; exact Hall|].
        repeat (split; [assumption|]).
        destruct r; try contradiction.
        -- destruct Hr as (-> & Hm & Hn & Hs). repeat split; assumption.
        -- destruct Hr as (Hm & Hn & Hs). repeat split; assumption.
      * unfold ret in Hrun.
        apply IH in Hrun. destruct Hrun as (tr & Htr & Hall & Hc & Ho & Hp & Hr).
        exists ([EvSend channelID msg (inr e)] ++ tr).
        split; [rewrite Htr; simpl; rewrite <- !app_assoc; reflexivity|].
        split; [simpl; exact Hall|].
        repeat (split; [assumption|]).
        destruct r; try contradiction.
        -- destruct Hr as (-> & Hm & Hn & Hs). repeat split; assumption.
        -- destruct Hr as (Hm & Hn & Hs). repeat split; assumption.
    + inversion Hrun; subst. eexists [_].
      split; [reflexivity|]. repeat split.
Qed.

Lemma sendMessageWithRetry_frame (w : World) r w' :
  sendMessageWithRetry env channelID msg maxTries w = (r, w') ->
  exists tr,
    w_trace w' = w_trace w ++ tr
    /\ forallb retry_event tr = true
    /\ w_channels w' = w_channels w
    /\ w_offset w' = w_offset w
    /\ w_pinned w' = w_pinned w
    /\ match r with
       | Ok m =>
           m = {| MsgID := w_next w; Attachments := map attachment_of (Files msg) |}
           /\ w_messages w'
              = <[channelID := messages_of w channelID ++ [m]]> (w_messages w)
           /\ w_next w' = N.succ (w_next w)
           /\ omap sent_in tr = [(channelID, m)]
       | Err _ =>
           w_messages w' = w_messages w /\ w_next w' = w_next w
           /\ omap sent_in tr = []
       | _ => False
       end.
Proof. apply sendMessageWithRetry_loop_frame. Qed.

End RetryFrame.

Lemma sum_list_scaled (c : Z) (l : list Z) :
  sum_list (map (fun j => c * j) l) = c * sum_list l.
Proof.
  induction l as [|x l IH]; simpl; [lia|]. unfold sum_list in *. simpl. lia.
Qed.

Lemma seqZ_shift (n : Z) :
  map (fun j => j + 1) (seqZ 0 n) = seqZ 1 n.
Proof.
  unfold seqZ. rewrite <- list_fmap_compose.
  apply list_fmap_ext. intros _ x _. simpl. lia.
Qed.

(** C4 (retry bound).  When the first [k] requests of a wrapped send fail
    and [k < maxTries], the wrapper returns the message of request [k]
    with no error, after [k + 1] requests; when all [maxTries] requests
    fail it returns an error that carries [maxTries] and the last failure,
    after exactly [maxTries] requests.  The trace is that of the failed
    attempts in order, then the request that got through, if any: the
    failed attempt [i] (from 0) is followed by a wait of [i + 1] seconds
    unless it is the final one, so the waits of an exhausted send add up
    to [1 + 2 + ... + (maxTries - 1)] seconds.  [maxTries] is taken in the
    range in which the waits, counted in nanoseconds, fit an [int64]. *)
Theorem sendMessageWithRetry_bound (env : Env) (channelID : N) (msg : MessageSend)
    (maxTries : Z) (k : nat) (errs : nat -> string) (w : World) :
  0 < maxTries <= 9223372037 ->
  (k <= Z.to_nat maxTries)%nat ->
  (forall j, (j < k)%nat -> send_err env (w_sends w + j) = Some (errs j)) ->
  ((k < Z.to_nat maxTries)%nat -> send_err env (w_sends w + k) = None) ->
  exists r w' tr,
    sendMessageWithRetry env channelID msg maxTries w = (r, w')
    /\ w_trace w' = w_trace w ++ tr
    /\ tr = concat (map (failed_attempt channelID msg maxTries errs 0) (seq 0 k))
             ++ match r with
                | Ok m => [EvSend channelID msg (inl m)]
                | _ => []
                end
    /\ omap sleep_of tr
       = map (fun i => Second * (i + 1))
           (seqZ 0 (Z.min (Z.of_nat k) (maxTries - 1)))
    /\ if decide (k < Z.to_nat maxTries)%nat
       then (exists m, r = Ok m /\ last tr = Some (EvSend channelID msg (inl m)))
            /\ length (filter is_send tr) = S k
       else r = Err ("failed after " +:+ Itoa maxTries +:+ " attempts: "
                       +:+ errs (k - 1)%nat)
            /\ length (filter is_send tr) = Z.to_nat maxTries
            /\ last tr = Some (EvSend channelID msg (inr (errs (k - 1)%nat)))
            /\ sum_list (omap sleep_of tr)
               = Second * sum_list (seqZ 1 (maxTries - 1)).
Proof.
  intros Hmax Hk Hfail Hok.
  destruct (sendMessageWithRetry_loop_spec env channelID msg maxTries
              (Z.to_nat maxTries) 0 k errs None w)
    as (r & w' & tr & Hrun & Htr & Hexact & Hsleep & Hres); try lia; try assumption.
  exists r, w', tr. split; [exact Hrun|]. split; [exact Htr|].
  split; [exact Hexact|].
  rewrite Z.sub_0_r in Hsleep. split; [exact Hsleep|].
  destruct (decide (k < Z.to_nat maxTries)%nat) as [Hlt|Hge].
  - destruct Hres as (Hlen & m & -> & Hlast). split; [eauto|exact Hlen].
  - destruct Hres as (Hlen & -> & Hlast).
    assert (k = Z.to_nat maxTries) as Hkeq by lia.
    destruct k as [|k']; [lia|].
    replace (S k' - 1)%nat with k' by lia.
    split; [reflexivity|]. split; [lia|]. split; [exact Hlast|].
    rewrite Hsleep, Z.min_r by lia.
    rewrite <- seqZ_shift, <- sum_list_scaled.
    f_equal. rewrite <- list_fmap_compose. reflexivity.
Qed.

Lemma sendMessageWithRetry_bound_witness :
  exists r w' tr,
    sendMessageWithRetry retry_env 7%N retry_msg 3 empty_world = (r, w')
    /\ w_trace w' = w_trace empty_world ++ tr
    /\ tr = concat (map (failed_attempt 7%N retry_msg 3 (fun _ => "EOF") 0) (seq 0 3))
             ++ match r with
                | Ok m => [EvSend 7%N retry_msg (inl m)]
                | _ => []
                end
    /\ omap sleep_of tr
       = map (fun i => Second * (i + 1)) (seqZ 0 (Z.min (Z.of_nat 3) (3 - 1)))
    /\ if decide (3 < Z.to_nat 3)%nat
       then (exists m, r = Ok m /\ last tr = Some (EvSend 7%N retry_msg (inl m)))
            /\ length (filter is_send tr) = 4%nat
       else r = Err ("failed after " +:+ Itoa 3 +:+ " attempts: " +:+ "EOF")
            /\ length (filter is_send tr) = Z.to_nat 3
            /\ last tr = Some (EvSend 7%N retry_msg (inr "EOF"))
            /\ sum_list (omap sleep_of tr) = Second * sum_list (seqZ 1 (3 - 1)).
Proof.
  apply (sendMessageWithRetry_bound retry_env 7%N retry_msg 3 3
           (fun _ => "EOF") empty_world).
  - lia.
  - simpl. lia.
  - intros j _. reflexivity.
  - simpl. lia.
Defined.

(** ** The chunk loop *)

Section ChunkLoop.

Variable env : Env.
Variables (channel : Channel) (size chunkSize : Z) (debug : bool)
  (bar : option ProgressBar).

Hypothesis chunkSize_pos : 0 < chunkSize.

Lemma next_chunk_length w :
  (length (next_chunk env chunkSize w) <= Z.to_nat chunkSize)%nat.
Proof. unfold next_chunk. rewrite length_take. lia. Qed.

Lemma next_chunk_full w :
  (length (next_chunk env chunkSize w) <? Z.to_nat chunkSize)%nat = false ->
  (w_offset w + Z.to_nat chunkSize <= length (file_data env))%nat.
Proof.
  intros H. apply Nat.ltb_ge in H. unfold next_chunk in H.
  rewrite length_take, length_drop in H. lia.
Qed.

Lemma verifyChunkSize_ok w :
  next_chunk env chunkSize w <> [] ->
  verifyChunkSize chunkSize (Z.of_nat (length (next_chunk env chunkSize w))) = None.
Proof.
  intros Hne. pose proof (next_chunk_length w) as Hle.
  unfold verifyChunkSize.
  destruct (next_chunk env chunkSize w) as [|b l]; [congruence|].
  destruct (Z.leb_spec (Z.of_nat (length (b :: l))) 0) as [H|H];
    [simpl in H; lia|].
  destruct (Z.gtb_spec (Z.of_nat (length (b :: l))) chunkSize) as [H'|H'];
    [lia|reflexivity].
Qed.

(** One iteration of the loop, spelled out. *)
Lemma uploadChunkedFile_loop_step (fuel : nat) (first : bool) (blockNumber : Z)
    (w : World) :
  uploadChunkedFile_loop env (S fuel) channel size chunkSize debug bar first
    blockNumber w
  = let blockNumber := wrap64 (blockNumber + 1) in
    match read_err env (w_offset w) with
    | Some e =>
        (Err ("failed to read chunk " +:+ Itoa blockNumber +:+ ": " +:+ e), w)
    | None =>
        let chunk := next_chunk env chunkSize w in
        let w1 := with_offset (w_offset w + length chunk) w in
        match chunk with
        | [] => (Ok tt, w1)
        | _ =>
            match sendMessageWithRetry env (ID channel)
                    (createUploadMessage (Itoa blockNumber) chunk) 10
                    (snd (report_chunk debug bar blockNumber size
                            (Z.of_nat (length chunk)) w1)) with
            | (Ok message, w3) =>
                let w4 := snd ((if first
                                then ChannelMessagePin env (ID channel) (MsgID message)
                                else ret tt) w3) in
                if (length chunk <? Z.to_nat chunkSize)%nat then (Ok tt, w4)
                else uploadChunkedFile_loop env fuel channel size chunkSize debug
                       bar false blockNumber w4
            | (Err e, w3) => (Err e, w3)
            | (Crash, w3) => (Crash, w3)
            | (Timeout, w3) => (Timeout, w3)
            end
        end
    end.
Proof.
  cbn zeta. cbn [uploadChunkedFile_loop]. unfold bind at 1.
  unfold io_ReadFull. fold (next_chunk env chunkSize w).
  destruct (read_err env (w_offset w)) as [e|] eqn:Herr; [reflexivity|].
  cbn [fst snd].
  pose proof (verifyChunkSize_ok w) as Hv.
  pose proof (next_chunk_length w) as Hle.
  destruct (next_chunk env chunkSize w) as [|b l] eqn:Hc.
  - cbn [length]. rewrite Nat.eqb_refl.
    destruct (0 =? Z.to_nat chunkSize)%nat; reflexivity.
  - rewrite Hv by congruence.
    assert ((Z.of_nat (length (b :: l)) =? 0) = false) as ->
      by (apply Z.eqb_neq; simpl; lia).
    assert (Hlt : (Z.of_nat (length (b :: l)) <? chunkSize)
                  = (length (b :: l) <? Z.to_nat chunkSize)%nat).
    { destruct (Z.ltb_spec (Z.of_nat (length (b :: l))) chunkSize);
        destruct (Nat.ltb_spec (length (b :: l)) (Z.to_nat chunkSize));
        try reflexivity; lia. }
    rewrite Hlt.
    assert (Hio : forall (A : Type) (x : A) (f : string -> A),
               match (if (length (b :: l) =? Z.to_nat chunkSize)%nat then io_nil
                      else if (length (b :: l) =? 0)%nat then io_EOF
                           else io_ErrUnexpectedEOF) with
               | io_other e => f e
               | _ => x
               end = x).
    { intros A x f. destruct (length (b :: l) =? Z.to_nat chunkSize)%nat;
        [reflexivity|].
      destruct (length (b :: l) =? 0)%nat; reflexivity. }
    rewrite Hio.
    unfold bind.
    destruct (report_chunk debug bar _ size _ _) as [r1 w2] eqn:Hrep.
    assert (r1 = Ok tt) as ->.
    { unfold report_chunk in Hrep.
      destruct (negb debug && bool_decide (bar <> None)).
      - unfold emit in Hrep. congruence.
      - destruct debug.
        + unfold bind, Seek_current, emit in Hrep. congruence.
        + unfold ret in Hrep. congruence. }
    cbn [snd].
    destruct (sendMessageWithRetry env (ID channel) _ 10 w2) as [[m|e| |] w3];
      try reflexivity.
    destruct first.
    + unfold ChannelMessagePin.
      destruct (pin_ok env); destruct (_ <? _)%nat; reflexivity.
    + destruct (_ <? _)%nat; reflexivity.
Qed.

Lemma retry_events_quiet (tr : list event) :
  forallb retry_event tr = true ->
  omap pin_of tr = [] /\ omap stdout_of tr = [] /\ omap log_of tr = []
  /\ filter is_open tr = [].
Proof.
  induction tr as [|e tr IH]; intros H; [repeat split|].
  simpl in H. apply andb_true_iff in H. destruct H as [He H].
  destruct (IH H) as (Hp & Hs & Hl & Ho).
  destruct e; try discriminate; simpl; repeat split; assumption.
Qed.

Lemma blocks_of_snoc (w w' : World) (ch : N) (m : Message) :
  w_messages w' = <[ch := messages_of w ch ++ [m]]> (w_messages w) ->
  blocks_of w' ch = blocks_of w ch ++ Attachments m.
Proof.
  intros H. unfold blocks_of, messages_of at 1. rewrite H, lookup_insert_eq.
  simpl. rewrite map_app, concat_app. simpl. now rewrite app_nil_r.
Qed.

(** The world after the progress report of a chunk. *)
Lemma report_chunk_frame (blockNumber n : Z) (w : World) :
  exists tr,
    report_chunk debug bar blockNumber size n w
    = (Ok tt,
       {| w_channels := w_channels w; w_messages := w_messages w;
          w_pinned := w_pinned w; w_next := w_next w; w_sends := w_sends w;
          w_offset := w_offset w; w_trace := w_trace w ++ tr |})
    /\ omap sent_in tr = [] /\ omap pin_of tr = [] /\ omap stdout_of tr = []
    /\ filter is_write tr = [].
Proof.
  unfold report_chunk.
  destruct (negb debug && bool_decide (bar <> None)).
  - eexists [_]. split; [reflexivity|]. repeat split.
  - destruct debug.
    + eexists [_]. split; [reflexivity|]. repeat split.
    + exists []. unfold ret. rewrite app_nil_r. destruct w. repeat split.
Qed.

(** The effect of an iteration whose send gets through. *)
Lemma iteration_sent (first : bool) (name : string) (bn : Z) (w : World) m w3 :
  let chunk := next_chunk env chunkSize w in
  let w1 := with_offset (w_offset w + length chunk) w in
  sendMessageWithRetry env (ID channel) (createUploadMessage name chunk) 10
    (snd (report_chunk debug bar bn size (Z.of_nat (length chunk)) w1))
  = (Ok m, w3) ->
  let w4 := snd ((if first then ChannelMessagePin env (ID channel) (MsgID m)
                  else ret tt) w3) in
  w_offset w4 = (w_offset w + length chunk)%nat
  /\ blocks_of w4 (ID channel)
     = blocks_of w (ID channel) ++ [attachment_of {| FName := name; Reader := chunk |}]
  /\ exists tr,
       w_trace w4 = w_trace w ++ tr
       /\ omap sent_in tr = [(ID channel, m)]
       /\ omap pin_of tr = (if first then [(ID channel, MsgID m)] else [])
       /\ omap stdout_of tr = []
       /\ map Filename (Attachments m) = [name].
Proof.
  intros chunk w1 Hsend.
  destruct (report_chunk_frame bn (Z.of_nat (length chunk)) w1)
    as (tr1 & Hrep & Hs1 & Hp1 & Ho1 & _).
  rewrite Hrep in Hsend. cbn [snd] in Hsend.
  apply sendMessageWithRetry_frame in Hsend.
  destruct Hsend as (tr2 & Htr & Hall & Hc & Hoff & Hpin & Hm & Hmsgs & Hnext & Hs2).
  apply retry_events_quiet in Hall. destruct Hall as (Hp2 & Ho2 & _).
  cbn [w_trace w_offset w_messages w_next] in *.
  assert (Hb3 : blocks_of w3 (ID channel)
                = blocks_of w (ID channel)
                    ++ [attachment_of {| FName := name; Reader := chunk |}]).
  { rewrite (blocks_of_snoc w w3 (ID channel) m) by exact Hmsgs.
    rewrite Hm. reflexivity. }
  assert (Hname : map Filename (Attachments m) = [name]) by (rewrite Hm; reflexivity).
  destruct first; cbn zeta.
  - unfold ChannelMessagePin. destruct (pin_ok env); cbn [snd].
    + split; [exact Hoff|]. split.
      { rewrite (blocks_of_snoc (with_pin (ID channel) (MsgID m) w3) _ (ID channel)
                   {| MsgID := w_next w3; Attachments := [] |}) by reflexivity.
        cbn [Attachments]. rewrite app_nil_r. exact Hb3. }
      exists (tr1 ++ tr2 ++ [EvPin (ID channel) (MsgID m) true]).
      split; [cbn [with_trace w_trace with_message with_pin]; rewrite Htr;
              now rewrite <- !app_assoc|].
      rewrite !omap_app, Hs1, Hs2, Hp1, Hp2, Ho1, Ho2. repeat split. exact Hname.
    + split; [exact Hoff|]. split; [exact Hb3|].
      exists (tr1 ++ tr2 ++ [EvPin (ID channel) (MsgID m) false]).
      split; [cbn [with_trace w_trace]; rewrite Htr; now rewrite <- !app_assoc|].
      rewrite !omap_app, Hs1, Hs2, Hp1, Hp2, Ho1, Ho2. repeat split. exact Hname.
  - unfold ret. cbn [snd]. split; [exact Hoff|]. split; [exact Hb3|].
    exists (tr1 ++ tr2). split; [rewrite Htr; now rewrite <- !app_assoc|].
    rewrite !omap_app, Hs1, Hs2, Hp1, Hp2, Ho1, Ho2. repeat split. exact Hname.
Qed.

(** The effect of an iteration whose send is given up. *)
Lemma iteration_failed (name : string) (bn : Z) (w : World) e w3 :
  let chunk := next_chunk env chunkSize w in
  let w1 := with_offset (w_offset w + length chunk) w in
  sendMessageWithRetry env (ID channel) (createUploadMessage name chunk) 10
    (snd (report_chunk debug bar bn size (Z.of_nat (length chunk)) w1))
  = (Err e, w3) ->
  blocks_of w3 (ID channel) = blocks_of w (ID channel)
  /\ exists tr,
       w_trace w3 = w_trace w ++ tr
       /\ omap sent_in tr = [] /\ omap pin_of tr = [] /\ omap stdout_of tr = [].
Proof.
  intros chunk w1 Hsend.
  destruct (report_chunk_frame bn (Z.of_nat (length chunk)) w1)
    as (tr1 & Hrep & Hs1 & Hp1 & Ho1 & _).
  rewrite Hrep in Hsend. cbn [snd] in Hsend.
  apply sendMessageWithRetry_frame in Hsend.
  destruct Hsend as (tr2 & Htr & Hall & Hc & Hoff & Hpin & Hmsgs & Hnext & Hs2).
  apply retry_events_quiet in Hall. destruct Hall as (Hp2 & Ho2 & _).
  cbn [w_trace w_offset w_messages w_next] in *.
  split.
  { unfold blocks_of, messages_of. now rewrite Hmsgs. }
  exists (tr1 ++ tr2). split; [rewrite Htr; now rewrite <- !app_assoc|].
  rewrite !omap_app, Hs1, Hs2, Hp1, Hp2, Ho1, Ho2. repeat split.
Qed.

(** The loop never uses up its budget: every iteration that is followed
    by another one has read a full chunk of at least one byte. *)
Lemma uploadChunkedFile_loop_terminates (fuel : nat) :
  forall (first : bool) (blockNumber : Z) (w : World),
    (length (file_data env) - w_offset w < fuel)%nat ->
    fst (uploadChunkedFile_loop env fuel channel size chunkSize debug bar first
           blockNumber w) <> Timeout.
Proof.
  induction fuel as [|fuel IH]; intros first bn w Hfuel; [lia|].
  rewrite uploadChunkedFile_loop_step. cbn zeta.
  destruct (read_err env (w_offset w)); [discriminate|].
  destruct (next_chunk env chunkSize w) as [|b l] eqn:Hc; [discriminate|].
  rewrite <- Hc.
  destruct (sendMessageWithRetry env (ID channel) _ 10 _) as [r w3] eqn:Hsend.
  destruct r as [m|e| |].
  - destruct (length (next_chunk env chunkSize w) <? Z.to_nat chunkSize)%nat eqn:Hlt;
      [discriminate|].
    apply IH.
    destruct (iteration_sent first _ _ w m w3 Hsend) as (Hoff & _).
    rewrite Hoff. apply next_chunk_full in Hlt.
    assert (0 < length (next_chunk env chunkSize w))%nat by (rewrite Hc; simpl; lia).
    lia.
  - discriminate.
  - apply sendMessageWithRetry_frame in Hsend.
    destruct Hsend as (? & _ & _ & _ & _ & _ & []).
  - apply sendMessageWithRetry_frame in Hsend.
    destruct Hsend as (? & _ & _ & _ & _ & _ & []).
Qed.

End ChunkLoop.

Lemma ceil_div_0 (K : nat) : (0 < K)%nat -> ceil_div 0 K = 0%nat.
Proof. intros H. unfold ceil_div. apply Nat.div_small. lia. Qed.

Lemma ceil_div_small (r K : nat) :
  (0 < r <= K)%nat -> ceil_div r K = 1%nat.
Proof.
  intros H. unfold ceil_div. symmetry.
  apply (Nat.div_unique _ _ _ (r - 1)); lia.
Qed.

Lemma ceil_div_step (r K : nat) :
  (0 < K <= r)%nat -> ceil_div r K = S (ceil_div (r - K) K).
Proof.
  intros H. unfold ceil_div.
  replace (r + K - 1)%nat with ((r - K + K - 1) + 1 * K)%nat by lia.
  rewrite Nat.div_add by lia. lia.
Qed.


Section ChunkLoopBlocks.

Variable env : Env.
Variables (channel : Channel) (size chunkSize : Z) (debug : bool)
  (bar : option ProgressBar).

Hypothesis chunkSize_pos : 0 < chunkSize.

#[local] Abbreviation K := (Z.to_nat chunkSize).
#[local] Abbreviation data := (file_data env).

(** A loop that returns without error has appended the chunks of the rest
    of the file, in order, under consecutive numbers. *)
Lemma uploadChunkedFile_loop_blocks (fuel : nat) :
  forall (first : bool) (bn : Z) (w w' : World),
    uploadChunkedFile_loop env fuel channel size chunkSize debug bar first bn w
    = (Ok tt, w') ->
    0 <= bn ->
    bn + Z.of_nat (length data - w_offset w) < 2 ^ 63 ->
    blocks_of w' (ID channel)
    = blocks_of w (ID channel)
        ++ map (block_at K data bn (w_offset w))
             (seq 0 (ceil_div (length data - w_offset w) K)).
Proof.
  induction fuel as [|fuel IH]; intros first bn w w' Hrun Hbn Hrange;
    [discriminate|].
  rewrite uploadChunkedFile_loop_step in Hrun by exact chunkSize_pos.
  cbn zeta in Hrun.
  destruct (read_err env (w_offset w)); [discriminate|].
  assert (Hlen : length (next_chunk env chunkSize w)
                 = Nat.min K (length data - w_offset w)).
  { unfold next_chunk. now rewrite length_take, length_drop. }
  assert (HK : (0 < K)%nat) by lia.
  destruct (next_chunk env chunkSize w) as [|b l] eqn:Hc.
  - inversion Hrun; subst w'. simpl in Hlen.
    replace (length data - w_offset w)%nat with 0%nat by lia.
    rewrite ceil_div_0 by exact HK. simpl. now rewrite app_nil_r.
  - rewrite <- Hc in Hrun, Hlen.
    assert (Hpos : (0 < length (next_chunk env chunkSize w))%nat)
      by (rewrite Hc; simpl; lia).
    destruct (sendMessageWithRetry env (ID channel) _ 10 _) as [r w3] eqn:Hsend.
    destruct r as [m|e| |]; try discriminate.
    destruct (iteration_sent env channel size chunkSize debug bar first _ _ w m w3 Hsend)
      as (Hoff & Hblocks & _).
    rewrite wrap64_small in Hblocks by (unfold int64_range; lia).
    assert (Hfirst : attachment_of
                       {| FName := Itoa (bn + 1); Reader := next_chunk env chunkSize w |}
                     = block_at K data bn (w_offset w) 0).
    { unfold attachment_of, block_at, next_chunk. cbn [FName Reader].
      rewrite Z.add_0_r, Nat.add_0_r. reflexivity. }
    rewrite Hfirst in Hblocks.
    destruct (length (next_chunk env chunkSize w) <? Z.to_nat chunkSize)%nat eqn:Hlt.
    + inversion Hrun; subst w'. rewrite Hblocks.
      apply Nat.ltb_lt in Hlt.
      rewrite ceil_div_small by lia. reflexivity.
    + apply Nat.ltb_ge in Hlt.
      apply IH in Hrun.
      * rewrite Hrun, Hblocks, Hoff, <- app_assoc. f_equal.
        rewrite (ceil_div_step (length data - w_offset w) K) by lia.
        cbn [seq map app]. f_equal.
        rewrite <- seq_shift, map_map.
        replace (length (next_chunk env chunkSize w)) with K by lia.
        replace (length data - (w_offset w + K))%nat
          with (length data - w_offset w - K)%nat by lia.
        apply map_ext. intros i. unfold block_at.
        rewrite wrap64_small by (unfold int64_range; lia).
        replace (w_offset w + K + i * K)%nat with (w_offset w + S i * K)%nat by lia.
        replace (bn + 1 + 1 + Z.of_nat i) with (bn + 1 + Z.of_nat (S i)) by lia.
        reflexivity.
      * rewrite wrap64_small by (unfold int64_range; lia). lia.
      * rewrite wrap64_small by (unfold int64_range; lia).
        rewrite Hoff. lia.
Qed.

(** Pins and sends of a loop, whatever its outcome: nothing is printed;
    the first message that gets through carries the block numbered
    [blockNumber + 1]; it is pinned if [first] is set, and nothing else
    is. *)
Lemma uploadChunkedFile_loop_pins (fuel : nat) :
  forall (first : bool) (bn : Z) (w : World) r w',
    uploadChunkedFile_loop env fuel channel size chunkSize debug bar first bn w
    = (r, w') ->
    exists tr,
      w_trace w' = w_trace w ++ tr
      /\ omap stdout_of tr = []
      /\ omap pin_of tr
         = (if first then map pin_target (take 1 (omap sent_in tr)) else [])
      /\ forall s, head (omap sent_in tr) = Some s ->
           fst s = ID channel
           /\ map Filename (Attachments (snd s)) = [Itoa (wrap64 (bn + 1))].
Proof.
  induction fuel as [|fuel IH]; intros first bn w r w' Hrun.
  { inversion Hrun; subst. exists []. rewrite app_nil_r.
    repeat split; try discriminate. now destruct first. }
  rewrite uploadChunkedFile_loop_step in Hrun by exact chunkSize_pos.
  cbn zeta in Hrun.
  destruct (read_err env (w_offset w)).
  { inversion Hrun; subst. exists []. rewrite app_nil_r.
    repeat split; try discriminate. now destruct first. }
  destruct (next_chunk env chunkSize w) as [|b l] eqn:Hc.
  { inversion Hrun; subst. exists []. cbn [with_offset w_trace].
    rewrite app_nil_r. repeat split; try discriminate. now destruct first. }
  rewrite <- Hc in Hrun.
  destruct (sendMessageWithRetry env (ID channel) _ 10 _) as [r3 w3] eqn:Hsend.
  destruct r3 as [m|e| |].
  - destruct (iteration_sent env channel size chunkSize debug bar first _ _ w m w3 Hsend)
      as (_ & _ & tr1 & Htr1 & Hs1 & Hp1 & Ho1 & Hname).
    destruct (length (next_chunk env chunkSize w) <? Z.to_nat chunkSize)%nat.
    + inversion Hrun; subst r w'. exists tr1.
      split; [exact Htr1|]. split; [exact Ho1|]. rewrite Hs1, Hp1.
      split; [now destruct first|].
      intros s Hs. inversion Hs; subst s. split; [reflexivity|exact Hname].
    + apply IH in Hrun. destruct Hrun as (tr2 & Htr2 & Ho2 & Hp2 & _).
      exists (tr1 ++ tr2).
      split; [rewrite Htr2, Htr1; now rewrite <- app_assoc|].
      rewrite !omap_app, Ho1, Ho2, Hs1, Hp1, Hp2.
      split; [reflexivity|].
      split; [destruct first; reflexivity|].
      intros s Hs. inversion Hs; subst s. split; [reflexivity|exact Hname].
  - inversion Hrun; subst r w'.
    destruct (iteration_failed env channel size chunkSize debug bar _ _ w e w3 Hsend)
      as (_ & tr1 & Htr1 & Hs1 & Hp1 & Ho1).
    exists tr1. split; [exact Htr1|]. split; [exact Ho1|]. rewrite Hs1, Hp1.
    split; [now destruct first|]. discriminate.
  - apply sendMessageWithRetry_frame in Hsend.
    destruct Hsend as (? & _ & _ & _ & _ & _ & []).
  - apply sendMessageWithRetry_frame in Hsend.
    destruct Hsend as (? & _ & _ & _ & _ & _ & []).
Qed.

End ChunkLoopBlocks.

(** ** The two upload paths *)

Section UploadPaths.

Variable env : Env.
Variables (channel : Channel) (filename : string) (size : Z) (debug resume : bool).

Lemma ChannelMessagePin_frame (msgID : N) (w : World) :
  exists ok w',
    ChannelMessagePin env (ID channel) msgID w = (Ok tt, w')
    /\ w_trace w' = w_trace w ++ [EvPin (ID channel) msgID ok]
    /\ blocks_of w' (ID channel) = blocks_of w (ID channel)
    /\ w_offset w' = w_offset w.
Proof.
  unfold ChannelMessagePin. destruct (pin_ok env).
  - eexists true, _. split; [reflexivity|]. split; [reflexivity|].
    split; [|reflexivity].
    rewrite (blocks_of_snoc (with_pin (ID channel) msgID w) _ (ID channel)
               {| MsgID := w_next w; Attachments := [] |}) by reflexivity.
    cbn [Attachments]. now rewrite app_nil_r.
  - eexists false, _. repeat split.
Qed.

(** The single-shot path sends the rest of the file as the block named
    1 and pins its message unless the upload is a resumed one. *)
Lemma uploadSingleFile_effect (w : World) r w' :
  uploadSingleFile env channel filename size debug resume w = (r, w') ->
  (r = Ok tt ->
   blocks_of w' (ID channel)
   = blocks_of w (ID channel)
       ++ [attachment_of {| FName := "1"; Reader := drop (w_offset w) (file_data env) |}])
  /\ exists tr,
       w_trace w' = w_trace w ++ tr
       /\ omap stdout_of tr = []
       /\ omap pin_of tr
          = (if resume then [] else map pin_target (take 1 (omap sent_in tr)))
       /\ forall s, head (omap sent_in tr) = Some s ->
            fst s = ID channel /\ map Filename (Attachments (snd s)) = ["1"].
Proof.
  unfold uploadSingleFile, io_ReadAll. intros Hrun.
  destruct (read_err env (w_offset w)) as [e|].
  { inversion Hrun; subst. split; [discriminate|]. exists [].
    rewrite app_nil_r. repeat split; try discriminate. now destruct resume. }
  cbv beta iota in Hrun.
  destruct (sendMessageWithRetry env (ID channel)
              (createUploadMessage "1" (drop (w_offset w) (file_data env))) 10
              (snd ((if negb debug
                     then let b := {| bar_max := size;
                                      bar_description := "Uploading " +:+ filename |} in
                          run emit (EvBarNew b) in ret (Some b)
                     else ret None)
                      (with_offset
                         (w_offset w + length (drop (w_offset w) (file_data env))) w))))
    as [r3 w3] eqn:Hsend.
  assert (Hs := Hsend). apply sendMessageWithRetry_frame in Hs.
  destruct Hs as (tr2 & Htr & Hall & Hc & Hoff & Hpin & Hres).
  apply retry_events_quiet in Hall. destruct Hall as (Hp2 & Ho2 & _).
  destruct debug, resume; cbn [negb andb] in Hrun, Hsend, Htr, Hres;
    unfold bind, emit, ret in Hrun, Hsend, Htr, Hres; cbn [snd] in Hsend, Htr, Hres;
    rewrite Hsend in Hrun;
    (destruct r3 as [m|e| |]; [|destruct Hres as (Hmsgs & Hnext & Hs2)| |];
     try contradiction;
     [destruct Hres as (Hm & Hmsgs & Hnext & Hs2);
      assert (Hb3 : blocks_of w3 (ID channel)
                    = blocks_of w (ID channel)
                        ++ [attachment_of
                              {| FName := "1";
                                 Reader := drop (w_offset w) (file_data env) |}])
        by (rewrite (blocks_of_snoc w w3 (ID channel) m) by exact Hmsgs;
            rewrite Hm; reflexivity);
      assert (Hname : map Filename (Attachments m) = ["1"])
        by (rewrite Hm; reflexivity)
     |]).
  all: try (inversion Hrun; subst r w'; split; [discriminate|];
            first [ exists tr2; split; [exact Htr|]
                  | exists ([EvBarNew {| bar_max := size;
                                         bar_description := "Uploading " +:+ filename |}]
                              ++ tr2);
                    split; [cbn [with_trace w_trace] in *; rewrite Htr;
                            now rewrite <- !app_assoc|] ];
            rewrite ?omap_app, ?Ho2, ?Hs2, ?Hp2;
            repeat split; easy).
  - (* debug, resumed *)
    inversion Hrun; subst r w'. split; [intros _; exact Hb3|].
    exists tr2. split; [exact Htr|]. rewrite Ho2, Hs2, Hp2. repeat split.
    + inversion H; subst s. reflexivity.
    + inversion H; subst s. exact Hname.
  - (* debug, fresh *)
    destruct (ChannelMessagePin_frame (MsgID m) w3) as (ok & w4 & Hp & Htr4 & Hb4 & _).
    rewrite Hp in Hrun. inversion Hrun; subst r w'.
    split; [intros _; rewrite Hb4; exact Hb3|].
    exists (tr2 ++ [EvPin (ID channel) (MsgID m) ok]).
    split; [rewrite Htr4, Htr; now rewrite <- app_assoc|].
    rewrite !omap_app, Ho2, Hs2, Hp2. repeat split.
    + inversion H; subst s. reflexivity.
    + inversion H; subst s. exact Hname.
  - (* progress bar, resumed *)
    inversion Hrun; subst r w'. split; [intros _; exact Hb3|].
    exists ([EvBarNew {| bar_max := size;
                         bar_description := "Uploading " +:+ filename |}]
              ++ tr2 ++ [EvBarAdd size]).
    split; [cbn [with_trace w_trace] in *; rewrite Htr; now rewrite <- !app_assoc|].
    rewrite !omap_app, Ho2, Hs2, Hp2. repeat split.
    + inversion H; subst s. reflexivity.
    + inversion H; subst s. exact Hname.
  - (* progress bar, fresh *)
    destruct (ChannelMessagePin_frame (MsgID m) w3) as (ok & w4 & Hp & Htr4 & Hb4 & _).
    rewrite Hp in Hrun. inversion Hrun; subst r w'.
    split; [intros _; transitivity (blocks_of w4 (ID channel)); [reflexivity|];
            rewrite Hb4; exact Hb3|].
    exists ([EvBarNew {| bar_max := size;
                         bar_description := "Uploading " +:+ filename |}]
              ++ tr2 ++ [EvPin (ID channel) (MsgID m) ok; EvBarAdd size]).
    split; [cbn [with_trace w_trace] in *; rewrite Htr4, Htr;
            now rewrite <- !app_assoc|].
    rewrite !omap_app, Ho2, Hs2, Hp2. repeat split.
    + inversion H; subst s. reflexivity.
    + inversion H; subst s. exact Hname.
Qed.

End UploadPaths.

Section ChunkedPath.

Variable env : Env.
Variables (channel : Channel) (filename : string) (size maxChunkSize : Z)
  (debug resume : bool) (startBlock : Z).

(** The progress bar of the chunked path, and the world it starts the
    loop in. *)
Lemma uploadChunkedFile_unfold (w : World) :
  0 < wrap64 (maxChunkSize - 50) ->
  exists bar tr0,
    omap sent_in tr0 = [] /\ omap pin_of tr0 = [] /\ omap stdout_of tr0 = []
    /\ uploadChunkedFile env channel filename size maxChunkSize debug resume
         startBlock w
       = uploadChunkedFile_loop env (S (length (file_data env))) channel size
           (wrap64 (maxChunkSize - 50)) debug bar (negb resume) startBlock
           {| w_channels := w_channels w; w_messages := w_messages w;
              w_pinned := w_pinned w; w_next := w_next w; w_sends := w_sends w;
              w_offset := w_offset w; w_trace := w_trace w ++ tr0 |}.
Proof.
  intros Hpos. unfold uploadChunkedFile.
  destruct (Z.leb_spec (wrap64 (maxChunkSize - 50)) 0) as [H|_]; [lia|].
  destruct debug; cbn [negb].
  - exists None, []. repeat split. unfold bind, ret. rewrite app_nil_r.
    destruct w. reflexivity.
  - exists (Some {| bar_max := size; bar_description := "Uploading " +:+ filename |}),
      [EvBarNew {| bar_max := size; bar_description := "Uploading " +:+ filename |};
       EvBarAdd (wrap64 (startBlock * wrap64 (maxChunkSize - 50)))].
    do 3 (split; [reflexivity|]).
    cbv beta iota delta [bind emit ret with_trace w_trace w_channels w_messages
      w_pinned w_next w_sends w_offset].
    rewrite <- app_assoc. reflexivity.
Qed.

Lemma uploadChunkedFile_too_small (w : World) :
  wrap64 (maxChunkSize - 50) <= 0 ->
  uploadChunkedFile env channel filename size maxChunkSize debug resume
    startBlock w
  = (Err "calculated chunk size is too small", w).
Proof.
  intros H. unfold uploadChunkedFile.
  destruct (Z.leb_spec (wrap64 (maxChunkSize - 50)) 0) as [_|H']; [reflexivity|lia].
Qed.

(** The chunked path always returns. *)
Lemma uploadChunkedFile_terminates (w : World) :
  fst (uploadChunkedFile env channel filename size maxChunkSize debug resume
         startBlock w) <> Timeout.
Proof.
  destruct (Z.le_gt_cases (wrap64 (maxChunkSize - 50)) 0) as [H|H].
  - rewrite uploadChunkedFile_too_small by exact H. discriminate.
  - destruct (uploadChunkedFile_unfold w) as (bar & tr0 & _ & _ & _ & ->); [lia|].
    apply uploadChunkedFile_loop_terminates; [lia|].
    cbn [w_offset]. lia.
Qed.

(** Blocks of a chunked upload that returns without error. *)
Lemma uploadChunkedFile_blocks (w w' : World) :
  uploadChunkedFile env channel filename size maxChunkSize debug resume
    startBlock w = (Ok tt, w') ->
  0 <= maxChunkSize < 2 ^ 63 ->
  0 <= startBlock ->
  startBlock + Z.of_nat (length (file_data env) - w_offset w) < 2 ^ 63 ->
  50 < maxChunkSize
  /\ blocks_of w' (ID channel)
     = blocks_of w (ID channel)
         ++ map (block_at (Z.to_nat (maxChunkSize - 50)) (file_data env)
                   startBlock (w_offset w))
             (seq 0 (ceil_div (length (file_data env) - w_offset w)
                       (Z.to_nat (maxChunkSize - 50)))).
Proof.
  intros Hrun Hmax Hstart Hrange.
  assert (Hw : wrap64 (maxChunkSize - 50) = maxChunkSize - 50)
    by (apply wrap64_small; unfold int64_range; lia).
  destruct (Z.le_gt_cases (wrap64 (maxChunkSize - 50)) 0) as [H|H].
  { rewrite uploadChunkedFile_too_small in Hrun by exact H. discriminate. }
  split; [lia|].
  destruct (uploadChunkedFile_unfold w) as (bar & tr0 & _ & _ & _ & Heq); [lia|].
  rewrite Heq in Hrun. rewrite Hw in Hrun.
  apply uploadChunkedFile_loop_blocks in Hrun; try assumption; lia.
Qed.

(** Pins and sends of the chunked path, whatever its outcome. *)
Lemma uploadChunkedFile_pins (w : World) r w' :
  uploadChunkedFile env channel filename size maxChunkSize debug resume
    startBlock w = (r, w') ->
  exists tr,
    w_trace w' = w_trace w ++ tr
    /\ omap stdout_of tr = []
    /\ omap pin_of tr
       = (if resume then [] else map pin_target (take 1 (omap sent_in tr)))
    /\ forall s, head (omap sent_in tr) = Some s ->
         fst s = ID channel
         /\ map Filename (Attachments (snd s)) = [Itoa (wrap64 (startBlock + 1))].
Proof.
  intros Hrun.
  destruct (Z.le_gt_cases (wrap64 (maxChunkSize - 50)) 0) as [H|H].
  { rewrite uploadChunkedFile_too_small in Hrun by exact H.
    inversion Hrun; subst. exists []. rewrite app_nil_r.
    repeat split; try easy. now destruct resume. }
  destruct (uploadChunkedFile_unfold w) as (bar & tr0 & Hs0 & Hp0 & Ho0 & Heq); [lia|].
  rewrite Heq in Hrun.
  apply uploadChunkedFile_loop_pins in Hrun; [|lia].
  destruct Hrun as (tr & Htr & Ho & Hp & Hname).
  exists (tr0 ++ tr). cbn [w_trace] in Htr.
  split; [rewrite Htr; now rewrite <- app_assoc|].
  rewrite !omap_app, Ho0, Ho, Hs0, Hp0, Hp. cbn [app].
  split; [reflexivity|]. split; [now destruct resume|]. exact Hname.
Qed.

End ChunkedPath.

(** ** The handler *)

Lemma new_events_app (w w' : World) (tr : list event) :
  w_trace w' = w_trace w ++ tr -> new_events w w' = tr.
Proof. intros H. unfold new_events. now rewrite H, drop_app_length. Qed.

Lemma setup_events_quiet (tr : list event) :
  forallb setup_event tr = true ->
  omap pin_of tr = [] /\ omap sent_in tr = [] /\ omap stdout_of tr = []
  /\ filter is_send tr = [].
Proof.
  induction tr as [|e tr IH]; intros H; [repeat split|].
  simpl in H. apply andb_true_iff in H. destruct H as [He H].
  destruct (IH H) as (Hp & Hs & Ho & Hf).
  destruct e; try discriminate; simpl; repeat split; assumption.
Qed.

Ltac early_exit Hrun tr :=
  left; exists tr; inversion Hrun; subst;
  cbn [with_trace with_offset w_trace w_messages];
  rewrite ?app_nil_r, <- ?app_assoc; repeat split; easy.

(** A fresh upload either fails during its set-up, having at most opened
    the file and tried to create the channel, or enters one of the two
    upload paths in a new channel. *)
Lemma up_fresh_cases (env : Env) (args : list string) (w : World) r w' :
  upResume env = false ->
  up env args w = (r, w') ->
  (exists tr,
      w_trace w' = w_trace w ++ tr /\ forallb setup_event tr = true
      /\ w_messages w' = w_messages w
      /\ (forall a, r <> Ok a) /\ r <> Timeout)
  \/ exists local rest mx enc ok w1,
       args = local :: rest
       /\ GetMaxFileSizeUpload_result env = inl mx
       /\ let channel := {| ID := w_next w; Name := enc; Topic := "" |} in
          let size := Z.of_nat (length (file_data env)) in
          w_trace w1
          = w_trace w ++ [EvOpen local None; EvChannelCreate enc (inl channel);
                          EvChannelEdit (w_next w) (FormatInt size) ok]
          /\ w_messages w1 = w_messages w
          /\ w_offset w1 = 0%nat
          /\ (if size <=? mx
              then uploadSingleFile env channel (snd (filepath_Split local)) size
                     (upDebug env) false
              else uploadChunkedFile env channel (snd (filepath_Split local)) size
                     mx (upDebug env) false 0) w1
             = (r, w').
Proof.
  intros Hfresh Hrun. unfold up in Hrun. rewrite Hfresh in Hrun.
  cbn [negb andb] in Hrun.
  unfold bind at 1 in Hrun. unfold GetDiscordSession, lift_err in Hrun.
  destruct (GetDiscordSession_err env); [early_exit Hrun (@nil event)|].
  unfold ret at 1 in Hrun. unfold bind at 1 in Hrun.
  unfold ParseFileMap, lift_result in Hrun.
  destruct (ParseFileMap_result env) as [fileMap|e]; [|early_exit Hrun (@nil event)].
  unfold ret at 1 in Hrun.
  destruct (Z.of_nat (size fileMap) >=? MaxDiscordChannels env);
    [early_exit Hrun (@nil event)|].
  destruct args as [|local rest]; [early_exit Hrun (@nil event)|].
  unfold bind at 1 in Hrun. unfold os_Open in Hrun.
  destruct (Open_err env) as [e|]; [early_exit Hrun [EvOpen local (Some e)]|].
  rewrite !andb_true_r, andb_false_r in Hrun.
  destruct (bool_decide _); [early_exit Hrun [EvOpen local None]|].
  unfold bind at 1 in Hrun. unfold Stat_Size in Hrun.
  destruct (Stat_err env); [early_exit Hrun [EvOpen local None]|].
  unfold ret at 1 in Hrun. unfold bind at 1 in Hrun.
  unfold GetMaxFileSizeUpload, lift_result in Hrun.
  destruct (GetMaxFileSizeUpload_result env) as [mx|e] eqn:Hmx;
    [|early_exit Hrun [EvOpen local None]].
  unfold ret at 1 in Hrun. unfold bind at 1 in Hrun.
  unfold up_create in Hrun. unfold bind at 1 in Hrun. unfold lift_result in Hrun.
  set (remote := match rest with [] => (filepath_Split local).2 | r0 :: _ => r0 end)
    in Hrun.
  destruct (EncodeFilename env remote) as [enc|e];
    [|early_exit Hrun [EvOpen local None]].
  unfold ret at 1 in Hrun. unfold GuildChannelCreate in Hrun.
  cbn [with_trace with_offset w_next w_channels w_messages w_trace w_offset
       w_pinned w_sends] in Hrun.
  destruct (create_err env) as [e|].
  { early_exit Hrun [EvOpen local None; EvChannelCreate enc (inr e)]. }
  unfold bind at 1 in Hrun. unfold ChannelEdit in Hrun.
  cbn [with_trace with_offset with_next with_channel w_next w_channels w_messages
       w_trace w_offset w_pinned w_sends ID] in Hrun.
  rewrite lookup_insert_eq in Hrun.
  right. exists local, rest, mx, enc, (edit_ok env).
  destruct (edit_ok env); unfold ret at 1 in Hrun; cbn [fst snd] in Hrun;
    eexists; (split; [reflexivity|]); (split; [reflexivity|]); cbn zeta;
    (split; [|split; [|split; [|exact Hrun]]]);
    cbn [with_trace with_offset with_next with_channel w_next w_channels w_messages
         w_trace w_offset w_pinned w_sends ID];
    rewrite <- ?app_assoc; reflexivity.
Qed.

(** The resume inspection only reads. *)
Lemma up_resume_frame (env : Env) (fileMap : gmap string Channel)
    (remote : string) (size : Z) (sizeStr : string) (mx : Z) (w : World) r w' :
  up_resume env fileMap remote size sizeStr mx w = (r, w') ->
  w' = w /\ r <> Timeout.
Proof.
  unfold up_resume. intros Hrun.
  destruct (fileMap !! remote) as [channel|]; [|now inversion Hrun].
  destruct (negb (Topic channel =? sizeStr)%string); [now inversion Hrun|].
  unfold bind at 1 in Hrun. unfold ChannelMessages at 1 in Hrun.
  destruct (list_err env "0"); [now inversion Hrun|].
  cbn [String.eqb Ascii.eqb Bool.eqb] in Hrun. cbv beta iota in Hrun.
  destruct (take 1 (messages_of w (ID channel))) as [|m0 ?]; [now inversion Hrun|].
  destruct (Attachments m0) as [|a0 ?]; [now inversion Hrun|].
  destruct (Size a0 >? mx); [now inversion Hrun|].
  unfold bind at 1 in Hrun. unfold ChannelMessages at 1 in Hrun.
  destruct (list_err env ""); [now inversion Hrun|].
  cbn [String.eqb] in Hrun. cbv beta iota in Hrun.
  unfold bind at 1 in Hrun. unfold lift_result in Hrun.
  destruct (inferBlockNumber _ (Size a0) 0) as [bn|e]; [|now inversion Hrun].
  unfold ret at 1 in Hrun.
  destruct (wrap64 (bn * Size a0) =? size); now inversion Hrun.
Qed.

Ltac early_exit_open Hrun tr :=
  left; exists tr; inversion Hrun; subst;
  cbn [with_trace with_offset w_trace w_messages];
  rewrite ?app_nil_r, <- ?app_assoc;
  repeat split; try easy;
  try (intros ? ? Hargs Hs [? Hp]; inversion Hargs; subst; congruence).

(** A resumed upload either fails before it uploads anything, having at
    most opened the file, or enters one of the two upload paths with the
    channel, block size and block number that the inspection returned. *)
Lemma up_resume_cases (env : Env) (args : list string) (w : World) r w' :
  upResume env = true ->
  up env args w = (r, w') ->
  (exists tr,
      w_trace w' = w_trace w ++ tr /\ forallb setup_event tr = true
      /\ w_messages w' = w_messages w
      /\ (forall a, r <> Ok a) /\ r <> Timeout
      /\ (forall local rest, args = local :: rest ->
            GetDiscordSession_err env = None ->
            (exists fileMap, ParseFileMap_result env = inl fileMap) ->
            tr = [EvOpen local (Open_err env)]))
  \/ exists local rest fileMap mx channel cand bn,
       args = local :: rest
       /\ ParseFileMap_result env = inl fileMap
       /\ GetMaxFileSizeUpload_result env = inl mx
       /\ Open_err env = None
       /\ let remote := match rest with
                        | [] => snd (filepath_Split local)
                        | r0 :: _ => r0
                        end in
          let size := Z.of_nat (length (file_data env)) in
          let w1 := with_trace (EvOpen local None) (with_offset 0 w) in
          up_resume env fileMap remote size (FormatInt size) mx w1
          = (Ok (channel, cand, bn), w1)
          /\ (if size <=? cand
              then uploadSingleFile env channel (snd (filepath_Split local)) size
                     (upDebug env) true
              else uploadChunkedFile env channel (snd (filepath_Split local)) size
                     cand (upDebug env) true bn) w1
             = (r, w').
Proof.
  intros Hres Hrun. unfold up in Hrun. rewrite Hres in Hrun.
  cbn [negb andb] in Hrun.
  unfold bind at 1 in Hrun. unfold GetDiscordSession, lift_err in Hrun.
  destruct (GetDiscordSession_err env) eqn:Hsess;
    [early_exit_open Hrun (@nil event)|].
  unfold ret at 1 in Hrun. unfold bind at 1 in Hrun.
  unfold ParseFileMap, lift_result in Hrun.
  destruct (ParseFileMap_result env) as [fileMap|e] eqn:Hfm;
    [|early_exit_open Hrun (@nil event)].
  unfold ret at 1 in Hrun.
  destruct args as [|local rest]; [early_exit_open Hrun (@nil event)|].
  unfold bind at 1 in Hrun. unfold os_Open in Hrun.
  destruct (Open_err env) as [e|] eqn:Hopen;
    [early_exit_open Hrun [EvOpen local (Some e)]|].
  rewrite !andb_false_r, !andb_true_r in Hrun.
  destruct (negb (bool_decide _)); [early_exit_open Hrun [EvOpen local None]|].
  unfold bind at 1 in Hrun. unfold Stat_Size in Hrun.
  destruct (Stat_err env); [early_exit_open Hrun [EvOpen local None]|].
  unfold ret at 1 in Hrun. unfold bind at 1 in Hrun.
  unfold GetMaxFileSizeUpload, lift_result in Hrun.
  destruct (GetMaxFileSizeUpload_result env) as [mx|e] eqn:Hmx;
    [|early_exit_open Hrun [EvOpen local None]].
  unfold ret at 1 in Hrun. unfold bind at 1 in Hrun.
  destruct (up_resume env fileMap _ _ _ mx _) as [r1 w1] eqn:Hinspect.
  destruct (up_resume_frame _ _ _ _ _ _ _ _ _ Hinspect) as [-> Hnt].
  destruct r1 as [[[channel cand] bn]|e| |];
    [|early_exit_open Hrun [EvOpen local None]
     |early_exit_open Hrun [EvOpen local None]
     |contradiction].
  right. exists local, rest, fileMap, mx, channel, cand, bn.
  repeat (split; [reflexivity|]). cbn zeta. split; [exact Hinspect|exact Hrun].
Qed.

(** ** Termination *)

Lemma uploadSingleFile_terminates (env : Env) (channel : Channel)
    (filename : string) (size : Z) (debug resume : bool) (w : World) :
  fst (uploadSingleFile env channel filename size debug resume w) <> Timeout.
Proof.
  unfold uploadSingleFile, io_ReadAll.
  destruct (read_err env (w_offset w)); [discriminate|].
  cbv beta iota.
  destruct debug, resume; cbn [negb andb]; unfold bind, emit, ret;
    match goal with
    | |- context [sendMessageWithRetry ?e ?c ?m ?t ?w0] =>
        destruct (sendMessageWithRetry e c m t w0) as [r3 w3] eqn:Hsend;
        apply sendMessageWithRetry_frame in Hsend;
        destruct Hsend as (? & _ & _ & _ & _ & _ & Hres);
        destruct r3; try contradiction; try discriminate
    end;
    try (unfold ChannelMessagePin; destruct (pin_ok env)); discriminate.
Qed.

(** The handler always returns: the budget of the chunk loop is never
    used up. *)
Lemma up_terminates (env : Env) (args : list string) (w : World) :
  fst (up env args w) <> Timeout.
Proof.
  destruct (up env args w) as [r w'] eqn:Hrun. cbn [fst].
  destruct (upResume env) eqn:Hres.
  - destruct (up_resume_cases env args w r w' Hres Hrun)
      as [(tr & _ & _ & _ & _ & Hnt & _)
         |(local & rest & fm & mx & channel & cand & bn & _ & _ & _ & _ & _ & Hpath)];
      [exact Hnt|].
    destruct (_ <=? cand).
    + pose proof (uploadSingleFile_terminates env channel
                    (snd (filepath_Split local))
                    (Z.of_nat (length (file_data env))) (upDebug env) true
                    (with_trace (EvOpen local None) (with_offset 0 w))) as Hnt.
      rewrite Hpath in Hnt. exact Hnt.
    + pose proof (uploadChunkedFile_terminates env channel
                    (snd (filepath_Split local))
                    (Z.of_nat (length (file_data env))) cand (upDebug env) true bn
                    (with_trace (EvOpen local None) (with_offset 0 w))) as Hnt.
      rewrite Hpath in Hnt. exact Hnt.
  - destruct (up_fresh_cases env args w r w' Hres Hrun)
      as [(tr & _ & _ & _ & _ & Hnt)
         |(local & rest & mx & enc & ok & w1 & _ & _ & _ & _ & _ & Hpath)];
      [exact Hnt|].
    destruct (_ <=? mx).
    + pose proof (uploadSingleFile_terminates env
                    {| ID := w_next w; Name := enc; Topic := "" |}
                    (snd (filepath_Split local))
                    (Z.of_nat (length (file_data env))) (upDebug env) false w1) as Hnt.
      rewrite Hpath in Hnt. exact Hnt.
    + pose proof (uploadChunkedFile_terminates env
                    {| ID := w_next w; Name := enc; Topic := "" |}
                    (snd (filepath_Split local))
                    (Z.of_nat (length (file_data env))) mx (upDebug env) false 0 w1)
        as Hnt.
      rewrite Hpath in Hnt. exact Hnt.
Qed.

(** ** Chunks of a file *)

Section Chunks.

Variables (K : nat) (data : list Byte.byte).
Hypothesis K_pos : (0 < K)%nat.

#[local] Abbreviation n := (ceil_div (length data) K).





End Chunks.



(** ** Fresh chunked uploads *)




(** ** The boundary between the two paths *)



(** ** The pinned anchor *)

(** Pins, sends and printed lines of a run of the handler. *)
Lemma up_pins (env : Env) (args : list string) (w : World) r w' :
  up env args w = (r, w') ->
  exists tr,
    w_trace w' = w_trace w ++ tr
    /\ omap stdout_of tr = []
    /\ omap pin_of tr
       = (if upResume env then []
          else map pin_target (take 1 (omap sent_in tr)))
    /\ (upResume env = false ->
        forall s, head (omap sent_in tr) = Some s ->
          map Filename (Attachments (snd s)) = ["1"]).
Proof.
  intros Hrun.
  assert (Hone : Itoa (wrap64 (0 + 1)) = "1") by (vm_compute; reflexivity).
  destruct (upResume env) eqn:Hres.
  - destruct (up_resume_cases env args w _ _ Hres Hrun)
      as [(tr & Htr & Hsetup & _)
         |(local & rest & fileMap & mx & channel & cand & bn & -> & _ & _ & _ & _ & Hpath)].
    + apply setup_events_quiet in Hsetup. destruct Hsetup as (Hp & Hs & Ho & _).
      exists tr. repeat split; try assumption. discriminate.
    + assert (Hpins : exists tr,
                 w_trace w' = w_trace w ++ EvOpen local None :: tr
                 /\ omap stdout_of tr = [] /\ omap pin_of tr = []).
      { destruct (_ <=? cand).
        - apply uploadSingleFile_effect in Hpath.
          destruct Hpath as (_ & tr & Htr & Ho & Hp & _).
          exists tr. cbn [with_trace with_offset w_trace] in Htr.
          rewrite Htr, <- app_assoc. repeat split; assumption.
        - apply uploadChunkedFile_pins in Hpath.
          destruct Hpath as (tr & Htr & Ho & Hp & _).
          exists tr. cbn [with_trace with_offset w_trace] in Htr.
          rewrite Htr, <- app_assoc. repeat split; assumption. }
      destruct Hpins as (tr & Htr & Ho & Hp).
      exists (EvOpen local None :: tr). repeat split; try assumption. discriminate.
  - destruct (up_fresh_cases env args w _ _ Hres Hrun)
      as [(tr & Htr & Hsetup & _)
         |(local & rest & mx & enc & ok & w1 & -> & _ & Htr1 & _ & _ & Hpath)].
    + apply setup_events_quiet in Hsetup. destruct Hsetup as (Hp & Hs & Ho & _).
      exists tr. rewrite Hs. repeat split; try assumption. intros _ s Hs'. discriminate.
    + assert (Hpins : exists tr,
                 w_trace w' = w_trace w1 ++ tr
                 /\ omap stdout_of tr = []
                 /\ omap pin_of tr = map pin_target (take 1 (omap sent_in tr))
                 /\ forall s, head (omap sent_in tr) = Some s ->
                      map Filename (Attachments (snd s)) = ["1"]).
      { destruct (_ <=? mx).
        - apply uploadSingleFile_effect in Hpath.
          destruct Hpath as (_ & tr & Htr & Ho & Hp & Hname).
          exists tr. repeat split; try assumption. intros s Hs. now apply Hname.
        - apply uploadChunkedFile_pins in Hpath.
          destruct Hpath as (tr & Htr & Ho & Hp & Hname).
          exists tr. repeat split; try assumption.
          intros s Hs. rewrite <- Hone. now apply Hname. }
      destruct Hpins as (tr & Htr & Ho & Hp & Hname).
      eexists ([_; _; _] ++ tr).
      split; [rewrite Htr, Htr1, <- app_assoc; reflexivity|].
      split; [exact Ho|]. split; [exact Hp|]. intros _. exact Hname.
Qed.


(** ** Errors of the resume inspection *)

(** C8 (size mismatch).  A resumed upload to a channel whose topic is not
    the decimal string of the size of the local file fails without any
    request that writes to Discord; when the session, the local file and
    the size limit are available, the error is the size mismatch. *)
Theorem resume_size_mismatch (env : Env) (local : string) (rest : list string)
    (w : World) (fileMap : gmap string Channel) (channel : Channel) :
  upResume env = true ->
  ParseFileMap_result env = inl fileMap ->
  fileMap !! (match rest with
              | [] => snd (filepath_Split local)
              | r0 :: _ => r0
              end) = Some channel ->
  Topic channel <> FormatInt (Z.of_nat (length (file_data env))) ->
  exists e w',
    up env (local :: rest) w = (Err e, w')
    /\ filter is_write (new_events w w') = []
    /\ w_messages w' = w_messages w
    /\ w_channels w' = w_channels w
    /\ w_pinned w' = w_pinned w
    /\ (GetDiscordSession_err env = None -> Open_err env = None ->
        Stat_err env = None ->
        (exists mx, GetMaxFileSizeUpload_result env = inl mx) ->
        e = "remote file size does not match local file size").
Proof.
  intros Hres Hfm Hlookup Htopic.
  unfold up. rewrite Hres. cbn [negb andb].
  unfold bind at 1. unfold GetDiscordSession, lift_err.
  destruct (GetDiscordSession_err env) as [e|].
  { exists e, w. unfold fail, new_events. rewrite drop_all.
    repeat split; intros; discriminate. }
  unfold ret at 1. unfold bind at 1. unfold ParseFileMap, lift_result.
  rewrite Hfm. unfold ret at 1.
  unfold bind at 1. unfold os_Open.
  destruct (Open_err env) as [e|].
  { exists e, (with_trace (EvOpen local (Some e)) w).
    unfold new_events. cbn [with_trace w_trace]. rewrite drop_app_length.
    repeat split; intros; discriminate. }
  rewrite Hlookup. rewrite !andb_false_r, !andb_true_r.
  rewrite bool_decide_eq_true_2 by eauto. cbn [negb].
  unfold bind at 1. unfold Stat_Size.
  destruct (Stat_err env) as [e|].
  { exists e, (with_trace (EvOpen local None) (with_offset 0 w)).
    unfold fail, new_events. cbn [with_trace with_offset w_trace].
    rewrite drop_app_length. repeat split; intros; discriminate. }
  unfold ret at 1. unfold bind at 1. unfold GetMaxFileSizeUpload, lift_result.
  destruct (GetMaxFileSizeUpload_result env) as [mx|e].
  2:{ exists e, (with_trace (EvOpen local None) (with_offset 0 w)).
      unfold fail, new_events. cbn [with_trace with_offset w_trace].
      rewrite drop_app_length. repeat split; intros; try discriminate.
      destruct H2 as [? ?]. discriminate. }
  unfold ret at 1. unfold bind at 1. unfold up_resume. rewrite Hlookup.
  assert ((Topic channel =? FormatInt (Z.of_nat (length (file_data env))))%string
          = false) as -> by (apply String.eqb_neq; exact Htopic).
  cbn [negb]. unfold fail.
  exists "remote file size does not match local file size",
    (with_trace (EvOpen local None) (with_offset 0 w)).
  unfold new_events. cbn [with_trace with_offset w_trace].
  rewrite drop_app_length. repeat split.
Qed.

Lemma resume_size_mismatch_witness :
  exists e w',
    up mismatch_env ("dir/f.bin" :: []) empty_world = (Err e, w')
    /\ filter is_write (new_events empty_world w') = []
    /\ w_messages w' = w_messages empty_world
    /\ w_channels w' = w_channels empty_world
    /\ w_pinned w' = w_pinned empty_world
    /\ (GetDiscordSession_err mismatch_env = None -> Open_err mismatch_env = None ->
        Stat_err mismatch_env = None ->
        (exists mx, GetMaxFileSizeUpload_result mismatch_env = inl mx) ->
        e = "remote file size does not match local file size").
Proof.
  apply (resume_size_mismatch mismatch_env "dir/f.bin" [] empty_world
           {[ "f.bin" := stale_channel ]} stale_channel).
  - reflexivity.
  - reflexivity.
  - vm_compute. reflexivity.
  - intros H. vm_compute in H. discriminate.
Defined.

(** C5 (idempotent resume).  When the resume inspection gets as far as
    its last comparison, with the size [cand] of the first attachment of
    the oldest message as block size and [last] as number of the last
    block, and [last * cand] is the size of the local file, the handler
    fails with the already-complete error and no request has written to
    Discord. *)
Theorem resume_already_complete (env : Env) (local : string) (rest : list string)
    (w : World) (fileMap : gmap string Channel) (channel : Channel) (mx : Z)
    (m0 : Message) (older : list Message) (a0 : MessageAttachment)
    (others : list MessageAttachment) (last : Z) :
  upResume env = true ->
  GetDiscordSession_err env = None ->
  ParseFileMap_result env = inl fileMap ->
  Open_err env = None ->
  Stat_err env = None ->
  GetMaxFileSizeUpload_result env = inl mx ->
  list_err env "0" = None ->
  list_err env "" = None ->
  fileMap !! (match rest with
              | [] => snd (filepath_Split local)
              | r0 :: _ => r0
              end) = Some channel ->
  Topic channel = FormatInt (Z.of_nat (length (file_data env))) ->
  messages_of w (ID channel) = m0 :: older ->
  Attachments m0 = a0 :: others ->
  Size a0 <= mx ->
  inferBlockNumber (take 2 (reverse (messages_of w (ID channel)))) (Size a0) 0
  = inl last ->
  last * Size a0 = Z.of_nat (length (file_data env)) ->
  Z.of_nat (length (file_data env)) < 2 ^ 63 ->
  exists w',
    up env (local :: rest) w = (Err "upload is already complete", w')
    /\ filter is_write (new_events w w') = []
    /\ filter is_send (new_events w w') = []
    /\ w_messages w' = w_messages w.
Proof.
  intros Hres Hsess Hfm Hopen Hstat Hmx Hl0 Hl1 Hlookup Htopic Hmsgs Hatt Hle
    Hinfer Hprod Hsize.
  unfold up. rewrite Hres. cbn [negb andb].
  unfold bind at 1. unfold GetDiscordSession, lift_err. rewrite Hsess.
  unfold ret at 1. unfold bind at 1. unfold ParseFileMap, lift_result.
  rewrite Hfm. unfold ret at 1.
  unfold bind at 1. unfold os_Open. rewrite Hopen.
  rewrite Hlookup. rewrite !andb_false_r, !andb_true_r.
  rewrite bool_decide_eq_true_2 by eauto. cbn [negb].
  unfold bind at 1. unfold Stat_Size. rewrite Hstat.
  unfold ret at 1. unfold bind at 1. unfold GetMaxFileSizeUpload, lift_result.
  rewrite Hmx.
  unfold ret at 1. unfold bind at 1. unfold up_resume. rewrite Hlookup.
  rewrite Htopic, String.eqb_refl. cbn [negb].
  unfold bind at 1. unfold ChannelMessages at 1. rewrite Hl0.
  cbn [String.eqb Ascii.eqb Bool.eqb]. cbv beta iota.
  change (messages_of (with_trace (EvOpen local None) (with_offset 0 w)) (ID channel))
    with (messages_of w (ID channel)).
  rewrite Hmsgs. cbn [take]. rewrite Hatt.
  destruct (Z.gtb_spec (Size a0) mx) as [Hgt|_]; [lia|].
  unfold bind at 1. unfold ChannelMessages at 1. rewrite Hl1.
  cbn [String.eqb]. cbv beta iota.
  change (messages_of (with_trace (EvOpen local None) (with_offset 0 w)) (ID channel))
    with (messages_of w (ID channel)).
  rewrite Hinfer.
  unfold bind at 1. unfold lift_result, ret at 1.
  rewrite Hprod. rewrite wrap64_small by (unfold int64_range; lia).
  rewrite Z.eqb_refl. unfold fail.
  exists (with_trace (EvOpen local None) (with_offset 0 w)).
  unfold new_events. cbn [with_trace with_offset w_trace].
  rewrite drop_app_length. repeat split.
Qed.

Lemma resume_already_complete_witness :
  exists w',
    up complete_env ("dir/f.bin" :: []) complete_world
    = (Err "upload is already complete", w')
    /\ filter is_write (new_events complete_world w') = []
    /\ filter is_send (new_events complete_world w') = []
    /\ w_messages w' = w_messages complete_world.
Proof.
  apply (resume_already_complete complete_env "dir/f.bin" [] complete_world
           {[ "f.bin" := complete_channel ]} complete_channel 110
           {| MsgID := 2%N; Attachments := [complete_block "1" 0] |}
           [ {| MsgID := 3%N; Attachments := [] |};
             {| MsgID := 4%N; Attachments := [complete_block "2" 60] |} ]
           (complete_block "1" 0) [] 2).
  - reflexivity.
  - reflexivity.
  - reflexivity.
  - reflexivity.
  - reflexivity.
  - reflexivity.
  - reflexivity.
  - reflexivity.
  - vm_compute. reflexivity.
  - vm_compute. reflexivity.
  - vm_compute. reflexivity.
  - reflexivity.
  - simpl. lia.
  - vm_compute. reflexivity.
  - vm_compute. reflexivity.
  - vm_compute. reflexivity.
Defined.

(** ** The channel limit *)

(** For a resumed upload the channel limit plays no role. *)
Lemma up_resume_ignores_limit (env : Env) (limit : Z) (args : list string)
    (w : World) :
  upResume env = true ->
  up (with_limit limit env) args w = up env args w.
Proof.
  intros Hres. unfold up.
  change (upResume (with_limit limit env)) with (upResume env).
  rewrite Hres. cbn [negb andb]. reflexivity.
Qed.

(** C10 (channel limit).  With as many files as the channel limit allows,
    or more, a fresh upload fails with the world untouched: no file has
    been opened and nothing has been requested from Discord.  A resumed
    upload runs as it would under any other limit, and opens the local
    file as its next step. *)
Theorem channel_limit_only_fresh (env : Env) (args : list string) (w : World)
    (fileMap : gmap string Channel) :
  ParseFileMap_result env = inl fileMap ->
  MaxDiscordChannels env <= Z.of_nat (size fileMap) ->
  if upResume env
  then (forall limit, up (with_limit limit env) args w = up env args w)
       /\ (GetDiscordSession_err env = None ->
           forall local rest, args = local :: rest ->
             exists tr,
               new_events w (snd (up env args w))
               = EvOpen local (Open_err env) :: tr)
  else exists e,
         up env args w = (Err e, w)
         /\ filter is_open (new_events w w) = []
         /\ filter is_write (new_events w w) = []
         /\ (GetDiscordSession_err env = None ->
             e = "max Discord channel limit of "
                   +:+ Itoa (MaxDiscordChannels env) +:+ " is reached").
Proof.
  intros Hfm Hfull.
  destruct (upResume env) eqn:Hres.
  - split.
    { intros limit. now apply up_resume_ignores_limit. }
    intros Hsess local rest ->.
    destruct (up env (local :: rest) w) as [r w'] eqn:Hrun. cbn [snd].
    destruct (up_resume_cases env _ w r w' Hres Hrun)
      as [(tr & Htr & _ & _ & _ & _ & Hopen)
         |(local' & rest' & fm & mx & channel & cand & bn & Hargs & _ & _ & Hopen
           & _ & Hpath)].
    + exists []. rewrite (new_events_app w w' tr Htr).
      apply (Hopen local rest); eauto.
    + inversion Hargs; subst local' rest'. rewrite Hopen.
      assert (Hext : exists tr,
                 w_trace w'
                 = w_trace (with_trace (EvOpen local None) (with_offset 0 w)) ++ tr).
      { destruct (_ <=? cand).
        - apply uploadSingleFile_effect in Hpath.
          destruct Hpath as (_ & tr & Htr & _). now exists tr.
        - apply uploadChunkedFile_pins in Hpath.
          destruct Hpath as (tr & Htr & _). now exists tr. }
      destruct Hext as (tr & Htr). exists tr.
      apply new_events_app. rewrite Htr. cbn [with_trace with_offset w_trace].
      now rewrite <- app_assoc.
  - unfold up. rewrite Hres. cbn [negb andb].
    unfold bind at 1. unfold GetDiscordSession, lift_err.
    unfold new_events. rewrite drop_all.
    destruct (GetDiscordSession_err env) as [e|].
    { exists e. repeat split. discriminate. }
    unfold ret at 1. unfold bind at 1. unfold ParseFileMap, lift_result.
    rewrite Hfm. unfold ret at 1.
    destruct (Z.geb_spec (Z.of_nat (size fileMap)) (MaxDiscordChannels env))
      as [_|Hlt]; [|lia].
    eexists. repeat split.
Qed.

Lemma channel_limit_only_fresh_witness :
  if upResume (full_env false)
  then (forall limit,
          up (with_limit limit (full_env false)) ["dir/h.bin"] empty_world
          = up (full_env false) ["dir/h.bin"] empty_world)
       /\ (GetDiscordSession_err (full_env false) = None ->
           forall local rest, ["dir/h.bin"] = local :: rest ->
             exists tr,
               new_events empty_world
                 (snd (up (full_env false) ["dir/h.bin"] empty_world))
               = EvOpen local (Open_err (full_env false)) :: tr)
  else exists e,
         up (full_env false) ["dir/h.bin"] empty_world = (Err e, empty_world)
         /\ filter is_open (new_events empty_world empty_world) = []
         /\ filter is_write (new_events empty_world empty_world) = []
         /\ (GetDiscordSession_err (full_env false) = None ->
             e = "max Discord channel limit of "
                   +:+ Itoa (MaxDiscordChannels (full_env false)) +:+ " is reached").
Proof.
  apply (channel_limit_only_fresh (full_env false) ["dir/h.bin"] empty_world
           full_fileMap).
  - reflexivity.
  - vm_compute. discriminate.
Defined.

(** ** Resumed uploads *)

(** Blocks of a resumed upload that takes the chunked path and returns
    without error: the whole file, read from offset 0, in chunks of 50
    bytes less than the block size [cand] that the inspection inferred,
    numbered from [bn + 1]. *)
Lemma resumed_chunked_blocks (env : Env) (args : list string) (w w' : World) :
  upResume env = true ->
  up env args w = (Ok tt, w') ->
  exists local rest fileMap mx channel cand bn,
    let len := length (file_data env) in
    let remote := match rest with
                  | [] => snd (filepath_Split local)
                  | r0 :: _ => r0
                  end in
    let w1 := with_trace (EvOpen local None) (with_offset 0 w) in
    args = local :: rest
    /\ up_resume env fileMap remote (Z.of_nat len) (FormatInt (Z.of_nat len)) mx w1
       = (Ok (channel, cand, bn), w1)
    /\ (cand < Z.of_nat len ->
        0 <= cand < 2 ^ 63 -> 0 <= bn -> bn + Z.of_nat len < 2 ^ 63 ->
        50 < cand
        /\ blocks_of w' (ID channel)
           = blocks_of w (ID channel)
               ++ map (block_at (Z.to_nat (cand - 50)) (file_data env) bn 0)
                   (seq 0 (ceil_div len (Z.to_nat (cand - 50))))).
Proof.
  intros Hres Hrun.
  destruct (up_resume_cases env args w _ _ Hres Hrun)
    as [(tr & _ & _ & _ & Hno & _)
       |(local & rest & fm & mx & channel & cand & bn & Hargs & _ & _ & _ & Hinspect
         & Hpath)].
  { exfalso. now apply (Hno tt). }
  exists local, rest, fm, mx, channel, cand, bn. cbn zeta.
  split; [exact Hargs|]. split; [exact Hinspect|].
  intros Hgt Hcand Hbn Hrange.
  destruct (Z.leb_spec (Z.of_nat (length (file_data env))) cand) as [Hle|_]; [lia|].
  apply uploadChunkedFile_blocks in Hpath; try assumption.
  - cbn [with_trace with_offset w_offset] in Hpath.
    rewrite Nat.sub_0_r in Hpath. exact Hpath.
  - cbn [with_trace with_offset w_offset]. lia.
Qed.

(** C1 (resume continuation), on the interrupted upload of the samples:
    the first run stops with block 1 in the channel; the resumed run
    returns without error, and the channel then holds the first 60 bytes
    of the file followed by the whole file again, since the resumed run
    reads the local file from offset 0 (block 2 carries bytes 0 to 9);
    the uninterrupted upload holds the file itself. *)
Theorem resumed_upload_rereads_from_start :
  fst interrupted_run = Err "failed after 10 attempts: EOF"
  /\ map Filename (blocks_of (snd interrupted_run) 1%N) = ["1"]
  /\ fst resumed_run = Ok tt
  /\ fst fresh_run = Ok tt
  /\ concat (map Content (blocks_of (snd fresh_run) 1%N)) = sample_file 150
  /\ concat (map Content (blocks_of (snd resumed_run) 1%N))
     = take 60 (sample_file 150) ++ sample_file 150
  /\ concat (map Content (blocks_of (snd resumed_run) 1%N))
     <> concat (map Content (blocks_of (snd fresh_run) 1%N))
  /\ Content <$> (blocks_of (snd resumed_run) 1%N !! 1%nat)
     = Some (take 10 (sample_file 150)).
Proof.
  repeat split; try (vm_compute; reflexivity).
  intros H. apply (f_equal length) in H. vm_compute in H. discriminate.
Qed.

(** C2 (constant block size), on the same runs: block 1 has 60 bytes and
    every block written after the resume point has 10 bytes, 50 less. *)
Theorem resumed_upload_shrinks_blocks :
  fst resumed_run = Ok tt
  /\ map name_and_size (blocks_of (snd resumed_run) 1%N)
     = ("1", 60) :: map (fun i => (Itoa (Z.of_nat i), 10)) (seq 2 15)
  /\ map name_and_size (blocks_of (snd fresh_run) 1%N)
     = [("1", 60); ("2", 60); ("3", 30)].
Proof. repeat split; vm_compute; reflexivity. Qed.

(** ** Debug mode *)

(** No run of the handler writes to the standard output. *)
Lemma up_prints_nothing (env : Env) (args : list string) (w : World) :
  omap stdout_of (new_events w (snd (up env args w))) = [].
Proof.
  destruct (up env args w) as [r w'] eqn:Hrun. cbn [snd].
  destruct (up_pins env args w r w' Hrun) as (tr & Htr & Ho & _).
  now rewrite (new_events_app w w' tr Htr).
Qed.

(** C6 (debug output), on debug uploads of the samples: the chunked path
    draws no progress bar, writes nothing to the standard output and logs
    one line per block, of another form than the one the flag documents;
    the single-shot path reports nothing at all. *)
Theorem debug_mode_output :
  fst (debug_run 150) = Ok tt
  /\ omap bar_of (w_trace (snd (debug_run 150))) = []
  /\ omap stdout_of (w_trace (snd (debug_run 150))) = []
  /\ omap log_of (w_trace (snd (debug_run 150)))
     = ["Chunk 1: 60/150 bytes"; "Chunk 2: 120/150 bytes"; "Chunk 3: 150/150 bytes"]
  /\ fst (debug_run 110) = Ok tt
  /\ map name_and_size (blocks_of (snd (debug_run 110)) 1%N) = [("1", 110)]
  /\ omap stdout_of (w_trace (snd (debug_run 110))) = []
  /\ omap log_of (w_trace (snd (debug_run 110))) = [].
Proof. repeat split; vm_compute; reflexivity. Qed.

(** The chunked path of the other version of the file prints, in debug
    mode, the line that the help text of the flag describes: the size of
    the file and the offset reached, once per block. *)
Lemma part000_debug_lines :
  fst part000_debug_run = Ok tt
  /\ omap stdout_of (w_trace (snd part000_debug_run))
     = ["150 60" +:+ Part000.newline; "150 120" +:+ Part000.newline;
        "150 150" +:+ Part000.newline]
  /\ omap bar_of (w_trace (snd part000_debug_run)) = [].
Proof. repeat split; vm_compute; reflexivity. Qed.

(** The single-shot path of that version names its block after the file
    and reports nothing in debug mode. *)
Lemma part000_single_block :
  fst part000_single_run = Ok tt
  /\ map name_and_size (blocks_of (snd part000_single_run) 1%N) = [("f.bin", 110)]
  /\ omap stdout_of (w_trace (snd part000_single_run)) = [].
Proof. repeat split; vm_compute; reflexivity. Qed.

(** * Further properties *)

(** ** The [rm] command *)

(** X1.  A run of [rm] that returns an error has changed nothing; after the
    argument check of the command it neither panics nor runs on. *)
Theorem rm_error_changes_nothing (env : Env) (delete_err : option string)
    (args : list string) (w : World) :
  rmCmd_Args args = None ->
  match rm env delete_err args w with
  | (Ok _, _) => True
  | (Err _, w') => w' = w
  | (Crash, _) | (Timeout, _) => False
  end.
Proof.
  intros Hargs. destruct args as [|filename rest]; [discriminate|].
  unfold rm, bind, GetDiscordSession, ParseFileMap, lift_err, lift_result, ret, fail.
  destruct (GetDiscordSession_err env); [reflexivity|].
  destruct (ParseFileMap_result env) as [fileMap|e]; [|reflexivity].
  destruct (fileMap !! filename) as [channel|]; [|reflexivity].
  unfold ChannelDelete. destruct delete_err; [reflexivity|exact I].
Qed.

Lemma rm_error_changes_nothing_witness :
  match rm rm_env (Some "403 Forbidden") ["f.bin"] rm_world with
  | (Ok _, _) => True
  | (Err _, w') => w' = rm_world
  | (Crash, _) | (Timeout, _) => False
  end.
Proof.
  apply (rm_error_changes_nothing rm_env (Some "403 Forbidden") ["f.bin"] rm_world).
  reflexivity.
Defined.

(** X2.  [rm] of a name that is not in the file map fails with the name in the
    error, whatever else is passed on the command line. *)
Theorem rm_not_found (env : Env) (delete_err : option string)
    (filename : string) (rest : list string) (w : World)
    (fileMap : gmap string Channel) :
  GetDiscordSession_err env = None ->
  ParseFileMap_result env = inl fileMap ->
  fileMap !! filename = None ->
  rm env delete_err (filename :: rest) w = (Err (filename +:+ " not found"), w).
Proof.
  intros Hsess Hfm Hnone.
  unfold rm, bind, GetDiscordSession, ParseFileMap, lift_err, lift_result, ret, fail.
  now rewrite Hsess, Hfm, Hnone.
Qed.

Lemma rm_not_found_witness :
  rm rm_env None ["h.bin"; "f.bin"] rm_world
  = (Err ("h.bin" +:+ " not found"), rm_world).
Proof.
  apply (rm_not_found rm_env None "h.bin" ["f.bin"] rm_world full_fileMap).
  - reflexivity.
  - reflexivity.
  - vm_compute. reflexivity.
Defined.

(** X3.  [rm] of a file whose channel Discord agrees to delete removes that
    channel with its messages and pins, and leaves every other channel,
    its messages and its pins as they were. *)
Theorem rm_deletes_one_channel (env : Env) (filename : string)
    (rest : list string) (w : World) (fileMap : gmap string Channel)
    (channel : Channel) :
  GetDiscordSession_err env = None ->
  ParseFileMap_result env = inl fileMap ->
  fileMap !! filename = Some channel ->
  exists w',
    rm env None (filename :: rest) w = (Ok tt, w')
    /\ w_channels w' !! ID channel = None
    /\ messages_of w' (ID channel) = []
    /\ (forall m, (ID channel, m) ∉ w_pinned w')
    /\ forall c, c <> ID channel ->
         w_channels w' !! c = w_channels w !! c
         /\ messages_of w' c = messages_of w c
         /\ forall m, (c, m) ∈ w_pinned w' <-> (c, m) ∈ w_pinned w.
Proof.
  intros Hsess Hfm Hsome.
  exists (without_channel (ID channel) w). split.
  { unfold rm, bind, GetDiscordSession, ParseFileMap, lift_err, lift_result, ret.
    now rewrite Hsess, Hfm, Hsome. }
  unfold messages_of, without_channel. cbn [w_channels w_messages w_pinned].
  split; [apply lookup_delete_eq|].
  split; [now rewrite lookup_delete_eq|].
  split.
  { intros m Hin. apply list_elem_of_filter in Hin. destruct Hin as [Hne _].
    now apply Hne. }
  intros c Hc. split; [now apply lookup_delete_ne|].
  split; [now rewrite lookup_delete_ne|].
  intros m. rewrite list_elem_of_filter. cbn [fst]. tauto.
Qed.

Lemma rm_deletes_one_channel_witness :
  exists w',
    rm rm_env None ["f.bin"] rm_world = (Ok tt, w')
    /\ w_channels w' !! ID complete_channel = None
    /\ messages_of w' (ID complete_channel) = []
    /\ (forall m, (ID complete_channel, m) ∉ w_pinned w')
    /\ forall c, c <> ID complete_channel ->
         w_channels w' !! c = w_channels rm_world !! c
         /\ messages_of w' c = messages_of rm_world c
         /\ forall m, (c, m) ∈ w_pinned w' <-> (c, m) ∈ w_pinned rm_world.
Proof.
  apply (rm_deletes_one_channel rm_env "f.bin" [] rm_world full_fileMap
           complete_channel).
  - reflexivity.
  - reflexivity.
  - vm_compute. reflexivity.
Defined.

(** ** What an upload path touches *)

Section PathFrame.

Variable env : Env.
Variables (ch : N) (debug resume : bool).

Lemma grows_same (w w' : World) :
  w_channels w' = w_channels w -> w_messages w' = w_messages w -> grows ch w w'.
Proof.
  intros Hc Hm. unfold grows, messages_of. rewrite Hm. repeat split; done.
Qed.

Lemma grows_refl (w : World) : grows ch w w.
Proof. now apply grows_same. Qed.

Lemma grows_trans (w1 w2 w3 : World) :
  grows ch w1 w2 -> grows ch w2 w3 -> grows ch w1 w3.
Proof.
  intros (Hc1 & Ho1 & Hp1) (Hc2 & Ho2 & Hp2). split; [congruence|].
  split.
  - intros c Hc. rewrite Ho2, Ho1 by exact Hc. reflexivity.
  - etransitivity; eassumption.
Qed.

Lemma extends_refl (w : World) : extends ch debug resume w w.
Proof.
  split; [apply grows_refl|]. exists []. now rewrite app_nil_r.
Qed.

Lemma extends_trans (w1 w2 w3 : World) :
  extends ch debug resume w1 w2 -> extends ch debug resume w2 w3 ->
  extends ch debug resume w1 w3.
Proof.
  intros (Hg1 & tr1 & Ht1 & Ha1) (Hg2 & tr2 & Ht2 & Ha2).
  split; [eapply grows_trans; eassumption|].
  exists (tr1 ++ tr2). split; [rewrite Ht2, Ht1; now rewrite app_assoc|].
  rewrite forallb_app, Ha1, Ha2. reflexivity.
Qed.

Lemma extends_event (e : event) (w : World) :
  path_event ch debug resume e = true ->
  extends ch debug resume w (with_trace e w).
Proof.
  intros He. split; [now apply grows_same|]. exists [e]. split; [reflexivity|].
  cbn [forallb]. now rewrite He.
Qed.

Lemma extends_offset (o : nat) (w : World) :
  extends ch debug resume w (with_offset o w).
Proof.
  split; [now apply grows_same|]. exists []. cbn [with_offset w_trace].
  now rewrite app_nil_r.
Qed.

Lemma grows_message (m : Message) (w : World) :
  grows ch w (with_message ch m w).
Proof.
  split; [reflexivity|]. split.
  - intros c Hc. unfold messages_of, with_message. cbn [w_messages].
    now rewrite lookup_insert_ne by congruence.
  - unfold messages_of at 2. unfold with_message. cbn [w_messages].
    rewrite lookup_insert_eq. cbn [default]. apply prefix_app_r. reflexivity.
Qed.

(** Resumption is the stricter discipline. *)
Lemma extends_resumed (w w' : World) :
  extends ch debug true w w' -> extends ch debug resume w w'.
Proof.
  intros (Hg & tr & Ht & Ha). split; [exact Hg|]. exists tr. split; [exact Ht|].
  rewrite forallb_forall in *. intros e He. specialize (Ha e He).
  destruct e; cbn in *; try assumption; discriminate.
Qed.

Lemma ChannelMessageSendComplex_extends (msg : MessageSend) (w : World) r w' :
  ChannelMessageSendComplex env ch msg w = (r, w') ->
  extends ch debug resume w w' /\ w_offset w' = w_offset w
  /\ match r with Ok _ | Err _ => True | _ => False end.
Proof.
  unfold ChannelMessageSendComplex. intros Hrun.
  destruct (send_err env (w_sends w)) as [e|]; inversion Hrun; subst; clear Hrun.
  - split; [|split; [reflexivity|exact I]].
    split; [now apply grows_same|]. eexists [_]. split; [reflexivity|].
    cbn. now rewrite N.eqb_refl.
  - split; [|split; [reflexivity|exact I]].
    split.
    + apply (grows_trans _ (with_send_counted w)); [now apply grows_same|].
      apply (grows_trans _ (with_message ch
               {| MsgID := w_next w;
                  Attachments := map (attachment_of) (Files msg) |}
               (with_send_counted w))); [apply grows_message|now apply grows_same].
    + eexists [_]. split; [reflexivity|]. cbn. now rewrite N.eqb_refl.
Qed.

Lemma sendMessageWithRetry_loop_extends (msg : MessageSend) (maxTries : Z)
    (todo : nat) :
  forall (i : Z) (e0 : option string) (w : World) r w',
    sendMessageWithRetry_loop env todo i ch msg maxTries e0 w = (r, w') ->
    extends ch debug resume w w' /\ w_offset w' = w_offset w
    /\ match r with Ok _ | Err _ => True | _ => False end.
Proof.
  induction todo as [|todo IH]; intros i e0 w r w' Hrun.
  - inversion Hrun; subst. split; [apply extends_refl|]. split; [reflexivity|exact I].
  - cbn [sendMessageWithRetry_loop] in Hrun.
    destruct (ChannelMessageSendComplex env ch msg w) as [r1 w1] eqn:Hsend.
    apply ChannelMessageSendComplex_extends in Hsend.
    destruct Hsend as (Hext & Hoff & Hr1).
    destruct r1 as [m|e| |]; try contradiction.
    + inversion Hrun; subst. split; [exact Hext|]. split; [exact Hoff|exact I].
    + unfold bind at 1 in Hrun.
      destruct (i <? maxTries - 1).
      * unfold bind, emit in Hrun. apply IH in Hrun.
        destruct Hrun as (Hext2 & Hoff2 & Hr).
        split; [|split; [now rewrite Hoff2|exact Hr]].
        eapply extends_trans; [exact Hext|].
        eapply extends_trans; [|exact Hext2].
        eapply extends_trans; apply extends_event; reflexivity.
      * unfold ret in Hrun. apply IH in Hrun.
        destruct Hrun as (Hext2 & Hoff2 & Hr).
        split; [|split; [now rewrite Hoff2|exact Hr]].
        eapply extends_trans; eassumption.
Qed.

Lemma sendMessageWithRetry_extends (msg : MessageSend) (maxTries : Z)
    (w : World) r w' :
  sendMessageWithRetry env ch msg maxTries w = (r, w') ->
  extends ch debug resume w w' /\ w_offset w' = w_offset w
  /\ match r with Ok _ | Err _ => True | _ => False end.
Proof. apply sendMessageWithRetry_loop_extends. Qed.

Lemma ChannelMessagePin_extends (msgID : N) (w : World) :
  resume = false ->
  exists w',
    ChannelMessagePin env ch msgID w = (Ok tt, w')
    /\ extends ch debug resume w w' /\ w_offset w' = w_offset w.
Proof.
  intros Hres.
  assert (Hpin : forall ok, path_event ch debug resume (EvPin ch msgID ok) = true)
    by (intros ok; cbn; now rewrite Hres, N.eqb_refl).
  unfold ChannelMessagePin. destruct (pin_ok env).
  - eexists. split; [reflexivity|]. split; [|reflexivity].
    split.
    + apply (grows_trans _ (with_pin ch msgID w)); [now apply grows_same|].
      apply (grows_trans _ (with_message ch {| MsgID := w_next w; Attachments := [] |}
                              (with_pin ch msgID w)));
        [apply grows_message|now apply grows_same].
    + eexists [_]. split; [reflexivity|]. cbn [forallb]. now rewrite Hpin.
  - eexists. split; [reflexivity|]. split; [|reflexivity].
    apply extends_event. apply Hpin.
Qed.

End PathFrame.

Section PathsExtend.

Variable env : Env.
Variables (channel : Channel) (filename : string) (size : Z) (debug : bool).

Lemma report_chunk_extends (resume : bool) (bar : option ProgressBar)
    (bn n : Z) (w : World) :
  exists w',
    report_chunk debug bar bn size n w = (Ok tt, w')
    /\ extends (ID channel) debug resume w w' /\ w_offset w' = w_offset w.
Proof.
  unfold report_chunk.
  destruct (negb debug && bool_decide (bar <> None)) eqn:Hbar.
  - eexists. split; [reflexivity|]. split; [|reflexivity].
    apply extends_event. cbn. now apply andb_true_iff in Hbar.
  - destruct debug eqn:Hd.
    + eexists. split; [reflexivity|]. split; [|reflexivity].
      apply extends_event. reflexivity.
    + eexists. split; [reflexivity|]. split; [apply extends_refl|reflexivity].
Qed.

(** The chunk loop keeps to the discipline, whatever its outcome, and
    never panics. *)
Lemma uploadChunkedFile_loop_extends (chunkSize : Z) (bar : option ProgressBar)
    (fuel : nat) :
  0 < chunkSize ->
  forall (first : bool) (bn : Z) (w : World) r w',
    uploadChunkedFile_loop env fuel channel size chunkSize debug bar first bn w
    = (r, w') ->
    extends (ID channel) debug (negb first) w w' /\ r <> Crash.
Proof.
  intros Hpos. induction fuel as [|fuel IH]; intros first bn w r w' Hrun.
  { inversion Hrun; subst. split; [apply extends_refl|discriminate]. }
  rewrite uploadChunkedFile_loop_step in Hrun by exact Hpos.
  cbn zeta in Hrun.
  destruct (read_err env (w_offset w)).
  { inversion Hrun; subst. split; [apply extends_refl|discriminate]. }
  destruct (next_chunk env chunkSize w) as [|b l] eqn:Hc.
  { inversion Hrun; subst. split; [apply extends_offset|discriminate]. }
  rewrite <- Hc in Hrun.
  set (w1 := with_offset (w_offset w + length (next_chunk env chunkSize w)) w) in *.
  destruct (report_chunk_extends (negb first) bar (wrap64 (bn + 1))
              (Z.of_nat (length (next_chunk env chunkSize w))) w1)
    as (w2 & Hrep & Hext2 & _).
  rewrite Hrep in Hrun. cbn [snd] in Hrun.
  assert (Hext1 : extends (ID channel) debug (negb first) w w2).
  { eapply extends_trans; [apply extends_offset|exact Hext2]. }
  destruct (sendMessageWithRetry env (ID channel) _ 10 w2) as [r3 w3] eqn:Hsend.
  apply (sendMessageWithRetry_extends env (ID channel) debug (negb first)) in Hsend.
  destruct Hsend as (Hext3 & _ & Hr3).
  assert (Hext13 : extends (ID channel) debug (negb first) w w3)
    by (eapply extends_trans; eassumption).
  destruct r3 as [m|e| |]; try contradiction.
  - assert (Hext4 : extends (ID channel) debug (negb first) w
                      (snd ((if first
                             then ChannelMessagePin env (ID channel) (MsgID m)
                             else ret tt) w3))).
    { destruct first.
      - destruct (ChannelMessagePin_extends env (ID channel) debug false (MsgID m) w3
                    eq_refl) as (w4 & Hpin & Hext4 & _).
        rewrite Hpin. cbn [snd]. eapply extends_trans; eassumption.
      - exact Hext13. }
    destruct (length (next_chunk env chunkSize w) <? Z.to_nat chunkSize)%nat.
    + inversion Hrun; subst. split; [exact Hext4|discriminate].
    + apply IH in Hrun. destruct Hrun as [Hext5 Hnc]. split; [|exact Hnc].
      eapply extends_trans; [exact Hext4|]. apply extends_resumed. exact Hext5.
  - inversion Hrun; subst. split; [exact Hext13|discriminate].
Qed.

Lemma uploadChunkedFile_extends (maxChunkSize : Z) (resume : bool)
    (startBlock : Z) (w : World) r w' :
  uploadChunkedFile env channel filename size maxChunkSize debug resume
    startBlock w = (r, w') ->
  extends (ID channel) debug resume w w' /\ r <> Crash.
Proof.
  intros Hrun.
  destruct (Z.le_gt_cases (wrap64 (maxChunkSize - 50)) 0) as [H|H].
  { rewrite uploadChunkedFile_too_small in Hrun by exact H.
    inversion Hrun; subst. split; [apply extends_refl|discriminate]. }
  revert Hrun. unfold uploadChunkedFile. cbv zeta.
  destruct (Z.leb_spec (wrap64 (maxChunkSize - 50)) 0) as [H'|_]; [lia|].
  unfold bind at 1.
  assert (Hbar : exists b w0,
             (if negb debug
              then run emit (EvBarNew {| bar_max := size;
                                         bar_description := "Uploading " +:+ filename |}) in
                   run emit (EvBarAdd (wrap64 (startBlock * wrap64 (maxChunkSize - 50)))) in
                   ret (Some {| bar_max := size;
                                bar_description := "Uploading " +:+ filename |})
              else ret None) w = (Ok b, w0)
             /\ extends (ID channel) debug resume w w0).
  { destruct debug eqn:Hd; cbn [negb]; cbv zeta.
    - exists None, w. split; [reflexivity|apply extends_refl].
    - eexists (Some _), _. split; [reflexivity|].
      eapply extends_trans; apply extends_event; reflexivity. }
  destruct Hbar as (b & w0 & -> & Hext0). intros Hrun.
  apply uploadChunkedFile_loop_extends in Hrun; [|lia].
  rewrite Bool.negb_involutive in Hrun. destruct Hrun as [Hext Hnc].
  split; [|exact Hnc]. eapply extends_trans; eassumption.
Qed.

Lemma uploadSingleFile_extends (resume : bool) (w : World) r w' :
  uploadSingleFile env channel filename size debug resume w = (r, w') ->
  extends (ID channel) debug resume w w' /\ r <> Crash /\ r <> Timeout.
Proof.
  unfold uploadSingleFile, io_ReadAll. intros Hrun.
  destruct (read_err env (w_offset w)).
  { inversion Hrun; subst. split; [apply extends_refl|split; discriminate]. }
  cbv beta iota zeta in Hrun. unfold bind at 1 in Hrun.
  set (w1 := with_offset _ w) in Hrun.
  assert (Hbar : exists b w2,
             (if negb debug
              then run emit (EvBarNew {| bar_max := size;
                                         bar_description := "Uploading " +:+ filename |}) in
                   ret (Some {| bar_max := size;
                                bar_description := "Uploading " +:+ filename |})
              else ret None) w1 = (Ok b, w2)
             /\ extends (ID channel) debug resume w w2).
  { destruct debug eqn:Hd; cbn [negb].
    - exists None, w1. split; [reflexivity|]. apply extends_offset.
    - eexists (Some _), _. split; [reflexivity|].
      eapply extends_trans; [apply extends_offset|].
      apply extends_event. reflexivity. }
  destruct Hbar as (b & w2 & Hbar & Hext2). rewrite Hbar in Hrun.
  unfold bind at 1 in Hrun.
  destruct (sendMessageWithRetry env (ID channel) _ 10 w2) as [r3 w3] eqn:Hsend.
  apply (sendMessageWithRetry_extends env (ID channel) debug resume) in Hsend.
  destruct Hsend as (Hext3 & _ & Hr3).
  assert (Hext13 : extends (ID channel) debug resume w w3)
    by (eapply extends_trans; eassumption).
  destruct r3 as [m|e| |]; try contradiction.
  2:{ inversion Hrun; subst. split; [exact Hext13|split; discriminate]. }
  unfold bind at 1 in Hrun.
  assert (Hpin : exists w4,
             (if negb resume then ChannelMessagePin env (ID channel) (MsgID m)
              else ret tt) w3 = (Ok tt, w4)
             /\ extends (ID channel) debug resume w w4).
  { destruct resume eqn:Hres; cbn [negb].
    - exists w3. split; [reflexivity|exact Hext13].
    - destruct (ChannelMessagePin_extends env (ID channel) debug false (MsgID m) w3
                  eq_refl) as (w4 & Hp & Hext4 & _).
      exists w4. split; [exact Hp|]. eapply extends_trans; eassumption. }
  destruct Hpin as (w4 & Hpin & Hext4). rewrite Hpin in Hrun.
  unfold bind at 1 in Hrun.
  destruct (negb debug && bool_decide (b <> None)) eqn:Hadd.
  - unfold emit, ret in Hrun. inversion Hrun; subst.
    split; [|split; discriminate].
    eapply extends_trans; [exact Hext4|]. apply extends_event. cbn.
    now apply andb_true_iff in Hadd.
  - unfold ret in Hrun. inversion Hrun; subst.
    split; [exact Hext4|split; discriminate].
Qed.

End PathsExtend.

(** ** The handler, once more *)

Ltac setup_exit Hrun tr :=
  left; exists tr; inversion Hrun; subst;
  cbn [with_trace with_offset w_trace w_messages w_channels];
  rewrite ?app_nil_r, <- ?app_assoc; repeat split; easy.

(** A fresh run fails in its set-up with the guild as it was, or runs an
    upload path in the channel it has created. *)
Lemma up_fresh_setup (env : Env) (args : list string) (w : World) r w' :
  upResume env = false ->
  up env args w = (r, w') ->
  (exists tr,
      w_trace w' = w_trace w ++ tr /\ forallb setup_event tr = true
      /\ w_messages w' = w_messages w /\ w_channels w' = w_channels w
      /\ (forall a, r <> Ok a) /\ r <> Timeout /\ (r = Crash -> args = []))
  \/ exists local rest mx enc w1,
       args = local :: rest
       /\ GetMaxFileSizeUpload_result env = inl mx
       /\ EncodeFilename env (match rest with
                              | [] => snd (filepath_Split local)
                              | r0 :: _ => r0
                              end) = inl enc
       /\ let size := Z.of_nat (length (file_data env)) in
          let topic := if edit_ok env then FormatInt size else "" in
          let channel := {| ID := w_next w; Name := enc; Topic := "" |} in
          w_trace w1
          = w_trace w ++ [EvOpen local None; EvChannelCreate enc (inl channel);
                          EvChannelEdit (w_next w) (FormatInt size) (edit_ok env)]
          /\ w_messages w1 = w_messages w
          /\ w_channels w1
             = <[w_next w := {| ID := w_next w; Name := enc; Topic := topic |}]>
                 (w_channels w)
          /\ w_offset w1 = 0%nat
          /\ (if size <=? mx
              then uploadSingleFile env channel (snd (filepath_Split local)) size
                     (upDebug env) false
              else uploadChunkedFile env channel (snd (filepath_Split local)) size
                     mx (upDebug env) false 0) w1
             = (r, w').
Proof.
  intros Hfresh Hrun. unfold up in Hrun. rewrite Hfresh in Hrun.
  cbn [negb andb] in Hrun.
  unfold bind at 1 in Hrun. unfold GetDiscordSession, lift_err in Hrun.
  destruct (GetDiscordSession_err env); [setup_exit Hrun (@nil event)|].
  unfold ret at 1 in Hrun. unfold bind at 1 in Hrun.
  unfold ParseFileMap, lift_result in Hrun.
  destruct (ParseFileMap_result env) as [fileMap|e]; [|setup_exit Hrun (@nil event)].
  unfold ret at 1 in Hrun.
  destruct (Z.of_nat (size fileMap) >=? MaxDiscordChannels env);
    [setup_exit Hrun (@nil event)|].
  destruct args as [|local rest]; [setup_exit Hrun (@nil event)|].
  unfold bind at 1 in Hrun. unfold os_Open in Hrun.
  destruct (Open_err env) as [e|]; [setup_exit Hrun [EvOpen local (Some e)]|].
  rewrite !andb_true_r, andb_false_r in Hrun.
  destruct (bool_decide _); [setup_exit Hrun [EvOpen local None]|].
  unfold bind at 1 in Hrun. unfold Stat_Size in Hrun.
  destruct (Stat_err env); [setup_exit Hrun [EvOpen local None]|].
  unfold ret at 1 in Hrun. unfold bind at 1 in Hrun.
  unfold GetMaxFileSizeUpload, lift_result in Hrun.
  destruct (GetMaxFileSizeUpload_result env) as [mx|e] eqn:Hmx;
    [|setup_exit Hrun [EvOpen local None]].
  unfold ret at 1 in Hrun. unfold bind at 1 in Hrun.
  unfold up_create in Hrun. unfold bind at 1 in Hrun. unfold lift_result in Hrun.
  destruct (EncodeFilename env _) as [enc|e] eqn:Henc;
    [|setup_exit Hrun [EvOpen local None]].
  unfold ret at 1 in Hrun. unfold GuildChannelCreate in Hrun.
  cbn [with_trace with_offset w_next w_channels w_messages w_trace w_offset
       w_pinned w_sends] in Hrun.
  destruct (create_err env) as [e|].
  { setup_exit Hrun [EvOpen local None; EvChannelCreate enc (inr e)]. }
  unfold bind at 1 in Hrun. unfold ChannelEdit in Hrun.
  cbn [with_trace with_offset with_next with_channel w_next w_channels w_messages
       w_trace w_offset w_pinned w_sends ID] in Hrun.
  rewrite lookup_insert_eq in Hrun.
  right. exists local, rest, mx, enc.
  destruct (edit_ok env); unfold ret at 1 in Hrun; cbn [fst snd] in Hrun;
    eexists; (split; [reflexivity|]); (split; [reflexivity|]);
    (split; [exact Henc|]); cbn zeta;
    (split; [|split; [|split; [|split; [|exact Hrun]]]]);
    cbn [with_trace with_offset with_next with_channel w_next w_channels w_messages
         w_trace w_offset w_pinned w_sends ID Name];
    rewrite <- ?app_assoc, ?insert_insert_eq; reflexivity.
Qed.

(** With the file in the file map, the resume inspection does not panic,
    and the channel it returns is that of the file. *)
Lemma up_resume_channel (env : Env) (fileMap : gmap string Channel)
    (remote : string) (size : Z) (sizeStr : string) (mx : Z) (w : World)
    (c : Channel) r w' :
  fileMap !! remote = Some c ->
  up_resume env fileMap remote size sizeStr mx w = (r, w') ->
  match r with
  | Ok (c', _, _) => c' = c
  | Err _ => True
  | _ => False
  end.
Proof.
  intros Hl Hrun. unfold up_resume in Hrun. rewrite Hl in Hrun.
  destruct (negb (Topic c =? sizeStr)%string); [now inversion Hrun|].
  unfold bind at 1 in Hrun. unfold ChannelMessages at 1 in Hrun.
  destruct (list_err env "0"); [now inversion Hrun|].
  cbn [String.eqb Ascii.eqb Bool.eqb] in Hrun. cbv beta iota in Hrun.
  destruct (take 1 (messages_of w (ID c))) as [|m0 ?]; [now inversion Hrun|].
  destruct (Attachments m0) as [|a0 ?]; [now inversion Hrun|].
  destruct (Size a0 >? mx); [now inversion Hrun|].
  unfold bind at 1 in Hrun. unfold ChannelMessages at 1 in Hrun.
  destruct (list_err env ""); [now inversion Hrun|].
  cbn [String.eqb] in Hrun. cbv beta iota in Hrun.
  unfold bind at 1 in Hrun. unfold lift_result in Hrun.
  destruct (inferBlockNumber _ (Size a0) 0) as [bn|e]; [|now inversion Hrun].
  unfold ret at 1 in Hrun.
  destruct (wrap64 (bn * Size a0) =? size); now inversion Hrun.
Qed.

(** A resumed run fails before it uploads, with the guild as it was, or
    runs an upload path in the channel of the file. *)
Lemma up_resume_setup (env : Env) (args : list string) (w : World) r w' :
  upResume env = true ->
  up env args w = (r, w') ->
  (exists tr,
      w_trace w' = w_trace w ++ tr /\ forallb setup_event tr = true
      /\ w_messages w' = w_messages w /\ w_channels w' = w_channels w
      /\ (forall a, r <> Ok a) /\ r <> Timeout /\ (r = Crash -> args = [])
      /\ filter is_write tr = [])
  \/ exists local rest fileMap channel cand bn,
       args = local :: rest
       /\ ParseFileMap_result env = inl fileMap
       /\ fileMap !! (match rest with
                      | [] => snd (filepath_Split local)
                      | r0 :: _ => r0
                      end) = Some channel
       /\ let size := Z.of_nat (length (file_data env)) in
          let w1 := with_trace (EvOpen local None) (with_offset 0 w) in
          (if size <=? cand
           then uploadSingleFile env channel (snd (filepath_Split local)) size
                  (upDebug env) true
           else uploadChunkedFile env channel (snd (filepath_Split local)) size
                  cand (upDebug env) true bn) w1
          = (r, w').
Proof.
  intros Hres Hrun. unfold up in Hrun. rewrite Hres in Hrun.
  cbn [negb andb] in Hrun.
  unfold bind at 1 in Hrun. unfold GetDiscordSession, lift_err in Hrun.
  destruct (GetDiscordSession_err env); [setup_exit Hrun (@nil event)|].
  unfold ret at 1 in Hrun. unfold bind at 1 in Hrun.
  unfold ParseFileMap, lift_result in Hrun.
  destruct (ParseFileMap_result env) as [fileMap|e] eqn:Hfm;
    [|setup_exit Hrun (@nil event)].
  unfold ret at 1 in Hrun.
  destruct args as [|local rest]; [setup_exit Hrun (@nil event)|].
  unfold bind at 1 in Hrun. unfold os_Open in Hrun.
  destruct (Open_err env) as [e|]; [setup_exit Hrun [EvOpen local (Some e)]|].
  rewrite !andb_false_r, !andb_true_r in Hrun.
  set (remote := match rest with
                 | [] => snd (filepath_Split local)
                 | r0 :: _ => r0
                 end) in *.
  destruct (fileMap !! remote) as [c|] eqn:Hl.
  2:{ rewrite bool_decide_eq_false_2 in Hrun by (intros [? ?]; discriminate).
      setup_exit Hrun [EvOpen local None]. }
  rewrite bool_decide_eq_true_2 in Hrun by eauto. cbn [negb] in Hrun.
  unfold bind at 1 in Hrun. unfold Stat_Size in Hrun.
  destruct (Stat_err env); [setup_exit Hrun [EvOpen local None]|].
  unfold ret at 1 in Hrun. unfold bind at 1 in Hrun.
  unfold GetMaxFileSizeUpload, lift_result in Hrun.
  destruct (GetMaxFileSizeUpload_result env) as [mx|e];
    [|setup_exit Hrun [EvOpen local None]].
  unfold ret at 1 in Hrun. unfold bind at 1 in Hrun.
  destruct (up_resume env fileMap remote _ _ mx _) as [r1 w1] eqn:Hinspect.
  pose proof (up_resume_channel _ _ _ _ _ _ _ c _ _ Hl Hinspect) as Hc.
  destruct (up_resume_frame _ _ _ _ _ _ _ _ _ Hinspect) as [-> Hnt].
  destruct r1 as [[[channel cand] bn]|e| |]; try contradiction;
    [|setup_exit Hrun [EvOpen local None]].
  subst channel. right. exists local, rest, fileMap, c, cand, bn.
  split; [reflexivity|]. split; [reflexivity|]. split; [exact Hl|exact Hrun].
Qed.

Section EventClasses.

Variable P : event -> bool.

Lemma forallb_weaken (Q : event -> bool) (tr : list event) :
  (forall e, P e = true -> Q e = true) ->
  forallb P tr = true -> forallb Q tr = true.
Proof.
  intros HPQ. rewrite !forallb_forall. intros H e He. now apply HPQ, H.
Qed.

Lemma forallb_filter_ext (f g : event -> bool) (tr : list event) :
  (forall e, P e = true -> f e = g e) ->
  forallb P tr = true -> filter f tr = filter g tr.
Proof.
  intros Hfg. induction tr as [|e tr IH]; intros H; [reflexivity|].
  cbn [forallb] in H. apply andb_true_iff in H. destruct H as [He H].
  rewrite !filter_cons, (Hfg e He), (IH H). reflexivity.
Qed.

Lemma forallb_filter_nil (f : event -> bool) (tr : list event) :
  (forall e, P e = true -> f e = false) ->
  forallb P tr = true -> filter f tr = [].
Proof.
  intros Hf H. rewrite (forallb_filter_ext f (fun _ => false) tr Hf H).
  clear. induction tr as [|e tr IH]; [reflexivity|].
  rewrite filter_cons. exact IH.
Qed.

Lemma forallb_omap_nil {A} (g : event -> option A) (tr : list event) :
  (forall e, P e = true -> g e = None) ->
  forallb P tr = true -> omap g tr = [].
Proof.
  intros Hg. induction tr as [|e tr IH]; intros H; [reflexivity|].
  cbn [forallb] in H. apply andb_true_iff in H. destruct H as [He H].
  cbn. now rewrite (Hg e He), (IH H).
Qed.

End EventClasses.

Lemma path_events_facts (ch : N) (debug resume : bool) (tr : list event) :
  forallb (path_event ch debug resume) tr = true ->
  forallb (targets ch) tr = true
  /\ filter is_channel_change tr = []
  /\ filter is_open tr = []
  /\ (resume = true -> filter is_write tr = filter is_send tr)
  /\ (debug = true -> omap bar_of tr = [])
  /\ (debug = false -> omap log_of tr = []).
Proof.
  intros H. split.
  { revert H. apply forallb_weaken. intros [] He; cbn in *; try reflexivity;
      try assumption; try discriminate.
    now apply andb_true_iff in He. }
  split.
  { revert H. apply forallb_filter_nil. intros [] He; cbn in *;
      try reflexivity; discriminate. }
  split.
  { revert H. apply forallb_filter_nil. intros [] He; cbn in *;
      try reflexivity; discriminate. }
  split.
  { intros ->. revert H. apply forallb_filter_ext. intros [] He; cbn in *;
      try reflexivity; discriminate. }
  split.
  { intros ->. revert H. apply forallb_omap_nil. intros [] He; cbn in *;
      try reflexivity; discriminate. }
  intros ->. revert H. apply forallb_omap_nil. intros [] He; cbn in *;
    try reflexivity; discriminate.
Qed.

Lemma setup_events_facts (tr : list event) :
  forallb setup_event tr = true ->
  forall ch, forallb (targets ch) tr = true
             /\ omap bar_of tr = [] /\ omap log_of tr = [].
Proof.
  induction tr as [|e tr IH]; intros H ch; [repeat split|].
  cbn [forallb] in H. apply andb_true_iff in H. destruct H as [He H].
  destruct (IH H ch) as (Ht & Hb & Hl).
  destruct e; try discriminate; cbn; repeat split; assumption.
Qed.

(** Both upload paths, from the world in which the handler starts them. *)
Lemma up_path_extends (env : Env) (channel : Channel) (base : string)
    (size mx : Z) (resume : bool) (bn : Z) (w1 : World) r w' :
  (if size <=? mx
   then uploadSingleFile env channel base size (upDebug env) resume
   else uploadChunkedFile env channel base size mx (upDebug env) resume bn) w1
  = (r, w') ->
  extends (ID channel) (upDebug env) resume w1 w'
  /\ r <> Crash /\ r <> Timeout.
Proof.
  destruct (size <=? mx); intros Hrun.
  - now apply uploadSingleFile_extends in Hrun.
  - pose proof (uploadChunkedFile_terminates env channel base size mx
                  (upDebug env) resume bn w1) as Hnt.
    rewrite Hrun in Hnt. apply uploadChunkedFile_extends in Hrun.
    destruct Hrun as [Hext Hnc]. split; [exact Hext|split; [exact Hnc|exact Hnt]].
Qed.



(** X5.  Every run of [up] only adds messages, and only to one channel: the
    other channels hold the messages of before, the one channel holds its
    messages of before followed by new ones, and every request to send or
    to pin is addressed to it. *)
Theorem up_appends_to_one_channel (env : Env) (args : list string) (w : World) :
  let w' := snd (up env args w) in
  exists ch,
    (forall c, c <> ch -> messages_of w' c = messages_of w c)
    /\ messages_of w ch `prefix_of` messages_of w' ch
    /\ forallb (targets ch) (new_events w w') = true.
Proof.
  cbn zeta. destruct (up env args w) as [r w'] eqn:Hrun. cbn [snd].
  assert (Hsame : forall tr,
            w_trace w' = w_trace w ++ tr -> forallb setup_event tr = true ->
            w_messages w' = w_messages w ->
            exists ch,
              (forall c, c <> ch -> messages_of w' c = messages_of w c)
              /\ messages_of w ch `prefix_of` messages_of w' ch
              /\ forallb (targets ch) (new_events w w') = true).
  { intros tr Htr Hsetup Hmsgs. exists 0%N. unfold messages_of. rewrite Hmsgs.
    split; [reflexivity|]. split; [reflexivity|].
    rewrite (new_events_app w w' tr Htr). now apply setup_events_facts. }
  destruct (upResume env) eqn:Hres.
  - destruct (up_resume_setup env args w r w' Hres Hrun)
      as [(tr & Htr & Hsetup & Hmsgs & _)
         |(local & rest & fm & c & cand & bn & _ & _ & _ & Hpath)];
      [now apply (Hsame tr)|].
    apply up_path_extends in Hpath.
    destruct Hpath as (((_ & Hother & Hpre) & tr & Htr & Hall) & _).
    exists (ID c). split; [exact Hother|]. split; [exact Hpre|].
    cbn [with_trace with_offset w_trace] in Htr.
    rewrite (new_events_app w w' ([EvOpen local None] ++ tr))
      by (rewrite Htr; now rewrite <- app_assoc).
    apply path_events_facts in Hall. now destruct Hall as (Ht & _).
  - destruct (up_fresh_setup env args w r w' Hres Hrun)
      as [(tr & Htr & Hsetup & Hmsgs & _)
         |(local & rest & mx & enc & w1 & _ & _ & _ & Htr1 & Hmsgs1 & _ & _ & Hpath)];
      [now apply (Hsame tr)|].
    apply up_path_extends in Hpath. cbn [ID] in Hpath.
    destruct Hpath as (((_ & Hother & Hpre) & tr & Htr & Hall) & _).
    unfold messages_of in *. rewrite Hmsgs1 in Hother, Hpre.
    exists (w_next w). split; [exact Hother|]. split; [exact Hpre|].
    rewrite (new_events_app w w' (_ ++ tr))
      by (rewrite Htr, Htr1; now rewrite <- app_assoc).
    apply path_events_facts in Hall. now destruct Hall as (Ht & _).
Qed.

(** X6.  A resumed run never creates or edits a channel and never pins: the
    channels stay as they are, and every request of the run that writes
    to Discord is a send. *)
Theorem resume_only_sends (env : Env) (args : list string) (w : World) :
  upResume env = true ->
  let w' := snd (up env args w) in
  w_channels w' = w_channels w
  /\ filter is_channel_change (new_events w w') = []
  /\ filter is_write (new_events w w') = filter is_send (new_events w w').
Proof.
  intros Hres. cbn zeta. destruct (up env args w) as [r w'] eqn:Hrun. cbn [snd].
  destruct (up_resume_setup env args w r w' Hres Hrun)
    as [(tr & Htr & Hsetup & _ & Hch & _ & _ & _ & Hw)
       |(local & rest & fm & c & cand & bn & _ & _ & _ & Hpath)].
  - rewrite (new_events_app w w' tr Htr). split; [exact Hch|].
    rewrite Hw. apply setup_events_quiet in Hsetup.
    destruct Hsetup as (_ & _ & _ & Hs). rewrite Hs. split; [|reflexivity].
    clear -Hw. induction tr as [|e tr IH]; [reflexivity|].
    destruct e; cbn in *; try discriminate; now apply IH.
  - apply up_path_extends in Hpath.
    destruct Hpath as (((Hch & _) & tr & Htr & Hall) & _).
    split; [exact Hch|].
    cbn [with_trace with_offset w_trace] in Htr.
    rewrite (new_events_app w w' ([EvOpen local None] ++ tr))
      by (rewrite Htr; now rewrite <- app_assoc).
    apply path_events_facts in Hall.
    destruct Hall as (_ & Hc & _ & Hw & _). cbn. split; [exact Hc|]. now apply Hw.
Qed.

Lemma resume_only_sends_witness :
  let w' := snd (up resumed_env ["dir/f.bin"] (snd interrupted_run)) in
  w_channels w' = w_channels (snd interrupted_run)
  /\ filter is_channel_change (new_events (snd interrupted_run) w') = []
  /\ filter is_write (new_events (snd interrupted_run) w')
     = filter is_send (new_events (snd interrupted_run) w').
Proof.
  apply (resume_only_sends resumed_env ["dir/f.bin"] (snd interrupted_run)).
  reflexivity.
Defined.

(** X7.  In debug mode no run draws a progress bar; outside it no run logs a
    chunk line. *)
Theorem debug_replaces_progress_bar (env : Env) (args : list string) (w : World) :
  let tr := new_events w (snd (up env args w)) in
  if upDebug env then omap bar_of tr = [] else omap log_of tr = [].
Proof.
  cbn zeta. destruct (up env args w) as [r w'] eqn:Hrun. cbn [snd].
  assert (Hgoal : forall tr0 tr w1 resume ch,
            forallb setup_event tr0 = true ->
            w_trace w1 = w_trace w ++ tr0 ->
            w_trace w' = w_trace w1 ++ tr ->
            forallb (path_event ch (upDebug env) resume) tr = true ->
            if upDebug env then omap bar_of (new_events w w') = []
            else omap log_of (new_events w w') = []).
  { intros tr0 tr w1 resume ch Hsetup Htr0 Htr Hall.
    rewrite (new_events_app w w' (tr0 ++ tr))
      by (rewrite Htr, Htr0; now rewrite <- app_assoc).
    apply path_events_facts in Hall. destruct Hall as (_ & _ & _ & _ & Hb & Hl).
    destruct (setup_events_facts tr0 Hsetup 0%N) as (_ & Hb0 & Hl0).
    rewrite !omap_app, Hb0, Hl0.
    destruct (upDebug env); [now apply Hb|now apply Hl]. }
  destruct (upResume env) eqn:Hres.
  - destruct (up_resume_setup env args w r w' Hres Hrun)
      as [(tr & Htr & Hsetup & _)
         |(local & rest & fm & c & cand & bn & _ & _ & _ & Hpath)].
    + apply (Hgoal tr [] w' true 0%N); try assumption; try reflexivity.
      now rewrite app_nil_r.
    + apply up_path_extends in Hpath. destruct Hpath as ((_ & tr & Htr & Hall) & _).
      apply (Hgoal [EvOpen local None] tr
               (with_trace (EvOpen local None) (with_offset 0 w)) true (ID c));
        try assumption; reflexivity.
  - destruct (up_fresh_setup env args w r w' Hres Hrun)
      as [(tr & Htr & Hsetup & _)
         |(local & rest & mx & enc & w1 & _ & _ & _ & Htr1 & _ & _ & _ & Hpath)].
    + apply (Hgoal tr [] w' true 0%N); try assumption; try reflexivity.
      now rewrite app_nil_r.
    + apply up_path_extends in Hpath. destruct Hpath as ((_ & tr & Htr & Hall) & _).
      eapply (Hgoal _ tr w1 false); try eassumption. reflexivity.
Qed.

(** ** Names that are taken, names that are not there *)

(** X8.  A fresh upload under a remote name that the file map already has
    (lines 131-132 of up.go) fails with the name followed by already
    exists on Discord; it has opened the local file and nothing else: no
    channel is made, nothing is sent. *)
Theorem up_existing_remote_rejected (env : Env) (local : string)
    (rest : list string) (fileMap : gmap string Channel) (c : Channel) (w : World) :
  upResume env = false ->
  GetDiscordSession_err env = None ->
  ParseFileMap_result env = inl fileMap ->
  Z.of_nat (size fileMap) < MaxDiscordChannels env ->
  Open_err env = None ->
  fileMap !! remote_name local rest = Some c ->
  up env (local :: rest) w
  = (Err (remote_name local rest +:+ " already exists on Discord"), opened local w).
Proof.
  intros Hres Hsess Hfm Hlimit Hopen Hlookup.
  unfold remote_name in *. unfold up. rewrite Hres. cbn [negb andb].
  unfold bind at 1. unfold GetDiscordSession, lift_err. rewrite Hsess.
  unfold ret at 1. unfold bind at 1. unfold ParseFileMap, lift_result.
  rewrite Hfm. unfold ret at 1.
  destruct (Z.geb_spec (Z.of_nat (size fileMap)) (MaxDiscordChannels env))
    as [Hge|_]; [lia|].
  unfold bind at 1. unfold os_Open. rewrite Hopen.
  rewrite bool_decide_eq_true_2 by eauto. reflexivity.
Qed.

Lemma up_existing_remote_rejected_witness :
  up taken_env ["dir/f.bin"] complete_world
  = (Err ("f.bin" +:+ " already exists on Discord"), opened "dir/f.bin" complete_world).
Proof.
  apply (up_existing_remote_rejected taken_env "dir/f.bin" []
           {[ "f.bin" := complete_channel ]} complete_channel complete_world);
    [reflexivity | reflexivity | reflexivity | vm_compute; reflexivity
    | reflexivity | vm_compute; reflexivity].
Defined.

(** X9.  A resume under a remote name that the file map does not have (lines
    133-135 of up.go) fails with the name followed by does not exist on
    Discord; it has opened the local file and nothing else. *)
Theorem resume_missing_remote_rejected (env : Env) (local : string)
    (rest : list string) (fileMap : gmap string Channel) (w : World) :
  upResume env = true ->
  GetDiscordSession_err env = None ->
  ParseFileMap_result env = inl fileMap ->
  Open_err env = None ->
  fileMap !! remote_name local rest = None ->
  up env (local :: rest) w
  = (Err (remote_name local rest +:+ " does not exist on Discord"), opened local w).
Proof.
  intros Hres Hsess Hfm Hopen Hlookup.
  unfold remote_name in *. unfold up. rewrite Hres. cbn [negb andb].
  unfold bind at 1. unfold GetDiscordSession, lift_err. rewrite Hsess.
  unfold ret at 1. unfold bind at 1. unfold ParseFileMap, lift_result.
  rewrite Hfm. unfold ret at 1.
  unfold bind at 1. unfold os_Open. rewrite Hopen.
  rewrite bool_decide_eq_false_2; [reflexivity|].
  rewrite Hlookup. now intros [? ?].
Qed.

Lemma resume_missing_remote_rejected_witness :
  up absent_env ["dir/f.bin"; "g.bin"] complete_world
  = (Err ("g.bin" +:+ " does not exist on Discord"), opened "dir/f.bin" complete_world).
Proof.
  apply (resume_missing_remote_rejected absent_env "dir/f.bin" ["g.bin"]
           {[ "f.bin" := complete_channel ]} complete_world);
    [reflexivity | reflexivity | reflexivity | reflexivity | vm_compute; reflexivity].
Defined.

(** ** The errors of the resume inspection *)

(** The loop over the two newest messages decides on the first attachment
    it meets. *)
Lemma inferBlockNumber_newest (msgs : list Message) (size bn : Z) :
  inferBlockNumber msgs size bn
  = match head (concat (map (fun m => take 1 (Attachments m)) msgs)) with
    | None => inl bn
    | Some a =>
        if negb (Size a =? size)
        then inr "complete upload inferred from incomplete last block"
        else Atoi (Filename a)
    end.
Proof.
  induction msgs as [|m msgs IH]; [reflexivity|].
  cbn [inferBlockNumber map concat].
  destruct (Attachments m) as [|a l]; [exact IH|reflexivity].
Qed.

(** How a resumed run goes on after its set-up. *)
Lemma up_inspects (env : Env) (local : string) (rest : list string)
    (channel : Channel) (mx : Z) (w : World) :
  resume_ready env local rest channel mx ->
  let size := Z.of_nat (length (file_data env)) in
  let w1 := opened local w in
  up env (local :: rest) w
  = if negb (bool_decide (list_err env "0" = None)) then
      (Err (default "" (list_err env "0")), w1)
    else
      match oldest_attachment w (ID channel) with
      | None => (Err "cannot infer block size", w1)
      | Some a0 =>
          if Size a0 >? mx then
            (Err ("inferred block size " +:+ Itoa (Size a0)
                    +:+ " is larger than the largest permitted block size "
                    +:+ Itoa mx), w1)
          else if negb (bool_decide (list_err env "" = None)) then
            (Err (default "" (list_err env "")), w1)
          else
            match inferBlockNumber (take 2 (reverse (messages_of w (ID channel))))
                    (Size a0) 0 with
            | inr e => (Err e, w1)
            | inl bn =>
                if wrap64 (bn * Size a0) =? size
                then (Err "upload is already complete", w1)
                else if size <=? Size a0
                then uploadSingleFile env channel (snd (filepath_Split local)) size
                       (upDebug env) true w1
                else uploadChunkedFile env channel (snd (filepath_Split local))
                       size (Size a0) (upDebug env) true bn w1
            end
      end.
Proof.
  intros (Hres & Hsess & (fileMap & Hfm & Hlookup) & Hopen & Hstat & Hmx & Htopic).
  unfold remote_name in Hlookup. cbn zeta. unfold up. rewrite Hres. cbn [negb andb].
  unfold bind at 1. unfold GetDiscordSession, lift_err. rewrite Hsess.
  unfold ret at 1. unfold bind at 1. unfold ParseFileMap, lift_result.
  rewrite Hfm. unfold ret at 1.
  unfold bind at 1. unfold os_Open. rewrite Hopen.
  rewrite Hlookup. rewrite !andb_false_r, !andb_true_r.
  rewrite bool_decide_eq_true_2 by eauto. cbn [negb].
  unfold bind at 1. unfold Stat_Size. rewrite Hstat.
  unfold ret at 1. unfold bind at 1. unfold GetMaxFileSizeUpload, lift_result.
  rewrite Hmx.
  unfold ret at 1. unfold bind at 1. unfold up_resume. rewrite Hlookup.
  rewrite Htopic, String.eqb_refl. cbn [negb].
  unfold bind at 1. unfold ChannelMessages at 1.
  fold (opened local w).
  destruct (list_err env "0") as [e0|].
  { rewrite bool_decide_eq_false_2 by discriminate. reflexivity. }
  rewrite bool_decide_eq_true_2 by reflexivity. cbn [negb].
  cbn [String.eqb Ascii.eqb Bool.eqb]. cbv beta iota.
  change (messages_of (opened local w) (ID channel))
    with (messages_of w (ID channel)).
  unfold oldest_attachment.
  destruct (messages_of w (ID channel)) as [|m0 older] eqn:Hmsgs; [reflexivity|].
  cbn [take]. destruct (Attachments m0) as [|a0 others]; [reflexivity|].
  cbn [head]. destruct (Size a0 >? mx); [reflexivity|].
  unfold bind at 1. unfold ChannelMessages at 1.
  destruct (list_err env "") as [e1|].
  { rewrite bool_decide_eq_false_2 by discriminate. reflexivity. }
  rewrite bool_decide_eq_true_2 by reflexivity. cbn [negb].
  cbn [String.eqb]. cbv beta iota.
  change (messages_of (opened local w) (ID channel))
    with (messages_of w (ID channel)).
  rewrite Hmsgs. unfold bind at 1. unfold lift_result.
  destruct (inferBlockNumber _ (Size a0) 0) as [bn|e]; [|reflexivity].
  unfold ret at 1.
  destruct (wrap64 (bn * Size a0) =? _); [reflexivity|].
  unfold ret at 1. cbv beta iota. cbn [fst snd].
  destruct (_ <=? Size a0); reflexivity.
Qed.

Ltac sample_ready :=
  repeat split; try reflexivity; eexists; split; vm_compute; reflexivity.

(** X10.  Resume of a remote file whose channel has no message, or whose oldest
    message has no attachment (lines 161-168 of up.go): the run fails with
    cannot infer block size and has only opened the local file. *)
Theorem resume_without_first_block (env : Env) (local : string)
    (rest : list string) (channel : Channel) (mx : Z) (w : World) :
  resume_ready env local rest channel mx ->
  list_err env "0" = None ->
  oldest_attachment w (ID channel) = None ->
  up env (local :: rest) w = (Err "cannot infer block size", opened local w).
Proof.
  intros Hready Hlist Hold.
  rewrite (up_inspects env local rest channel mx w Hready).
  rewrite Hlist, Hold. reflexivity.
Qed.

Lemma resume_without_first_block_witness :
  up complete_env ["dir/f.bin"] empty_world
  = (Err "cannot infer block size", opened "dir/f.bin" empty_world).
Proof.
  apply (resume_without_first_block complete_env "dir/f.bin" [] complete_channel 110);
    [sample_ready | reflexivity | reflexivity].
Defined.

(** X11.  Resume of a remote file whose first block is larger than the largest
    attachment now permitted (lines 170-176 of up.go): the run fails and
    names both sizes; it has only opened the local file. *)
Theorem resume_block_size_over_limit (env : Env) (local : string)
    (rest : list string) (channel : Channel) (mx : Z) (w : World)
    (a0 : MessageAttachment) :
  resume_ready env local rest channel mx ->
  list_err env "0" = None ->
  oldest_attachment w (ID channel) = Some a0 ->
  mx < Size a0 ->
  up env (local :: rest) w
  = (Err ("inferred block size " +:+ Itoa (Size a0)
            +:+ " is larger than the largest permitted block size " +:+ Itoa mx),
     opened local w).
Proof.
  intros Hready Hlist Hold Hsize.
  rewrite (up_inspects env local rest channel mx w Hready).
  rewrite Hlist, Hold. cbn [negb bool_decide].
  rewrite bool_decide_eq_true_2 by reflexivity. cbn [negb].
  destruct (Z.gtb_spec (Size a0) mx) as [_|Hle]; [reflexivity|lia].
Qed.

Lemma resume_block_size_over_limit_witness :
  up small_limit_env ["dir/f.bin"] complete_world
  = (Err ("inferred block size " +:+ Itoa 60
            +:+ " is larger than the largest permitted block size " +:+ Itoa 50),
     opened "dir/f.bin" complete_world).
Proof.
  apply (resume_block_size_over_limit small_limit_env "dir/f.bin" [] complete_channel
           50 complete_world (complete_block "1" 0));
    [sample_ready | reflexivity | reflexivity | simpl; lia].
Defined.

(** X12.  Resume of a remote file whose newest block has another size than its
    first block (lines 185-191 of up.go): the run fails with complete
    upload inferred from incomplete last block, whatever the name of the
    block and the size of the local file, and has only opened the local
    file. *)
Theorem resume_incomplete_last_block (env : Env) (local : string)
    (rest : list string) (channel : Channel) (mx : Z) (w : World)
    (a0 a : MessageAttachment) :
  resume_ready env local rest channel mx ->
  list_err env "0" = None ->
  list_err env "" = None ->
  oldest_attachment w (ID channel) = Some a0 ->
  Size a0 <= mx ->
  newest_attachment w (ID channel) = Some a ->
  Size a <> Size a0 ->
  up env (local :: rest) w
  = (Err "complete upload inferred from incomplete last block", opened local w).
Proof.
  intros Hready Hlist0 Hlist Hold Hsize Hnew Hdiff.
  rewrite (up_inspects env local rest channel mx w Hready).
  rewrite Hlist0, Hlist, Hold. rewrite bool_decide_eq_true_2 by reflexivity.
  cbn [negb].
  destruct (Z.gtb_spec (Size a0) mx) as [Hgt|_]; [lia|].
  rewrite inferBlockNumber_newest. fold (newest_attachment w (ID channel)).
  rewrite Hnew. destruct (Z.eqb_spec (Size a) (Size a0)) as [Heq|_]; [easy|].
  reflexivity.
Qed.

Lemma resume_incomplete_last_block_witness :
  up finished_env ["dir/f.bin"] (snd fresh_run)
  = (Err "complete upload inferred from incomplete last block",
     opened "dir/f.bin" (snd fresh_run)).
Proof.
  apply (resume_incomplete_last_block finished_env "dir/f.bin" []
           {| ID := 1%N; Name := "f.bin"; Topic := "150" |} 110 (snd fresh_run)
           (block_at 60 (sample_file 150) 0 0 0) (block_at 60 (sample_file 150) 0 0 2));
    [sample_ready | reflexivity | reflexivity | vm_compute; reflexivity
    | vm_compute; discriminate | vm_compute; reflexivity | vm_compute; discriminate].
Defined.

(** X13.  Resume of a remote file whose newest block is not named by a number
    (lines 192-195 of up.go): the run fails with the error of
    strconv.Atoi and has only opened the local file. *)
Theorem resume_block_name_not_a_number (env : Env) (local : string)
    (rest : list string) (channel : Channel) (mx : Z) (w : World)
    (a0 a : MessageAttachment) (e : string) :
  resume_ready env local rest channel mx ->
  list_err env "0" = None ->
  list_err env "" = None ->
  oldest_attachment w (ID channel) = Some a0 ->
  Size a0 <= mx ->
  newest_attachment w (ID channel) = Some a ->
  Size a = Size a0 ->
  Atoi (Filename a) = inr e ->
  up env (local :: rest) w = (Err e, opened local w).
Proof.
  intros Hready Hlist0 Hlist Hold Hsize Hnew Hsame Hname.
  rewrite (up_inspects env local rest channel mx w Hready).
  rewrite Hlist0, Hlist, Hold. rewrite bool_decide_eq_true_2 by reflexivity.
  cbn [negb].
  destruct (Z.gtb_spec (Size a0) mx) as [Hgt|_]; [lia|].
  rewrite inferBlockNumber_newest. fold (newest_attachment w (ID channel)).
  rewrite Hnew, Hsame, Z.eqb_refl. cbn [negb]. rewrite Hname. reflexivity.
Qed.

Lemma resume_block_name_not_a_number_witness :
  up complete_env ["dir/f.bin"] misnamed_world
  = (Err ("strconv.Atoi: parsing " +:+ quote "two" +:+ ": invalid syntax"),
     opened "dir/f.bin" misnamed_world).
Proof.
  apply (resume_block_name_not_a_number complete_env "dir/f.bin" [] complete_channel
           110 misnamed_world (complete_block "1" 0) (complete_block "two" 60));
    [sample_ready | reflexivity | reflexivity | reflexivity | simpl; lia
    | reflexivity | reflexivity | vm_compute; reflexivity].
Defined.

(** ** Block names: strconv.Itoa and strconv.Atoi *)

#[local] Transparent Itoa.

Ltac digit_value :=
  match goal with
  | |- context [digit_of ?c] =>
      let v := eval vm_compute in (digit_of c) in change (digit_of c) with v
  end; cbv beta iota.

Lemma parse_digits_acc (d : Decimal.uint) :
  forall acc : positive,
    parse_digits (Z.pos acc) (NilEmpty.string_of_uint d)
    = Some (Z.pos (Pos.of_uint_acc d acc)).
Proof.
  induction d; intros acc; cbn [NilEmpty.string_of_uint parse_digits Pos.of_uint_acc];
    try reflexivity; digit_value;
    match goal with
    | |- parse_digits ?z _ = Some (Z.pos (Pos.of_uint_acc _ ?a)) =>
        replace z with (Z.pos a) by lia; apply IHd
    end.
Qed.

Lemma parse_digits_uint (d : Decimal.uint) :
  parse_digits 0 (NilEmpty.string_of_uint d) = Some (Z.of_N (Pos.of_uint d)).
Proof.
  induction d; cbn [NilEmpty.string_of_uint parse_digits Pos.of_uint];
    try reflexivity; digit_value; try exact IHd;
    match goal with
    | |- parse_digits ?z _ = _ =>
        let p := eval vm_compute in z in change z with p
    end; rewrite parse_digits_acc; reflexivity.
Qed.

(** The decimal string of a positive number starts with a digit. *)
Lemma string_of_uint_pos (p : positive) :
  exists c s, NilEmpty.string_of_uint (Pos.to_uint p) = String c s
              /\ c <> "-"%char /\ c <> "+"%char.
Proof.
  pose proof (DecimalPos.Unsigned.to_uint_nonnil p) as Hnil.
  destruct (Pos.to_uint p); cbn [NilEmpty.string_of_uint]; try easy;
    eexists _, _; (split; [reflexivity|split; discriminate]).
Qed.

Lemma Atoi_unsigned (c : ascii) (s : string) (v : Z) :
  c <> "-"%char -> c <> "+"%char ->
  parse_digits 0 (String c s) = Some v ->
  0 <= v < 2 ^ 63 ->
  Atoi (String c s) = inl v.
Proof.
  intros Hm Hp Hparse Hv. unfold Atoi.
  assert (Hbody : match String c s with
                  | String "-" rest => (true, rest)
                  | String "+" rest => (false, rest)
                  | _ => (false, String c s)
                  end = (false, String c s)).
  { destruct c as [[] [] [] [] [] [] [] []]; try reflexivity; congruence. }
  rewrite Hbody. rewrite Hparse.
  destruct (Z.leb_spec (- 2 ^ 63) v); [|lia].
  destruct (Z.ltb_spec v (2 ^ 63)); [reflexivity|lia].
Qed.

(** Every [int] is read back from its decimal string. *)
Lemma Atoi_Itoa_pos (p : positive) :
  Z.pos p < 2 ^ 63 -> Atoi (Itoa (Z.pos p)) = inl (Z.pos p).
Proof.
  intros Hp. unfold Itoa. cbn [Z.to_int NilZero.string_of_int].
  unfold NilZero.string_of_uint.
  pose proof (DecimalPos.Unsigned.to_uint_nonnil p) as Hnil.
  destruct (string_of_uint_pos p) as (c & s & Hs & Hm & Hplus).
  assert (Hparse := parse_digits_uint (Pos.to_uint p)).
  rewrite DecimalPos.Unsigned.of_to in Hparse. cbn [Z.of_N] in Hparse.
  destruct (Pos.to_uint p) eqn:Hu; try easy;
    rewrite Hs in *; apply Atoi_unsigned; try assumption; lia.
Qed.

Lemma Atoi_Itoa_neg (p : positive) :
  Z.pos p <= 2 ^ 63 -> Atoi (Itoa (Z.neg p)) = inl (Z.neg p).
Proof.
  intros Hp. unfold Itoa. cbn [Z.to_int NilZero.string_of_int].
  unfold NilZero.string_of_uint.
  destruct (string_of_uint_pos p) as (c & s & Hs & _).
  assert (Hparse := parse_digits_uint (Pos.to_uint p)).
  rewrite DecimalPos.Unsigned.of_to in Hparse. cbn [Z.of_N] in Hparse.
  pose proof (DecimalPos.Unsigned.to_uint_nonnil p) as Hnil.
  assert (Hstr : match Pos.to_uint p with
                 | Decimal.Nil => "0"
                 | _ => NilEmpty.string_of_uint (Pos.to_uint p)
                 end = String c s).
  { destruct (Pos.to_uint p); try easy; exact Hs. }
  rewrite Hstr. rewrite Hs in Hparse.
  unfold Atoi. cbv iota beta. rewrite Hparse.
  destruct (Z.leb_spec (- 2 ^ 63) (- Z.pos p)); [|lia].
  destruct (Z.ltb_spec (- Z.pos p) (2 ^ 63)); [reflexivity|lia].
Qed.

#[local] Opaque Itoa.

Lemma Atoi_Itoa (z : Z) : int64_range z -> Atoi (Itoa z) = inl z.
Proof.
  intros [Hlo Hhi]. destruct z as [|p|p].
  - reflexivity.
  - now apply Atoi_Itoa_pos.
  - apply Atoi_Itoa_neg. lia.
Qed.

(** X14.  The number of a block makes the round trip from upload to
    resume: a message that upload has sent for block [bn] (lines 306-307
    and 69-78 of up.go), found by the loop of the resume inspection
    behind any number of messages without attachment (lines 185-197), is
    read back as [bn] when its size is the block size: strconv.Atoi
    undoes strconv.Itoa on every [int]. *)
Theorem block_number_round_trip (bn : Z) (chunk : list Byte.byte) (id : N)
    (notices older : list Message) :
  int64_range bn ->
  Forall (fun m => Attachments m = []) notices ->
  let sent := {| MsgID := id;
                 Attachments := map attachment_of
                                  (Files (createUploadMessage (Itoa bn) chunk)) |} in
  inferBlockNumber (notices ++ sent :: older) (Z.of_nat (length chunk)) 0 = inl bn.
Proof.
  intros Hbn Hnotices. cbn zeta.
  induction Hnotices as [|m notices Hm _ IH].
  - cbn [app inferBlockNumber Attachments createUploadMessage Files map
           attachment_of Size Filename FName Reader].
    rewrite Z.eqb_refl. cbn [negb]. now apply Atoi_Itoa.
  - cbn [app inferBlockNumber]. rewrite Hm. exact IH.
Qed.

Lemma block_number_round_trip_witness :
  inferBlockNumber
    ([ {| MsgID := 3%N; Attachments := [] |} ]
       ++ {| MsgID := 2%N;
             Attachments := map attachment_of
                              (Files (createUploadMessage (Itoa 7) (sample_file 60))) |}
       :: complete_messages)
    (Z.of_nat (length (sample_file 60))) 0
  = inl 7.
Proof.
  apply (block_number_round_trip 7 (sample_file 60) 2%N
           [ {| MsgID := 3%N; Attachments := [] |} ] complete_messages).
  - unfold int64_range. lia.
  - repeat constructor.
Defined.

(** ** The shape of what an upload leaves in its channel *)

Section Log.

Variable env : Env.
Variables (channel : Channel) (filename : string) (size : Z) (debug : bool).

#[local] Abbreviation ch := (ID channel).








End Log.




(** ** What an upload that is cut short leaves behind *)

Section ChunkLoopPrefix.

Variable env : Env.
Variables (channel : Channel) (size chunkSize : Z) (debug : bool)
  (bar : option ProgressBar).

Hypothesis chunkSize_pos : 0 < chunkSize.

#[local] Abbreviation K := (Z.to_nat chunkSize).
#[local] Abbreviation data := (file_data env).


End ChunkLoopPrefix.







(** ** An upload that is complete *)





(** ** Fresh uploads after their set-up *)

(** How a fresh run goes on after its set-up. *)
Lemma up_creates (env : Env) (local : string) (rest : list string)
    (enc : string) (mx : Z) (w : World) :
  fresh_ready env local rest enc mx ->
  let size := Z.of_nat (length (file_data env)) in
  let channel := {| ID := w_next w; Name := enc; Topic := "" |} in
  up env (local :: rest) w
  = (if size <=? mx
     then uploadSingleFile env channel (snd (filepath_Split local)) size
            (upDebug env) false
     else uploadChunkedFile env channel (snd (filepath_Split local)) size mx
            (upDebug env) false 0) (created env local enc w).
Proof.
  intros (Hres & Hsess & (fileMap & Hfm & Hlimit & Hlookup) & Hopen & Hstat & Hmx
          & Henc & Hcreate).
  unfold remote_name in *. cbn zeta. unfold up. rewrite Hres. cbn [negb andb].
  unfold bind at 1. unfold GetDiscordSession, lift_err. rewrite Hsess.
  unfold ret at 1. unfold bind at 1. unfold ParseFileMap, lift_result.
  rewrite Hfm. unfold ret at 1.
  destruct (Z.geb_spec (Z.of_nat (size fileMap)) (MaxDiscordChannels env))
    as [Hge|_]; [lia|].
  unfold bind at 1. unfold os_Open. rewrite Hopen.
  rewrite bool_decide_eq_false_2 by (rewrite Hlookup; now intros [? ?]).
  cbn [negb andb].
  unfold bind at 1. unfold Stat_Size. rewrite Hstat.
  unfold ret at 1. unfold bind at 1. unfold GetMaxFileSizeUpload, lift_result.
  rewrite Hmx.
  unfold ret at 1. unfold bind at 1. unfold up_create. unfold bind at 1.
  rewrite Henc. unfold lift_result at 1. unfold ret at 1. cbv beta iota.
  fold (opened local w).
  unfold created, GuildChannelCreate. rewrite Hcreate. cbn [snd ID].
  change (w_next (opened local w)) with (w_next w).
  unfold bind at 1.
  destruct (ChannelEdit env (w_next w) _ _) as [r1 w1] eqn:Hedit.
  assert (Hr1 : r1 = Ok tt).
  { revert Hedit. unfold ChannelEdit. destruct (edit_ok env); [|congruence].
    destruct (w_channels _ !! _); congruence. }
  subst r1. unfold ret at 1. cbn [fst snd].
  destruct (_ <=? mx); reflexivity.
Qed.

(** X17.  A fresh upload of a file that needs chunking, under a size limit of
    50 bytes or less (lines 267-270 of up.go): the run fails with
    calculated chunk size is too small, after it has created the channel
    of the file, which it leaves behind empty; nothing is sent. *)
Theorem chunk_size_too_small (env : Env) (local : string) (rest : list string)
    (enc : string) (mx : Z) (w : World) :
  fresh_ready env local rest enc mx ->
  - 2 ^ 63 + 50 <= mx <= 50 ->
  mx < Z.of_nat (length (file_data env)) ->
  let w' := created env local enc w in
  up env (local :: rest) w = (Err "calculated chunk size is too small", w')
  /\ (exists topic,
         w_channels w' !! w_next w
         = Some {| ID := w_next w; Name := enc; Topic := topic |})
  /\ w_messages w' = w_messages w
  /\ filter is_send (new_events w w') = [].
Proof.
  intros Hready Hmx Hsize. cbn zeta.
  rewrite (up_creates env local rest enc mx w Hready). cbn zeta.
  destruct (Z.leb_spec (Z.of_nat (length (file_data env))) mx) as [Hle|_]; [lia|].
  rewrite uploadChunkedFile_too_small
    by (rewrite wrap64_small by (unfold int64_range; lia); lia).
  split; [reflexivity|].
  destruct Hready as (_ & _ & _ & _ & _ & _ & _ & Hcreate).
  unfold created, GuildChannelCreate, ChannelEdit, new_events.
  rewrite Hcreate. cbn [snd w_next opened with_offset with_trace with_next
                          with_channel w_channels ID].
  rewrite lookup_insert_eq.
  destruct (edit_ok env);
    cbn [snd w_channels w_messages w_trace with_trace with_channel with_next
           with_offset opened ID Name];
    (split; [eexists; try apply lookup_insert_eq; reflexivity|]);
    (split; [reflexivity|]);
    rewrite <- !app_assoc, drop_app_length; reflexivity.
Qed.

Lemma chunk_size_too_small_witness :
  let w' := created tiny_limit_env "dir/f.bin" "f.bin" empty_world in
  up tiny_limit_env ["dir/f.bin"] empty_world
  = (Err "calculated chunk size is too small", w')
  /\ (exists topic,
         w_channels w' !! w_next empty_world
         = Some {| ID := w_next empty_world; Name := "f.bin"; Topic := topic |})
  /\ w_messages w' = w_messages empty_world
  /\ filter is_send (new_events empty_world w') = [].
Proof.
  apply (chunk_size_too_small tiny_limit_env "dir/f.bin" [] "f.bin" 50 empty_world).
  - repeat split; try reflexivity. exists ∅. repeat split; vm_compute; reflexivity.
  - lia.
  - vm_compute. reflexivity.
Defined.

(** ** Upload, then delete *)

(** X18.  Deleting the file of a fresh upload, whatever the outcome of the
    upload and wherever it was cut short, gives back the channels and the
    messages that the guild had before: the upload has touched nothing
    but its own channel (lines 92-229 of up.go, lines 29-54 of rm.go). *)
Theorem rm_undoes_up (env env' : Env) (args : list string) (name : string)
    (others : list string) (fileMap : gmap string Channel) (channel : Channel)
    (w : World) :
  upResume env = false ->
  w_channels w !! w_next w = None ->
  messages_of w (w_next w) = [] ->
  GetDiscordSession_err env' = None ->
  ParseFileMap_result env' = inl fileMap ->
  fileMap !! name = Some channel ->
  ID channel = w_next w ->
  exists w2,
    rm env' None (name :: others) (snd (up env args w)) = (Ok tt, w2)
    /\ w_channels w2 = w_channels w
    /\ forall c, messages_of w2 c = messages_of w c.
Proof.
  intros Hfresh Hfree Hnew Hsess Hfm Hlookup Hid.
  destruct (up env args w) as [r w'] eqn:Hrun. cbn [snd].
  exists (without_channel (w_next w) w'). split.
  { unfold rm, bind, GetDiscordSession, ParseFileMap, lift_err, lift_result, ret.
    rewrite Hsess, Hfm, Hlookup, Hid. reflexivity. }
  assert (Hframe : delete (w_next w) (w_channels w') = w_channels w
                   /\ forall c, c <> w_next w -> messages_of w' c = messages_of w c).
  { destruct (up_fresh_setup env args w r w' Hfresh Hrun)
      as [(tr & _ & _ & Hmsgs & Hch & _)
         |(local & rest & mx & enc & w1 & _ & _ & _ & _ & Hmsgs & Hch & _ & Hpath)].
    - split; [rewrite Hch; now apply delete_id|].
      intros c _. unfold messages_of. now rewrite Hmsgs.
    - apply up_path_extends in Hpath.
      destruct Hpath as [[(Hch' & Hother & _) _] _]. cbn [ID] in *.
      split; [rewrite Hch', Hch; now apply delete_insert_id|].
      intros c Hc. rewrite (Hother c Hc). unfold messages_of. now rewrite Hmsgs. }
  destruct Hframe as [Hch Hmsgs]. split; [exact Hch|].
  intros c. unfold messages_of at 1, without_channel. cbn [w_messages].
  destruct (decide (c = w_next w)) as [->|Hc].
  - now rewrite lookup_delete_eq, Hnew.
  - rewrite lookup_delete_ne by congruence. now apply Hmsgs.
Qed.

Lemma rm_undoes_up_witness :
  exists w2,
    rm finished_env None ["f.bin"] (snd (up interrupted_env ["dir/f.bin"] empty_world))
    = (Ok tt, w2)
    /\ w_channels w2 = w_channels empty_world
    /\ forall c, messages_of w2 c = messages_of empty_world c.
Proof.
  apply (rm_undoes_up interrupted_env finished_env ["dir/f.bin"] "f.bin" []
           (fileMap_of (snd fresh_run))
           {| ID := 1%N; Name := "f.bin"; Topic := "150" |} empty_world);
    [reflexivity | reflexivity | reflexivity | reflexivity | reflexivity
    | vm_compute; reflexivity | reflexivity].
Defined.

(** ** The errors of the chunked path *)

(** A wrapped send that is given up reports the number of attempts and
    the last failure. *)
Lemma sendMessageWithRetry_loop_error (env : Env) (channelID : N)
    (msg : MessageSend) (maxTries : Z) (todo : nat) :
  forall (i : Z) (err : option string) (w : World) e w',
    sendMessageWithRetry_loop env todo i channelID msg maxTries err w = (Err e, w') ->
    exists last,
      e = "failed after " +:+ Itoa maxTries +:+ " attempts: " +:+ default "<nil>" last
      /\ ((todo = 0%nat /\ last = err)
          \/ exists k e0, send_err env k = Some e0 /\ last = Some e0).
Proof.
  induction todo as [|todo IH]; intros i err w e w' Hrun.
  { inversion Hrun; subst. exists err. split; [reflexivity|now left]. }
  cbn [sendMessageWithRetry_loop] in Hrun.
  unfold ChannelMessageSendComplex in Hrun.
  destruct (send_err env (w_sends w)) as [e1|] eqn:Hsend; [|discriminate].
  unfold bind at 1 in Hrun.
  destruct ((if i <? maxTries - 1
             then run emit (EvLogRetry (i + 1) (wrap64 (Second * (i + 1))) e1) in
                  emit (EvSleep (wrap64 (Second * (i + 1))))
             else ret tt)
              (with_trace (EvSend channelID msg (inr e1)) (with_send_counted w)))
    as [r1 w1] eqn:Hwait.
  assert (Hr1 : r1 = Ok tt) by (destruct (i <? maxTries - 1); now inversion Hwait).
  subst r1. apply IH in Hrun. destruct Hrun as (last & -> & Hlast).
  exists last. split; [reflexivity|]. right.
  destruct Hlast as [[_ ->]|Hlast]; [now exists (w_sends w), e1|exact Hlast].
Qed.

Section ChunkLoopErrors.

Variable env : Env.
Variables (channel : Channel) (size chunkSize : Z) (debug : bool)
  (bar : option ProgressBar).

Hypothesis chunkSize_pos : 0 < chunkSize.

Lemma uploadChunkedFile_loop_errors (fuel : nat) :
  forall (first : bool) (bn : Z) (w : World) e w',
    uploadChunkedFile_loop env fuel channel size chunkSize debug bar first bn w
    = (Err e, w') ->
    (exists b off e0,
        read_err env off = Some e0
        /\ e = "failed to read chunk " +:+ Itoa b +:+ ": " +:+ e0)
    \/ exists k e0,
        send_err env k = Some e0
        /\ e = "failed after " +:+ Itoa 10 +:+ " attempts: " +:+ e0.
Proof.
  induction fuel as [|fuel IH]; intros first bn w e w' Hrun; [discriminate|].
  rewrite uploadChunkedFile_loop_step in Hrun by exact chunkSize_pos.
  cbn zeta in Hrun.
  destruct (read_err env (w_offset w)) as [e0|] eqn:Hread.
  { left. exists (wrap64 (bn + 1)), (w_offset w), e0.
    split; [exact Hread|]. now inversion Hrun. }
  destruct (next_chunk env chunkSize w) as [|b l] eqn:Hc; [discriminate|].
  rewrite <- Hc in Hrun.
  destruct (sendMessageWithRetry env (ID channel) _ 10 _) as [r3 w3] eqn:Hsend.
  destruct r3 as [m|e3| |]; try discriminate.
  - destruct (length (next_chunk env chunkSize w) <? Z.to_nat chunkSize)%nat;
      [discriminate|]. now apply IH in Hrun.
  - inversion Hrun; subst. right.
    apply sendMessageWithRetry_loop_error in Hsend.
    destruct Hsend as (last & -> & [[H0 _]|(k & e0 & Hk & ->)]); [discriminate|].
    now exists k, e0.
Qed.

End ChunkLoopErrors.

(** X19.  The chunked path returns three errors and no other: the chunk size is
    too small, a read of the local file failed, or a send was given up
    after its 10 attempts.  The validation of the size of a chunk (lines
    81-89 and 295-297 of up.go) never fails an upload. *)
Theorem uploadChunkedFile_errors (env : Env) (channel : Channel)
    (filename : string) (size maxChunkSize : Z) (debug resume : bool)
    (startBlock : Z) (w : World) (e : string) (w' : World) :
  uploadChunkedFile env channel filename size maxChunkSize debug resume
    startBlock w = (Err e, w') ->
  (e = "calculated chunk size is too small"
   \/ (exists b off e0,
          read_err env off = Some e0
          /\ e = "failed to read chunk " +:+ Itoa b +:+ ": " +:+ e0)
   \/ exists k e0,
        send_err env k = Some e0
        /\ e = "failed after " +:+ Itoa 10 +:+ " attempts: " +:+ e0)
  /\ forall b e1, e <> "chunk " +:+ Itoa b +:+ " validation failed: " +:+ e1.
Proof.
  intros Hrun.
  assert (Hcases : e = "calculated chunk size is too small"
                   \/ (exists b off e0,
                          read_err env off = Some e0
                          /\ e = "failed to read chunk " +:+ Itoa b +:+ ": " +:+ e0)
                   \/ exists k e0,
                        send_err env k = Some e0
                        /\ e = "failed after " +:+ Itoa 10 +:+ " attempts: " +:+ e0).
  { destruct (Z.le_gt_cases (wrap64 (maxChunkSize - 50)) 0) as [H|H].
    - rewrite uploadChunkedFile_too_small in Hrun by exact H.
      inversion Hrun. now left.
    - destruct (uploadChunkedFile_unfold env channel filename size maxChunkSize debug
                  resume startBlock w) as (bar & tr0 & _ & _ & _ & Heq); [lia|].
      rewrite Heq in Hrun. right.
      now apply uploadChunkedFile_loop_errors in Hrun. }
  split; [exact Hcases|].
  intros b e1 ->.
  destruct Hcases as [H|[(b' & off & e0 & _ & H)|(k & e0 & _ & H)]]; discriminate H.
Qed.

Lemma uploadChunkedFile_errors_witness :
  exists e,
    fst interrupted_run = Err e
    /\ (e = "calculated chunk size is too small"
        \/ (exists b off e0,
               read_err interrupted_env off = Some e0
               /\ e = "failed to read chunk " +:+ Itoa b +:+ ": " +:+ e0)
        \/ exists k e0,
             send_err interrupted_env k = Some e0
             /\ e = "failed after " +:+ Itoa 10 +:+ " attempts: " +:+ e0)
    /\ forall b e1, e <> "chunk " +:+ Itoa b +:+ " validation failed: " +:+ e1.
Proof.
  exists ("failed after " +:+ Itoa 10 +:+ " attempts: " +:+ "EOF").
  split; [vm_compute; reflexivity|].
  apply (uploadChunkedFile_errors interrupted_env
           {| ID := 1%N; Name := "f.bin"; Topic := "" |} "f.bin" 150 110 false false 0
           (created interrupted_env "dir/f.bin" "f.bin" empty_world) _
           (snd interrupted_run)).
  vm_compute. reflexivity.
Defined.

(** ** The upload paths of the two versions *)

Section Versions.

Variable env : Env.

Ltac same_stored :=
  repeat match goal with
         | w : World |- _ => destruct w
         end;
  unfold stored in *; cbn in *;
  repeat match goal with
         | H : (_, _) = (_, _) |- _ => injection H as H; subst
         end; subst; try reflexivity.

Lemma stored_trace (e : event) (w : World) : stored (with_trace e w) = stored w.
Proof. reflexivity. Qed.

(** One request to send, from two worlds that store the same. *)
Lemma ChannelMessageSendComplex_same (ch : N) (msg : MessageSend) (wa wb : World) :
  stored wa = stored wb ->
  fst (ChannelMessageSendComplex env ch msg wa)
  = fst (ChannelMessageSendComplex env ch msg wb)
  /\ stored (snd (ChannelMessageSendComplex env ch msg wa))
     = stored (snd (ChannelMessageSendComplex env ch msg wb))
  /\ match fst (ChannelMessageSendComplex env ch msg wa) with
     | Ok _ | Err _ => True
     | _ => False
     end.
Proof.
  intros H. unfold ChannelMessageSendComplex.
  assert (Hs : w_sends wa = w_sends wb) by (unfold stored in H; congruence).
  rewrite Hs.
  destruct (send_err env (w_sends wb)); (split; [|split; [|exact I]]); same_stored.
Qed.

Lemma ChannelMessagePin_same (pin : bool) (ch m : N) (wa wb : World) :
  stored wa = stored wb ->
  stored (snd ((if pin then ChannelMessagePin env ch m else ret tt) wa))
  = stored (snd ((if pin then ChannelMessagePin env ch m else ret tt) wb)).
Proof.
  intros H. destruct pin; [|exact H].
  unfold ChannelMessagePin. destruct (pin_ok env); same_stored.
Qed.

(** The retry loops of the two versions make the same requests. *)
Lemma send_loops_same (ch : N) (msg : MessageSend) (maxTries : Z)
    (wrap : string -> string) (todo : nat) :
  forall (i : Z) (err : option string) (wa wb : World),
    stored wa = stored wb ->
    match sendMessageWithRetry_loop env (S todo) i ch msg maxTries err wa,
          Part000.send_loop env (S todo) ch msg wrap wb with
    | (Ok m, wa'), (Ok m', wb') => m = m' /\ stored wa' = stored wb'
    | (Err _, wa'), (Err _, wb') => stored wa' = stored wb'
    | _, _ => False
    end.
Proof.
  induction todo as [|todo IH]; intros i err wa wb H;
    destruct (ChannelMessageSendComplex_same ch msg wa wb H) as (Hr & Hw & Hk);
    cbn [sendMessageWithRetry_loop Part000.send_loop];
    destruct (ChannelMessageSendComplex env ch msg wa) as [ra wa1];
    destruct (ChannelMessageSendComplex env ch msg wb) as [rb wb1];
    cbn [fst snd] in Hr, Hw, Hk; subst rb;
    (destruct ra as [m|e| |]; [now split| |contradiction..]).
  - unfold bind, fail. destruct (i <? maxTries - 1); exact Hw.
  - unfold bind at 1.
    destruct ((if i <? maxTries - 1
               then run emit (EvLogRetry (i + 1) (wrap64 (Second * (i + 1))) e) in
                    emit (EvSleep (wrap64 (Second * (i + 1))))
               else ret tt) wa1) as [r1 wa2] eqn:Hwait.
    assert (Hw2 : r1 = Ok tt /\ stored wa2 = stored wa1).
    { destruct (i <? maxTries - 1); inversion Hwait; subst; split; reflexivity. }
    destruct Hw2 as [-> Hw2].
    apply (IH (i + 1) (Some e) wa2 wb1). now rewrite Hw2.
Qed.

Variables (channel : Channel) (size chunkSize : Z) (debug : bool).

Hypothesis chunkSize_pos : 0 < chunkSize.

(** The progress report of one block in the other version. *)
#[local] Abbreviation old_report bar n :=
  (if negb debug && bool_decide (bar <> None) then emit (EvBarAdd n)
   else if debug then
     let! offset := Seek_current in
     emit (EvStdout (Itoa size +:+ " " +:+ Itoa offset +:+ Part000.newline))
   else ret tt).

Lemma old_report_stored (bar : option ProgressBar) (n : Z) (w : World) :
  stored (snd (old_report bar n w)) = stored w.
Proof.
  destruct (negb debug && bool_decide (bar <> None)); [reflexivity|].
  destruct debug; reflexivity.
Qed.

Lemma report_chunk_stored (bar : option ProgressBar) (bn n : Z) (w : World) :
  stored (snd (report_chunk debug bar bn size n w)) = stored w.
Proof.
  unfold report_chunk.
  destruct (negb debug && bool_decide (bar <> None)); [reflexivity|].
  destruct debug; reflexivity.
Qed.

(** One iteration of the loop of the other version, spelled out. *)
Lemma part000_loop_step (bar : option ProgressBar) (fuel : nat) (first : bool)
    (blockNumber : Z) (w : World) :
  Part000.uploadChunkedFile_loop env (S fuel) channel size chunkSize debug bar first
    blockNumber w
  = let blockNumber := wrap64 (blockNumber + 1) in
    match read_err env (w_offset w) with
    | Some e =>
        (Err ("failed to read chunk " +:+ Itoa blockNumber +:+ ": " +:+ e), w)
    | None =>
        let chunk := next_chunk env chunkSize w in
        let w1 := with_offset (w_offset w + length chunk) w in
        match chunk with
        | [] => (Ok tt, w1)
        | _ =>
            match Part000.send_loop env 10 (ID channel)
                    (createUploadMessage (Itoa blockNumber) chunk)
                    (fun e => "failed to upload chunk " +:+ Itoa blockNumber
                                +:+ ": " +:+ e) w1 with
            | (Ok message, w3) =>
                let w4 := snd (old_report bar (Z.of_nat (length chunk)) w3) in
                let w5 := snd ((if first
                                then ChannelMessagePin env (ID channel) (MsgID message)
                                else ret tt) w4) in
                if (length chunk <? Z.to_nat chunkSize)%nat then (Ok tt, w5)
                else Part000.uploadChunkedFile_loop env fuel channel size chunkSize
                       debug bar false blockNumber w5
            | (Err e, w3) => (Err e, w3)
            | (Crash, w3) => (Crash, w3)
            | (Timeout, w3) => (Timeout, w3)
            end
        end
    end.
Proof.
  cbn zeta. cbn [Part000.uploadChunkedFile_loop]. unfold bind at 1.
  unfold Part000.file_Read. fold (next_chunk env chunkSize w).
  destruct (read_err env (w_offset w)) as [e|] eqn:Herr; [reflexivity|].
  cbn [fst snd].
  destruct (next_chunk env chunkSize w) as [|b l] eqn:Hc.
  - cbn [length]. cbn [Nat.eqb andb].
    destruct (negb (Z.to_nat chunkSize =? 0)%nat); reflexivity.
  - assert ((Z.of_nat (length (b :: l)) =? 0) = false) as ->
      by (apply Z.eqb_neq; simpl; lia).
    assert (Hlt : (Z.of_nat (length (b :: l)) <? chunkSize)
                  = (length (b :: l) <? Z.to_nat chunkSize)%nat).
    { destruct (Z.ltb_spec (Z.of_nat (length (b :: l))) chunkSize);
        destruct (Nat.ltb_spec (length (b :: l)) (Z.to_nat chunkSize));
        try reflexivity; lia. }
    rewrite Hlt. cbn [length Nat.eqb andb]. cbv iota. rewrite orb_false_r.
    unfold bind at 1.
    destruct (Part000.send_loop env 10 (ID channel) _ _ _) as [[m|e| |] w3];
      try reflexivity.
    unfold bind at 1.
    destruct (old_report bar (Z.of_nat (S (length l))) w3) as [r4 w4] eqn:Hrep.
    assert (r4 = Ok tt) as ->.
    { revert Hrep. destruct (negb debug && bool_decide (bar <> None));
        [unfold emit; congruence|].
      destruct debug; [unfold bind, Seek_current, emit; congruence
                      |unfold ret; congruence]. }
    cbn [snd]. unfold bind at 1.
    destruct first.
    + unfold ChannelMessagePin.
      destruct (pin_ok env); cbn [snd]; destruct (_ <? _)%nat; reflexivity.
    + unfold ret at 1. cbn [snd]. destruct (_ <? _)%nat; reflexivity.
Qed.

(** The loops of the two versions, from two worlds that store the same,
    end with the same kind of outcome in worlds that store the same. *)
Lemma loops_same (bar bar' : option ProgressBar) (fuel : nat) :
  forall (first : bool) (bn : Z) (wa wb : World),
    stored wa = stored wb ->
    same_kind
      (fst (uploadChunkedFile_loop env fuel channel size chunkSize debug bar first
              bn wa))
      (fst (Part000.uploadChunkedFile_loop env fuel channel size chunkSize debug
              bar' first bn wb))
    /\ stored (snd (uploadChunkedFile_loop env fuel channel size chunkSize debug
                      bar first bn wa))
       = stored (snd (Part000.uploadChunkedFile_loop env fuel channel size
                        chunkSize debug bar' first bn wb)).
Proof.
  induction fuel as [|fuel IH]; intros first bn wa wb H; [now split|].
  rewrite uploadChunkedFile_loop_step by exact chunkSize_pos.
  rewrite part000_loop_step. cbn zeta.
  assert (Hoff : w_offset wa = w_offset wb) by (unfold stored in H; congruence).
  assert (Hchunk : next_chunk env chunkSize wa = next_chunk env chunkSize wb)
    by (unfold next_chunk; now rewrite Hoff).
  rewrite Hoff, Hchunk.
  destruct (read_err env (w_offset wb)); [now split|].
  assert (H1 : stored (with_offset (w_offset wb + length (next_chunk env chunkSize wb)) wa)
               = stored (with_offset (w_offset wb + length (next_chunk env chunkSize wb))
                           wb))
    by (unfold stored in *; cbn; congruence).
  destruct (next_chunk env chunkSize wb) as [|b l] eqn:Hc; [now split|].
  rewrite <- Hc in *.
  set (w1a := with_offset _ wa) in *. set (w1b := with_offset _ wb) in *.
  pose proof (send_loops_same (ID channel)
                (createUploadMessage (Itoa (wrap64 (bn + 1)))
                   (next_chunk env chunkSize wb)) 10
                (fun e => "failed to upload chunk " +:+ Itoa (wrap64 (bn + 1))
                            +:+ ": " +:+ e) 9 0 None
                (snd (report_chunk debug bar (wrap64 (bn + 1)) size
                        (Z.of_nat (length (next_chunk env chunkSize wb))) w1a))
                w1b) as Hsend.
  rewrite report_chunk_stored in Hsend. specialize (Hsend H1).
  change (sendMessageWithRetry_loop env 10 0 (ID channel)
            (createUploadMessage (Itoa (wrap64 (bn + 1)))
               (next_chunk env chunkSize wb)) 10 None)
    with (sendMessageWithRetry env (ID channel)
            (createUploadMessage (Itoa (wrap64 (bn + 1)))
               (next_chunk env chunkSize wb)) 10) in Hsend.
  destruct (sendMessageWithRetry env (ID channel) _ 10 _) as [ra w3a].
  destruct (Part000.send_loop env 10 (ID channel) _ _ w1b) as [rb w3b].
  destruct ra as [m|e| |], rb as [m'|e'| |]; try contradiction.
  - destruct Hsend as [<- H3].
    assert (H5 : stored (snd ((if first
                               then ChannelMessagePin env (ID channel) (MsgID m)
                               else ret tt) w3a))
                 = stored (snd ((if first
                                 then ChannelMessagePin env (ID channel) (MsgID m)
                                 else ret tt)
                                  (snd (old_report bar'
                                          (Z.of_nat (length (next_chunk env chunkSize wb)))
                                          w3b))))).
    { apply ChannelMessagePin_same. now rewrite old_report_stored. }
    destruct (length (next_chunk env chunkSize wb) <? Z.to_nat chunkSize)%nat.
    + split; [exact I|exact H5].
    + apply IH. exact H5.
  - split; [exact I|exact Hsend].
Qed.

End Versions.

(** X20.  The chunked paths of the two versions of the sources store the
    same: from the same world, with a local file whose reads fill the
    buffer, both end with the same kind of outcome (nil, or an error) and
    leave the same channels, messages and pins, after the same number of
    requests to send and with the file read to the same offset.  They
    differ in what they log, print and wait for, and in the text of their
    errors (lines 264-323 and 48-66 of up.go, lines 235-314 of
    part_000). *)
Theorem versions_store_the_same (env : Env) (channel : Channel)
    (filename : string) (size maxChunkSize : Z) (debug resume : bool)
    (startBlock : Z) (w : World) :
  let new := uploadChunkedFile env channel filename size maxChunkSize debug resume
               startBlock w in
  let old := Part000.uploadChunkedFile env channel filename size maxChunkSize debug
               resume startBlock w in
  same_kind (fst new) (fst old) /\ stored (snd new) = stored (snd old).
Proof.
  cbn zeta. unfold uploadChunkedFile, Part000.uploadChunkedFile. cbv zeta.
  destruct (Z.leb_spec (wrap64 (maxChunkSize - 50)) 0) as [_|Hpos]; [now split|].
  unfold bind at 1 3.
  destruct debug; cbn [negb]; unfold ret at 1 2; cbv beta iota; unfold bind, emit, ret;
    cbv beta iota; apply loops_same; try exact Hpos; reflexivity.
Qed.

(** ** The topic of the channel *)

Lemma Itoa_nonempty (z : Z) : int64_range z -> Itoa z <> "".
Proof.
  intros Hz He. pose proof (Atoi_Itoa z Hz) as H. rewrite He in H. discriminate H.
Qed.

(** X21.  The error of the request that sets the topic of a new channel
    is ignored (lines 216-221 of up.go), but the topic is what a resume
    checks first (lines 157-159): when Discord refuses the edit, the
    upload goes on, and every later resume into the channel, of whatever
    local file, fails with remote file size does not match local file
    size, after opening the local file and nothing else. *)
Theorem ignored_topic_error_blocks_resume (env env' : Env) (local : string)
    (rest : list string) (fileMap : gmap string Channel) (channel : Channel)
    (mx : Z) (w : World) :
  upResume env = false ->
  edit_ok env = false ->
  w_channels w !! w_next w = None ->
  let w' := snd (up env (local :: rest) w) in
  ID channel = w_next w ->
  w_channels w' !! w_next w = Some channel ->
  upResume env' = true ->
  GetDiscordSession_err env' = None ->
  ParseFileMap_result env' = inl fileMap ->
  fileMap !! remote_name local rest = Some channel ->
  Open_err env' = None ->
  Stat_err env' = None ->
  GetMaxFileSizeUpload_result env' = inl mx ->
  Z.of_nat (length (file_data env')) < 2 ^ 63 ->
  up env' (local :: rest) w'
  = (Err "remote file size does not match local file size", opened local w').
Proof.
  intros Hfresh Hedit Hfree w' Hid Hch Hres Hsess Hfm Hlookup Hopen Hstat Hmx Hsize.
  assert (Htopic : Topic channel = "").
  { subst w'. destruct (up env (local :: rest) w) as [r w1] eqn:Hrun.
    cbn [snd] in Hch.
    destruct (up_fresh_setup env _ w r w1 Hfresh Hrun)
      as [(tr & _ & _ & _ & Hsame & _)
         |(local' & rest' & mx' & enc & w0 & _ & _ & _ & _ & _ & Hch0 & _ & Hpath)].
    - rewrite Hsame, Hfree in Hch. discriminate.
    - apply up_path_extends in Hpath. destruct Hpath as [[(Hch1 & _) _] _].
      rewrite Hch1, Hch0, lookup_insert_eq, Hedit in Hch.
      inversion Hch. reflexivity. }
  unfold remote_name in Hlookup. unfold up. rewrite Hres. cbn [negb andb].
  unfold bind at 1. unfold GetDiscordSession, lift_err. rewrite Hsess.
  unfold ret at 1. unfold bind at 1. unfold ParseFileMap, lift_result.
  rewrite Hfm. unfold ret at 1.
  unfold bind at 1. unfold os_Open. rewrite Hopen.
  rewrite Hlookup. rewrite !andb_false_r, !andb_true_r.
  rewrite bool_decide_eq_true_2 by eauto. cbn [negb].
  unfold bind at 1. unfold Stat_Size. rewrite Hstat.
  unfold ret at 1. unfold bind at 1. unfold GetMaxFileSizeUpload, lift_result.
  rewrite Hmx.
  unfold ret at 1. unfold bind at 1. unfold up_resume. rewrite Hlookup, Htopic.
  destruct (String.eqb_spec "" (FormatInt (Z.of_nat (length (file_data env')))))
    as [He|_]; [|reflexivity].
  exfalso. symmetry in He. revert He. apply Itoa_nonempty.
  unfold int64_range. lia.
Qed.

Lemma ignored_topic_error_blocks_resume_witness :
  up unedited_resume_env ["dir/f.bin"] (snd (up unedited_env ["dir/f.bin"] empty_world))
  = (Err "remote file size does not match local file size",
     opened "dir/f.bin" (snd (up unedited_env ["dir/f.bin"] empty_world))).
Proof.
  apply (ignored_topic_error_blocks_resume unedited_env unedited_resume_env
           "dir/f.bin" [] {[ "f.bin" := unedited_channel ]} unedited_channel 110
           empty_world);
    [reflexivity | reflexivity | reflexivity | reflexivity | vm_compute; reflexivity
    | reflexivity | reflexivity | reflexivity | vm_compute; reflexivity | reflexivity
    | reflexivity | reflexivity | vm_compute; reflexivity].
Defined.
